(** * Valuation core: growth estimation, intrinsic value, ten cap, price lookup

    A shallow embedding of the Python modules [growth_estimation.py],
    [mos.py], [ten_cap.py] and [fmp_api.py] and of the fair value history
    of [csv_report.py], and the properties their specification states
    about them.

    Conventions of the embedding.
    - A Python [float] is a real number: arithmetic is exact, there is no
      rounding error, overflow, infinity or NaN.
    - A Python [int] is an integer. Turning one into a float, as [float(n)]
      does and as the true division of two ints does with their quotient,
      raises an [OverflowError] from [FLOAT_LIMIT] on. [str(n)] is the
      decimal text of [n], whatever its number of digits.
    - A value decoded from the provider's JSON is a [json]; a Python [dict]
      with string keys is a [gmap string _]; a [dict] that the code iterates
      over in insertion order is the list of its items.
    - A function that can raise returns an [outcome]; a function whose whole
      body sits in [try: ... except Exception: return None] returns an
      [option], [None] being Python's [None]. *)

From Stdlib Require Import Reals Lra Lia ZArith Ascii Sorted.
From stdpp Require Import base option list gmap strings pretty.

#[local] Open Scope R_scope.
#[local] Set Warnings "-register-all".

(** ** Python values *)

Module Py.

(** Values produced by [response.json()]. *)
Inductive json : Type :=
  | JNull
  | JBool (b : bool)
  | JInt (z : Z)
  | JFloat (r : R)
  | JStr (s : string)
  | JList (l : list json)
  | JDict (d : gmap string json).

(** The exceptions raised by the modelled code. *)
Inductive exn : Type :=
  | ValueError
  | IndexError
  | KeyError
  | TypeError
  | AttributeError
  | ZeroDivisionError
  | OverflowError
  | RequestError.

Inductive outcome (A : Type) : Type :=
  | Return (a : A)
  | Raise (e : exn).
Arguments Return {A} a.
Arguments Raise {A} e.

#[global] Instance outcome_bind : MBind outcome := λ A B k m,
  match m with
  | Return a => k a
  | Raise e => Raise e
  end.

#[global] Instance Rle_decision : RelDecision Rle := Rle_dec.
#[global] Instance Rlt_decision : RelDecision Rlt := Rlt_dec.
#[global] Instance Req_decision : EqDecision R := Req_dec_T.

(** Truth value of a JSON value, as tested by [if v:], [not v] and [or]. *)
Definition truthy (v : json) : bool :=
  match v with
  | JNull => false
  | JBool b => b
  | JInt z => negb (z =? 0)%Z
  | JFloat r => negb (bool_decide (r = 0))
  | JStr s => negb (String.eqb s "")
  | JList l => match l with [] => false | _ :: _ => true end
  | JDict d => match map_to_list d with [] => false | _ :: _ => true end
  end.

(** [a or b]. *)
Definition py_or (a b : json) : json := if truthy a then a else b.

(** The number an arithmetic operator sees in its operand; [None] is a
    [TypeError]. [bool] is a subclass of [int]. *)
Definition num (v : json) : option R :=
  match v with
  | JBool b => Some (if b then 1 else 0)
  | JInt z => Some (IZR z)
  | JFloat r => Some r
  | _ => None
  end.

(** [d.get(k, dflt)]. *)
Definition get (d : gmap string json) (k : string) (dflt : json) : json :=
  default dflt (d !! k).

(** The least magnitude beyond the floats: half-way between the largest
    float and [2 ** 1024], which rounds to the latter. *)
Definition FLOAT_LIMIT : Z := (2 ^ 1024 - 2 ^ 970)%Z.

(** [isinstance(v, int)]: a [bool] is an [int]. *)
Definition is_int (v : json) : bool :=
  match v with
  | JBool _ | JInt _ => true
  | _ => false
  end.

(** [isinstance(v, (int, float))]. *)
Definition is_number (v : json) : bool :=
  match v with
  | JBool _ | JInt _ | JFloat _ => true
  | _ => false
  end.

(** [v / d] for a JSON operand [v]. The divisor [d] is a float when [v] is
    one, and an [int] in every call whose operand can be an [int]: the true
    division of two ints raises an [OverflowError] when their quotient is
    beyond the floats. *)
Definition truediv (v : json) (d : R) : outcome R :=
  match num v with
  | None => Raise TypeError
  | Some r =>
    if bool_decide (d = 0) then Raise ZeroDivisionError
    else if is_int v && bool_decide (IZR FLOAT_LIMIT <= Rabs (r / d))
    then Raise OverflowError
    else Return (r / d)
  end.

(** The quotient of [v] by [d] is a float whenever [v] is an [int]. *)
Definition quotient_fits (v : json) (d : R) : Prop :=
  forall r, is_int v = true -> num v = Some r ->
            Rabs (r / d) < IZR FLOAT_LIMIT.

(** [abs(v)]: an [int] for an [int], a float for a float. *)
Definition py_abs (v : json) : outcome json :=
  match v with
  | JBool b => Return (JInt (if b then 1 else 0))
  | JInt z => Return (JInt (Z.abs z))
  | JFloat r => Return (JFloat (Rabs r))
  | _ => Raise TypeError
  end.

(** [s.lower()] on the ASCII letters of [s]. *)
Definition lower_ascii (c : ascii) : ascii :=
  let n := nat_of_ascii c in
  if (65 <=? n)%nat && (n <=? 90)%nat then ascii_of_nat (n + 32) else c.

Fixpoint lower (s : string) : string :=
  match s with
  | EmptyString => EmptyString
  | String c rest => String (lower_ascii c) (lower rest)
  end.

(** [needle in hay] on strings. *)
Fixpoint contains (needle hay : string) : bool :=
  String.prefix needle hay ||
  match hay with
  | EmptyString => false
  | String _ rest => contains needle rest
  end.

(** [k in v] for a string [k]. *)
Definition py_in (k : string) (v : json) : outcome bool :=
  match v with
  | JDict d => Return (bool_decide (is_Some (d !! k)))
  | JList l =>
    Return (existsb (λ x, match x with
                          | JStr s => String.eqb s k
                          | _ => false
                          end) l)
  | JStr s => Return (contains k s)
  | JNull | JBool _ | JInt _ | JFloat _ => Raise TypeError
  end.

(** [v[k]] for a string [k]. *)
Definition subscript_key (v : json) (k : string) : outcome json :=
  match v with
  | JDict d =>
    match d !! k with
    | Some x => Return x
    | None => Raise KeyError
    end
  | _ => Raise TypeError
  end.

(** [v[i]] for a natural number [i]. *)
Definition subscript_index (v : json) (i : nat) : outcome json :=
  match v with
  | JList l =>
    match l !! i with
    | Some x => Return x
    | None => Raise IndexError
    end
  | JStr s =>
    match String.get i s with
    | Some c => Return (JStr (String c EmptyString))
    | None => Raise IndexError
    end
  | JDict _ => Raise KeyError
  | JNull | JBool _ | JInt _ | JFloat _ => Raise TypeError
  end.

(** [v.get(k)], which only a dict has. *)
Definition dict_get (v : json) (k : string) : outcome json :=
  match v with
  | JDict d => Return (get d k JNull)
  | _ => Raise AttributeError
  end.

Fixpoint chars (s : string) : list json :=
  match s with
  | EmptyString => []
  | String c rest => JStr (String c EmptyString) :: chars rest
  end.

(** The items [for x in v] runs through. *)
Definition iter (v : json) : outcome (list json) :=
  match v with
  | JList l => Return l
  | JDict d => Return (map (λ kv, JStr kv.1) (map_to_list d))
  | JStr s => Return (chars s)
  | JNull | JBool _ | JInt _ | JFloat _ => Raise TypeError
  end.

(** [try: ... except Exception: return None] around a body that returns a
    value or [None]. *)
Definition except_none {A : Type} (body : outcome (option A)) : option A :=
  match body with
  | Return r => r
  | Raise _ => None
  end.

(** Round half to even, the rule of [round] on a tie. *)
Definition round_half_even (x : R) : Z :=
  let n := Zfloor x in
  let d := x - IZR n in
  if bool_decide (d < 1 / 2) then n
  else if bool_decide (1 / 2 < d) then (n + 1)%Z
  else if Z.even n then n else (n + 1)%Z.

(** [round(x, 2)]. *)
Definition round2 (x : R) : R := IZR (round_half_even (x * 100)) / 100.

(** [sum(l)]: left to right, from 0. *)
Definition sum (l : list R) : R := foldl Rplus 0 l.

End Py.

Import Py.

(** ** fmp_api.py *)

Module FmpApi.

Section WithProvider.

(** The key of module [api_key], which is not part of the repository. *)
Variable FMP_API_KEY : string.

(** [requests.get(url).json()]: the decoded body, or the exception of the
    request or of the decoder. *)
Variable requests_get_json : string -> outcome json.

(** [datetime.strptime(s, "%Y-%m-%d")] and [d.strftime("%Y-%m-%d")]. A
    [datetime] is its proleptic Gregorian ordinal, day 1 being 0001-01-01;
    [None] is the [ValueError] of a string that is no date. *)
Variable strptime : string -> option Z.
Variable strftime : Z -> string.

Definition get_income_statement (ticker : string) (limit : Z) : outcome json :=
  let url := "https://financialmodelingprep.com/api/v3/income-statement/"
             +:+ ticker +:+ "?limit=" +:+ pretty limit
             +:+ "&apikey=" +:+ FMP_API_KEY in
  requests_get_json url.

Definition get_cashflow_statement (ticker : string) (limit : Z)
    : outcome json :=
  let url := "https://financialmodelingprep.com/api/v3/cash-flow-statement/"
             +:+ ticker +:+ "?limit=" +:+ pretty limit
             +:+ "&apikey=" +:+ FMP_API_KEY in
  requests_get_json url.

Definition get_key_metrics (ticker : string) (limit : Z) : outcome json :=
  let url := "https://financialmodelingprep.com/api/v3/key-metrics/"
             +:+ ticker +:+ "?limit=" +:+ pretty limit
             +:+ "&apikey=" +:+ FMP_API_KEY in
  requests_get_json url.

Definition price_url (ticker date : string) : string :=
  "https://financialmodelingprep.com/api/v3/historical-price-full/"
  +:+ ticker +:+ "?from=" +:+ date +:+ "&to=" +:+ date
  +:+ "&apikey=" +:+ FMP_API_KEY.

(** The body of the [try] of [get_price_on_date], after the request. *)
Definition close_of (data : json) : outcome json :=
  has ← py_in "historical" data;
  if (has : bool) then
    historical ← subscript_key data "historical";
    if truthy historical then
      first ← subscript_index historical 0;
      subscript_key first "close"
    else Return JNull
  else Return JNull.

(** The price [get_price_on_date] returns, [JNull] being [None]. *)
Definition price_on_date (ticker date : string) : json :=
  match data ← requests_get_json (price_url ticker date); close_of data with
  | Return price => price
  | Raise _ => JNull
  end.

(** [log] is the list of the URLs requested so far, oldest first. *)
Definition get_price_on_date (ticker date : string) (log : list string)
    : json * list string :=
  (price_on_date ticker date, log ++ [price_url ticker date]).

(** The date string of the candidate [i] days before [base_date]. *)
Definition candidate (base_date : Z) (i : nat) : string :=
  strftime (base_date - Z.of_nat i)%Z.

(** [base_date - timedelta(days=i)]. *)
Definition minus_days (base_date : Z) (i : nat) : outcome Z :=
  let d := (base_date - Z.of_nat i)%Z in
  if (d <? 1)%Z then Raise OverflowError else Return d.

(** The loop [for i in range(14)] of [get_valid_price], over the values of
    [i] still to come. *)
Fixpoint search_back (ticker : string) (base_date : Z) (days : list nat)
    (log : list string) : outcome (json * json * list string) :=
  match days with
  | [] => Return (JNull, JNull, log)
  | i :: rest =>
    current_date ← minus_days base_date i;
    let date_str := strftime current_date in
    let '(price, log) := get_price_on_date ticker date_str log in
    if truthy price then Return (price, JStr date_str, log)
    else search_back ticker base_date rest log
  end.

Definition get_valid_price (ticker base_date_str : string)
    (log : list string) : outcome (json * json * list string) :=
  match strptime base_date_str with
  | None => Raise ValueError
  | Some base_date => search_back ticker base_date (seq 0 14) log
  end.

End WithProvider.

(** Two providers give the same price for the date, or prices that are both
    falsy: [None], 0, an empty string or an empty container. *)
Definition same_or_falsy (FMP_API_KEY : string)
    (requests1 requests2 : string -> outcome json) (ticker date : string)
    : Prop :=
  price_on_date FMP_API_KEY requests1 ticker date
  = price_on_date FMP_API_KEY requests2 ticker date \/
  (truthy (price_on_date FMP_API_KEY requests1 ticker date) = false /\
   truthy (price_on_date FMP_API_KEY requests2 ticker date) = false).

End FmpApi.

(** A provider with a close of 0 on 24 December 2019 and a close of 95.5
    on 21 December 2019, and a calendar for that month only. *)
Module PriceExample.

Definition strptime (s : string) : option Z :=
  if String.eqb s "2019-12-31" then Some 737424%Z else None.

Definition strftime (d : Z) : string := "2019-12-" +:+ pretty (d - 737393)%Z.

Definition response (close : json) : json :=
  JDict (<["symbol" := JStr "COF"]>
        (<["historical" := JList [JDict (<["close" := close]> ∅)]]> ∅)).

Definition provider (url : string) : outcome json :=
  if contains "?from=2019-12-24&" url then Return (response (JInt 0))
  else if contains "?from=2019-12-21&" url then Return (response (JFloat 95.5))
  else Return (JDict ∅).

(** The same provider without the day whose close is 0. *)
Definition provider_without_zero (url : string) : outcome json :=
  if contains "?from=2019-12-21&" url then Return (response (JFloat 95.5))
  else Return (JDict ∅).

End PriceExample.

(** ** growth_estimation.py *)

Module GrowthEstimation.

Section WithFloatParser.

(** [float(s)] on a string [s]; [None] when it raises. The grammar of float
    literals is left open: every result below holds for any parser. *)
Variable float_of_str : string -> option R.

(** [float(v)]; [None] when it raises: a [TypeError], the [ValueError] of a
    string that is no number, or the [OverflowError] of an [int] beyond the
    floats. *)
Definition py_float (v : json) : option R :=
  match v with
  | JBool b => Some (if b then 1 else 0)
  | JInt z => if (Z.abs z <? FLOAT_LIMIT)%Z then Some (IZR z) else None
  | JFloat r => Some r
  | JStr s => float_of_str s
  | JNull | JList _ | JDict _ => None
  end.

(** An argument that [float] rejects, or that is not strictly positive. *)
Definition invalid_arg (v : json) : Prop :=
  py_float v = None \/ exists r, py_float v = Some r /\ r <= 0.

Definition calculate_cagr (start end_ years : json) : R :=
  match py_float start with
  | None => 0
  | Some start =>
    match py_float end_ with
    | None => 0
    | Some end_ =>
      match py_float years with
      | None => 0
      | Some years =>
        if bool_decide (start <= 0) || bool_decide (end_ <= 0)
           || bool_decide (years <= 0)
        then 0
        else Rpower (end_ / start) (1 / years) - 1
      end
    end
  end.

(** The state of the loop of [mos_growth_estimate]. *)
Record acc : Type := Acc {
  details : gmap string R;
  growths : list R
}.

(** [values[i]] on a list; out of range raises. *)
Definition index (values : list R) (i : nat) : outcome R :=
  match values !! i with
  | Some v => Return v
  | None => Raise IndexError
  end.

(** One iteration of [for key, values in data_dict.items()]. *)
Definition metric_step (start_index : Z) (a : acc) (kv : string * list R)
    : outcome acc :=
  let '(key, values) := kv in
  if (Z.of_nat (length values) <? start_index + 6)%Z then
    Return (Acc (<[key := 0]> (details a)) (growths a))
  else
    let sub_values := take 6 (drop (Z.to_nat start_index) values) in
    start ← index sub_values 0;
    end_ ← index sub_values 5;
    if bool_decide (0 < start) && bool_decide (0 < end_) then
      let cagr := calculate_cagr (JFloat start) (JFloat end_) (JInt 5) in
      Return (Acc (<[key := round2 (cagr * 100)]> (details a))
                  (growths a ++ [cagr]))
    else
      Return (Acc (<[key := 0]> (details a)) (growths a ++ [0])).

Fixpoint metric_loop (start_index : Z) (a : acc)
    (items : list (string * list R)) : outcome acc :=
  match items with
  | [] => Return a
  | kv :: rest =>
    a' ← metric_step start_index a kv;
    metric_loop start_index a' rest
  end.

(** [data_dict] is the list of the dict's items, in insertion order. *)
Definition mos_growth_estimate (data_dict : list (string * list R))
    (target_year data_start_year : Z) : outcome (gmap string R) :=
  let start_index := (target_year - data_start_year - 5)%Z in
  if (start_index <? 0)%Z then Raise ValueError
  else
    a ← metric_loop start_index (Acc ∅ []) data_dict;
    let avg_growth :=
      match growths a with
      | [] => 0
      | _ :: _ => sum (growths a) / INR (length (growths a))
      end in
    Return (<["avg" := round2 (avg_growth * 100)]> (details a)).

End WithFloatParser.

End GrowthEstimation.

(** ** The growth estimate, as its specification words it *)

Module GrowthSpec.

(** The series reaches the end of the six-year window. *)
Definition long_enough (start_index : Z) (values : list R) : Prop :=
  (start_index + 6 <= Z.of_nat (length values))%Z.

#[global] Instance long_enough_dec (start_index : Z) (values : list R) :
  Decision (long_enough start_index values) :=
  Z.le_dec (start_index + 6)%Z (Z.of_nat (length values)).

(** The decimal CAGR over the window, 0 unless both ends of the window are
    strictly positive. *)
Definition window_cagr (start_index : Z) (values : list R) : R :=
  let i := Z.to_nat start_index in
  match values !! i, values !! (i + 5)%nat with
  | Some start, Some end_ =>
    if bool_decide (0 < start) && bool_decide (0 < end_)
    then Rpower (end_ / start) (1 / 5) - 1
    else 0
  | _, _ => 0
  end.

(** The decimal CAGR of a metric: forced to 0 when the series is short. *)
Definition metric_cagr (start_index : Z) (values : list R) : R :=
  if decide (long_enough start_index values)
  then window_cagr start_index values
  else 0.

(** The percentage kept for a metric. *)
Definition stored (start_index : Z) (values : list R) : R :=
  round2 (metric_cagr start_index values * 100).

Definition store (start_index : Z) (m : gmap string R)
    (kv : string * list R) : gmap string R :=
  <[kv.1 := stored start_index kv.2]> m.

(** The average over the four metrics, each of them counted. *)
Definition avg_of_four (start_index : Z) (eps book revenue cashflow : list R)
    : R :=
  round2 (100 * (metric_cagr start_index eps + metric_cagr start_index book
                 + metric_cagr start_index revenue
                 + metric_cagr start_index cashflow) / 4).

(** The metrics whose series are long enough, in the order of the dict. *)
Definition counted (start_index : Z) (data_dict : list (string * list R))
    : list (string * list R) :=
  filter (λ kv, long_enough start_index kv.2) data_dict.

(** The average over the counted metrics only, 0 when there is none. *)
Definition avg_of_counted (start_index : Z)
    (data_dict : list (string * list R)) : R :=
  let cagrs := map (λ kv, window_cagr start_index kv.2)
                   (counted start_index data_dict) in
  match cagrs with
  | [] => round2 (100 * 0)
  | _ :: _ => round2 (100 * (sum cagrs / INR (length cagrs)))
  end.

End GrowthSpec.

(** ** mos.py *)

Module Mos.

(** [discount_rate] and [mos] are keyword arguments with defaults 0.15 and
    0.50: [None] stands for an omitted argument. [breach_year] is only
    logged. The arguments are floats: as reals, their powers neither
    overflow nor underflow, so that the division raises for a
    [discount_rate] of -1 only. *)
Definition calculate_intrinsic_value (eps_now growth_rate : R)
    (breach_year : Z) (discount_rate mos : option R)
    : outcome (gmap string R) :=
  let discount_rate := default 0.15 discount_rate in
  let mos := default 0.50 mos in
  if bool_decide (eps_now <= 0) || bool_decide (growth_rate <= 0) then
    Return (<["EPS_10y" := 0]> (<["Future Value" := 0]>
           (<["Fair Value Today" := 0]> (<["MOS Price (50%)" := 0]> ∅))))
  else
    let eps_10y := eps_now * (1 + growth_rate) ^ 10 in
    let future_pe := growth_rate * 200 in
    let future_value := eps_10y * future_pe in
    fair_value_today ← truediv (JFloat future_value) ((1 + discount_rate) ^ 10);
    let mos_price := fair_value_today * (1 - mos) in
    Return (<["Groth_rate" := round2 (growth_rate * 100)]>
           (<["EPS_now" := round2 eps_now]>
           (<["EPS_10y" := round2 eps_10y]>
           (<["Future Value" := round2 future_value]>
           (<["Fair Value Today" := round2 fair_value_today]>
           (<["MOS Price (50%)" := round2 mos_price]> ∅)))))).

End Mos.

(** ** ten_cap.py *)

Module TenCap.

Definition MILLION : R := 1000000.

Definition calculate_owner_earnings (profit_before_tax depreciation
    working_capital_change maintenance_capex : R) : R :=
  let adjusted_maintenance := maintenance_capex * 0.5 in
  profit_before_tax + depreciation + working_capital_change
  - adjusted_maintenance.

(** Returns [(working_capital_change, components)], the components being the
    receivables and the payables change. *)
Definition calculate_working_capital_change (cashflow_data : gmap string json)
    : outcome (R * (R * R)) :=
  accounts_receivable_change ←
    truediv (get cashflow_data "accountsReceivables" (JInt 0)) MILLION;
  accounts_payable_change ←
    truediv (get cashflow_data "accountsPayables" (JInt 0)) MILLION;
  let working_capital_change :=
    accounts_receivable_change + accounts_payable_change in
  Return (working_capital_change,
          (accounts_receivable_change, accounts_payable_change)).

(** The debug loop run when no depreciation was found: each value whose key
    mentions depreciation is divided by [MILLION] to be printed. *)
Fixpoint log_depreciation_fields (items : list (string * json))
    : outcome unit :=
  match items with
  | [] => Return ()
  | (key, value) :: rest =>
    if contains "depreciation" (lower key) then
      _ ← truediv value MILLION;
      log_depreciation_fields rest
    else log_depreciation_fields rest
  end.

(** The debug loop run before the price is returned: each value of the
    cash flow record that is an [int] or a [float] is divided by [MILLION]
    to be printed. *)
Fixpoint log_cashflow_fields (items : list (string * json)) : outcome unit :=
  match items with
  | [] => Return ()
  | (key, value) :: rest =>
    if is_number value then
      _ ← truediv value MILLION;
      log_cashflow_fields rest
    else log_cashflow_fields rest
  end.

Section WithProvider.

Variable FMP_API_KEY : string.
Variable requests_get_json : string -> outcome json.

(** [repr] of a float, a list or a dict, whose text no result depends on. *)
Variable py_repr : json -> string.

(** [str(v)]. *)
Definition py_str (v : json) : string :=
  match v with
  | JNull => "None"
  | JBool true => "True"
  | JBool false => "False"
  | JInt z => pretty z
  | JStr s => s
  | JFloat _ | JList _ | JDict _ => py_repr v
  end.

(** [next((data for data in items
          if str(data.get('calendarYear')) == year_str), None)]. *)
Fixpoint next_year (items : list json) (year_str : string) : outcome json :=
  match items with
  | [] => Return JNull
  | data :: rest =>
    y ← dict_get data "calendarYear";
    if String.eqb (py_str y) year_str then Return data
    else next_year rest year_str
  end.

(** The operand of the depreciation: the first truthy value of four fields
    of the cash flow record, the last field when none is. *)
Definition depreciation_value (current_cashflow : gmap string json) : json :=
  py_or (get current_cashflow "depreciationAndAmortization" (JInt 0))
  (py_or (get current_cashflow "depreciation" (JInt 0))
  (py_or (get current_cashflow "depreciationAmortizationDepletion" (JInt 0))
         (get current_cashflow "depreciationDepletionAndAmortization"
            (JInt 0)))).

(** The operand of the shares outstanding: two fields of the key metrics,
    then the same two fields of the income record. *)
Definition shares_value (current_metrics current_year_data
    : gmap string json) : json :=
  py_or (get current_metrics "weightedAverageShsOut" (JInt 0))
  (py_or (get current_metrics "weightedAverageShsOutDil" (JInt 0))
  (py_or (get current_year_data "weightedAverageShsOut" (JInt 0))
         (get current_year_data "weightedAverageShsOutDil" (JInt 0)))).

(** The computation on the three records of the year. *)
Definition ten_cap_of_records (current_year_data current_cashflow
    current_metrics : gmap string json) : outcome (option R) :=
  profit_before_tax ←
    truediv (get current_year_data "incomeBeforeTax" (JInt 0)) MILLION;
  depreciation ← truediv (depreciation_value current_cashflow) MILLION;
  _ ← (if bool_decide (depreciation = 0)
       then log_depreciation_fields (map_to_list current_cashflow)
       else Return ());
  wc ← calculate_working_capital_change current_cashflow;
  let working_capital_change := wc.1 in
  capex ← py_abs (get current_cashflow "capitalExpenditure" (JInt 0));
  maintenance_capex ← truediv capex MILLION;
  shares_outstanding ←
    truediv (shares_value current_metrics current_year_data) MILLION;
  if bool_decide (shares_outstanding <= 0) then Return None
  else
    let owner_earnings :=
      calculate_owner_earnings profit_before_tax depreciation
        working_capital_change maintenance_capex in
    eps ← (if bool_decide (0 < shares_outstanding)
           then truediv (JFloat owner_earnings) shares_outstanding
           else Return 0);
    let ten_cap_price := eps / 0.10 in
    _ ← log_cashflow_fields (map_to_list current_cashflow);
    Return (Some ten_cap_price).

(** [year] is an [int], or [None] when the argument is omitted. *)
Definition calculate_ten_cap_price (ticker : string) (year : option Z)
    : option R :=
  except_none (
    income_data ← FmpApi.get_income_statement FMP_API_KEY requests_get_json
                    ticker 10;
    cashflow_data ← FmpApi.get_cashflow_statement FMP_API_KEY
                      requests_get_json ticker 10;
    metrics ← FmpApi.get_key_metrics FMP_API_KEY requests_get_json ticker 10;
    if negb (truthy income_data) || negb (truthy cashflow_data)
       || negb (truthy metrics)
    then Return None
    else
      let year_str := py_str (from_option JInt JNull year) in
      income_items ← iter income_data;
      current_year_data ← next_year income_items year_str;
      cashflow_items ← iter cashflow_data;
      current_cashflow ← next_year cashflow_items year_str;
      metrics_items ← iter metrics;
      current_metrics ← next_year metrics_items year_str;
      if negb (truthy current_year_data) || negb (truthy current_cashflow)
         || negb (truthy current_metrics)
      then Return None
      else
        match current_year_data, current_cashflow, current_metrics with
        | JDict i, JDict c, JDict m => ten_cap_of_records i c m
        | _, _, _ => Raise AttributeError
        end).

(** The requested year, as the string the records are compared with. *)
Definition year_str (year : option Z) : string :=
  py_str (from_option JInt JNull year).

(** The collection a fetch returned holds a record of the year. *)
Definition has_year_record (collection : outcome json) (year : option Z)
    : Prop :=
  exists items d,
    collection = Return (JList items) /\ JDict d ∈ items /\
    py_str (get d "calendarYear" JNull) = year_str year.

(** [record] is the record of the year the code finds in the collection a
    fetch returned: the first one of that year, and not an empty one. *)
Definition year_record (collection : outcome json) (year : option Z)
    (record : gmap string json) : Prop :=
  exists items,
    collection = Return (JList items) /\
    next_year items (year_str year) = Return (JDict record) /\
    truthy (JDict record) = true.

End WithProvider.

(** Every value of the record whose key mentions depreciation is a number. *)
Definition depreciation_fields_numeric (record : gmap string json) : Prop :=
  forall key value,
    record !! key = Some value ->
    contains "depreciation" (lower key) = true -> is_Some (num value).

(** Every value of the record that is an [int] has a quotient by [MILLION]
    that is a float. *)
Definition fields_fit (record : gmap string json) : Prop :=
  forall key value,
    record !! key = Some value -> quotient_fits value MILLION.

(** The first truthy candidate, [last] when there is none: the value of
    [c1 or c2 or ... or last]. *)
Definition first_truthy (candidates : list json) (last : json) : json :=
  default last (List.find truthy candidates).

End TenCap.

(** A provider with the figures of the year 2019 of the specification, in
    dollars, and with a year 2020 without shares. *)
Module TenCapExample.

Definition income_2019 : gmap string json :=
  <["calendarYear" := JStr "2019"]> (<["incomeBeforeTax" := JInt 100000000]> ∅).

Definition income_2020 : gmap string json :=
  <["calendarYear" := JInt 2020]> (<["incomeBeforeTax" := JInt 5000000]> ∅).

Definition cashflow_2019 : gmap string json :=
  <["calendarYear" := JStr "2019"]>
  (<["depreciationAndAmortization" := JInt 20000000]>
  (<["accountsReceivables" := JInt (-8000000)]>
  (<["accountsPayables" := JInt 3000000]>
  (<["capitalExpenditure" := JInt (-10000000)]> ∅)))).

Definition cashflow_2020 : gmap string json :=
  <["calendarYear" := JStr "2020"]>
  (<["depreciationAndAmortization" := JInt 1000000]> ∅).

Definition metrics_2019 : gmap string json :=
  <["calendarYear" := JStr "2019"]>
  (<["weightedAverageShsOut" := JInt 50000000]> ∅).

Definition metrics_2020 : gmap string json :=
  <["calendarYear" := JStr "2020"]>
  (<["weightedAverageShsOut" := JInt 0]> ∅).

Definition provider (url : string) : outcome json :=
  if contains "/income-statement/" url
  then Return (JList [JDict income_2020; JDict income_2019])
  else if contains "/cash-flow-statement/" url
  then Return (JList [JDict cashflow_2020; JDict cashflow_2019])
  else if contains "/key-metrics/" url
  then Return (JList [JDict metrics_2020; JDict metrics_2019])
  else Raise RequestError.

(** No value of these records is a float, a list or a dict. *)
Definition repr (v : json) : string := "".

End TenCapExample.

(** ** ten_cap.py: the command line helpers *)

Module TenCapCli.

(** [s * n] on a string. *)
Fixpoint repeat_string (s : string) (n : nat) : string :=
  match n with
  | O => ""
  | S n' => s +:+ repeat_string s n'
  end.

(** The statements [print(...)] of a block, in order: the text each one
    prints, or the exception the evaluation of its argument raises. The
    block stops at the first exception, after the texts printed before. *)
Fixpoint run_prints (prints : list (outcome string)) (printed : list string)
    : list string * outcome unit :=
  match prints with
  | [] => (printed, Return ())
  | Return text :: rest => run_prints rest (printed ++ [text])
  | Raise e :: _ => (printed, Raise e)
  end.

Section WithProvider.

Variable FMP_API_KEY : string.
Variable requests_get_json : string -> outcome json.
Variable py_repr : json -> string.

(** [format(x, ",.2f")] on a number. *)
Variable format_money : R -> string.

Definition get_ten_cap_data (ticker : string) (year : option Z) : option R :=
  except_none (
    let ten_cap_price :=
      TenCap.calculate_ten_cap_price FMP_API_KEY requests_get_json py_repr
        ticker year in
    match ten_cap_price with
    | None => Return None
    | Some _ => Return ten_cap_price
    end).

(** [f"{v:,.2f}"]: a string has no format code [f], any other value that
    is no number does not support the format string. *)
Definition money (v : json) : outcome string :=
  match v with
  | JStr _ => Raise ValueError
  | _ =>
    match num v with
    | Some r => Return (format_money r)
    | None => Raise TypeError
    end
  end.

(** The prints of the branch [if results:]. *)
Definition analysis_prints (ticker : string) (results : json)
    : list (outcome string) :=
  [ (year ← subscript_key results "year";
     Return (String "010"%char "TEN CAP Analyse für " +:+ ticker +:+ " ("
             +:+ TenCap.py_str py_repr year +:+ ")"));
    Return (repeat_string "-" 50);
    (v ← subscript_key results "profit_before_tax";
     text ← money v;
     Return ("Gewinn vor Steuern:      $" +:+ text +:+ "M"));
    (v ← subscript_key results "depreciation";
     text ← money v;
     Return ("+ Abschreibungen:        $" +:+ text +:+ "M"));
    (v ← subscript_key results "working_capital_change";
     change ← from_option Return (Raise TypeError) (num v);
     w ← subscript_key results "working_capital_change";
     magnitude ← py_abs w;
     text ← money magnitude;
     Return ((if bool_decide (0 <= change) then "+ " else "- ")
             +:+ "Δ Working Capital:     $" +:+ text +:+ "M"));
    (v ← subscript_key results "maintenance_capex";
     capex ← from_option Return (Raise TypeError) (num v);
     Return ("- 50% Maintenance CapEx: $" +:+ format_money (capex * 0.5)
             +:+ "M"));
    Return (repeat_string "-" 50);
    (v ← subscript_key results "owner_earnings";
     text ← money v;
     Return ("= Owner Earnings:        $" +:+ text +:+ "M"));
    (v ← subscript_key results "shares_outstanding";
     text ← money v;
     Return ("Aktien (Mio):           " +:+ text));
    (v ← subscript_key results "earnings_per_share";
     text ← money v;
     Return ("Earnings per Share:      $" +:+ text));
    Return (repeat_string "=" 50);
    (v ← subscript_key results "ten_cap_buy_price";
     text ← money v;
     Return ("TEN CAP Buy Price:       $" +:+ text)) ].

(** The texts printed, and how the call ends. [get_ten_cap_data] is called
    without a year. *)
Definition print_ten_cap_analysis (ticker : string)
    : list string * outcome unit :=
  let results := from_option JFloat JNull (get_ten_cap_data ticker None) in
  if truthy results then run_prints (analysis_prints ticker results) []
  else
    run_prints
      [Return ("Konnte keine TEN CAP Analyse für " +:+ ticker
               +:+ " durchführen")] [].

End WithProvider.

End TenCapCli.

(** ** fmp_api.py: [get_year_data_by_range] *)

Module YearData.

(** A row of the table of yearly figures. [EPS] is the value of
    [round(eps, 2)], an [int] or a [float]. *)
Record row : Type := Row {
  Year : Z;
  Revenue : R;
  FreeCashFlow : R;
  EPS : json;
  ROIC : string
}.

(** The lists the loop fills. *)
Record lists : Type := Lists {
  results : list row;
  book_list : list json;
  eps_list : list json;
  revenue_list : list json;
  cashflow_list : list json
}.

(** [range(a, b)]. *)
Definition range (a b : Z) : list Z :=
  map (λ k, (a + Z.of_nat k)%Z) (seq 0 (Z.to_nat (b - a))).

(** [v.get(k, dflt)]. *)
Definition get_or (v : json) (k : string) (dflt : json) : outcome json :=
  match v with
  | JDict d => Return (get d k dflt)
  | _ => Raise AttributeError
  end.

(** [round(v, 2)]: an [int] is its own rounding. *)
Definition round_json (v : json) : outcome json :=
  match v with
  | JBool b => Return (JInt (if b then 1 else 0))
  | JInt z => Return (JInt z)
  | JFloat r => Return (JFloat (round2 r))
  | _ => Raise TypeError
  end.

(** [round(v * 100, 2)]. A string or a list can be repeated 100 times, but
    not rounded: whatever is no number ends in a [TypeError]. *)
Definition round_percent (v : json) : outcome json :=
  match v with
  | JBool b => Return (JInt (if b then 100 else 0))
  | JInt z => Return (JInt (z * 100))
  | JFloat r => Return (JFloat (round2 (r * 100)))
  | _ => Raise TypeError
  end.

Section WithProvider.

Variable FMP_API_KEY : string.
Variable requests_get_json : string -> outcome json.
Variable py_repr : json -> string.

#[local] Abbreviation py_str := (TenCap.py_str py_repr).

(** The loop of [get_by_year], over the entries still to come. *)
Fixpoint first_of_year (entries : list json) (year : Z) : outcome json :=
  match entries with
  | [] => Return (JDict ∅)
  | entry :: rest =>
    y ← dict_get entry "calendarYear";
    if String.eqb (py_str y) (py_str (JInt year)) then Return entry
    else first_of_year rest year
  end.

Definition get_by_year (data : json) (year : Z) : outcome json :=
  entries ← iter data;
  first_of_year entries year.

(** [f"{round(roic * 100, 2)} %" if roic is not None else "–"]. *)
Definition roic_text (roic : json) : outcome string :=
  match roic with
  | JNull => Return "–"
  | _ => percent ← round_percent roic;
         Return (py_str percent +:+ " %")
  end.

(** The body of the loop over the years. *)
Definition year_step (income cashflow metrics : json) (acc : lists)
    (year : Z) : outcome lists :=
  i ← get_by_year income year;
  c ← get_by_year cashflow year;
  m ← get_by_year metrics year;
  revenue_value ← get_or i "revenue" (JInt 0);
  revenue ← truediv revenue_value 1000000;
  fcf_value ← get_or c "freeCashFlow" (JInt 0);
  fcf ← truediv fcf_value 1000000;
  eps ← get_or i "eps" (JInt 0);
  roic ← get_or m "roic" JNull;
  eps_rounded ← round_json eps;
  roic_shown ← roic_text roic;
  book ← get_or m "bookValuePerShare" (JInt 0);
  eps_again ← get_or i "eps" (JInt 0);
  revenue_per_share ← get_or m "revenuePerShare" (JInt 0);
  cashflow_per_share ← get_or m "operatingCashFlowPerShare" (JInt 0);
  Return (Lists
    (results acc ++ [Row year (round2 revenue) (round2 fcf) eps_rounded
                         roic_shown])
    (book_list acc ++ [book])
    (eps_list acc ++ [eps_again])
    (revenue_list acc ++ [revenue_per_share])
    (cashflow_list acc ++ [cashflow_per_share])).

Fixpoint year_loop (income cashflow metrics : json) (acc : lists)
    (years : list Z) : outcome lists :=
  match years with
  | [] => Return acc
  | year :: rest =>
    acc' ← year_step income cashflow metrics acc year;
    year_loop income cashflow metrics acc' rest
  end.

(** What one year contributes: its row and its entry in each series, read
    from the first record of the year of each statement, an empty record
    when the statement has none. *)
Definition year_entry (income cashflow metrics : json) (year : Z) (r : row)
    (book eps revenue cashflow_ps : json) : Prop :=
  exists (i c m : gmap string json) (rev fcf : R),
    get_by_year income year = Return (JDict i) /\
    get_by_year cashflow year = Return (JDict c) /\
    get_by_year metrics year = Return (JDict m) /\
    num (get i "revenue" (JInt 0)) = Some rev /\
    num (get c "freeCashFlow" (JInt 0)) = Some fcf /\
    Year r = year /\
    Revenue r = round2 (rev / 1000000) /\
    FreeCashFlow r = round2 (fcf / 1000000) /\
    round_json (get i "eps" (JInt 0)) = Return (EPS r) /\
    roic_text (get m "roic" JNull) = Return (ROIC r) /\
    book = get m "bookValuePerShare" (JInt 0) /\
    eps = get i "eps" (JInt 0) /\
    revenue = get m "revenuePerShare" (JInt 0) /\
    cashflow_ps = get m "operatingCashFlowPerShare" (JInt 0).

(** The figures of the year can be read: each statement is a list whose
    records, up to the first one of the year, are dicts, and the fields
    shown in the row are numbers, the revenue and the free cash flow with a
    quotient by a million that is a float, the [roic] possibly null. *)
Definition year_readable (income cashflow metrics : json) (year : Z)
    : Prop :=
  exists i c m : gmap string json,
    get_by_year income year = Return (JDict i) /\
    get_by_year cashflow year = Return (JDict c) /\
    get_by_year metrics year = Return (JDict m) /\
    is_Some (num (get i "revenue" (JInt 0))) /\
    quotient_fits (get i "revenue" (JInt 0)) 1000000 /\
    is_Some (num (get c "freeCashFlow" (JInt 0))) /\
    quotient_fits (get c "freeCashFlow" (JInt 0)) 1000000 /\
    is_Some (num (get i "eps" (JInt 0))) /\
    (get m "roic" JNull = JNull \/ is_Some (num (get m "roic" JNull))).

(** Returns the rows and the dict of the four series, as the list of its
    items. The three statements are fetched with the default limit 20. *)
Definition get_year_data_by_range (ticker : string) (start_year years : Z)
    : outcome (list row * list (string * list json)) :=
  income ← FmpApi.get_income_statement FMP_API_KEY requests_get_json
             ticker 20;
  cashflow ← FmpApi.get_cashflow_statement FMP_API_KEY requests_get_json
               ticker 20;
  metrics ← FmpApi.get_key_metrics FMP_API_KEY requests_get_json ticker 20;
  acc ← year_loop income cashflow metrics (Lists [] [] [] [] [])
          (range start_year (start_year + years + 1));
  Return (results acc,
          [("book", book_list acc); ("eps", eps_list acc);
           ("revenue", revenue_list acc); ("cashflow", cashflow_list acc)]).

End WithProvider.

End YearData.

(** ** csv_report.py: the fair value history of [append_mos_to_csv]

    Steps 1 to 4 of [append_mos_to_csv], up to the list
    [fair_value_history]; the data frames assembled from it afterwards are
    not modelled. [metrics_raw] holds floats, as annotated. An exception
    raised in these steps leaves the function. *)

Module CsvReport.

(** How the steps end: with a value, with an exception of the functions
    called, or on a local variable read before it is assigned. *)
Inductive result (A : Type) : Type :=
  | Ok (a : A)
  | Fail (e : exn)
  | UnboundLocalError (name : string).
Arguments Ok {A} a.
Arguments Fail {A} e.
Arguments UnboundLocalError {A} name.

#[global] Instance result_bind : MBind result := λ A B k m,
  match m with
  | Ok a => k a
  | Fail e => Fail e
  | UnboundLocalError name => UnboundLocalError name
  end.

Definition lift {A : Type} (m : outcome A) : result A :=
  match m with
  | Return a => Ok a
  | Raise e => Fail e
  end.

(** A dict appended to [fair_value_history], field by field. *)
Record fair_row : Type := FairRow {
  row_year : Z;
  row_eps : R;
  row_eps_10y : R;
  row_future_value : R;
  row_fair_value : R;
  row_mos_price : R;
  row_ten_cap : string;
  row_fair_ten_cap : string;
  row_growth : json;
  row_stock_price : json;
  row_price_date : json
}.

(** The local variables the loop carries from one year to the next, and
    the prices requested so far by [get_valid_price]. *)
Record state : Type := State {
  growth_details : option (gmap string R);
  fair_value_history : list fair_row;
  request_log : list string
}.

(** [metrics_raw.get(key, [])]. *)
Fixpoint get_list (metrics_raw : list (string * list R)) (key : string)
    : list R :=
  match metrics_raw with
  | [] => []
  | (k, values) :: rest =>
    if String.eqb k key then values else get_list rest key
  end.

(** [d[key]]. *)
Definition item (d : gmap string R) (key : string) : result R :=
  match d !! key with
  | Some x => Ok x
  | None => Fail KeyError
  end.

(** Step 2, the EPS at the breach; the steps after it do not read it. *)
Definition eps_now (eps_values : list R) (breach_year start_year : Z) : R :=
  if (breach_year - start_year <? Z.of_nat (length eps_values))%Z
  then default 0 (eps_values !! Z.to_nat (breach_year - start_year))
  else default 0 (last eps_values).

Section WithProvider.

Variable FMP_API_KEY : string.
Variable requests_get_json : string -> outcome json.
Variable strptime : string -> option Z.
Variable strftime : Z -> string.
Variable py_repr : json -> string.
Variable float_of_str : string -> option R.

(** [format(x, ".2f")]. *)
Variable format_2f : R -> string.

(** The body of the loop for a year that has an EPS. *)
Definition year_row (ticker : string) (metrics_raw : list (string * list R))
    (start_year : Z) (st : state) (year_index : Z) (eps : R)
    : result state :=
  let year := (start_year + year_index)%Z in
  let estimate :=
    GrowthEstimation.mos_growth_estimate float_of_str metrics_raw year
      start_year in
  let growth_details :=
    match estimate with
    | Return d => Some d
    | Raise _ => growth_details st
    end in
  let growth_rate :=
    match estimate with
    | Return d => default 0 (d !! "avg") / 100
    | Raise _ => 0
    end in
  let base_date := pretty year +:+ "-12-31" in
  priced ← lift (FmpApi.get_valid_price FMP_API_KEY requests_get_json
                   strptime strftime ticker base_date (request_log st));
  let stock_price := priced.1.1 in
  let actual_date := priced.1.2 in
  let ten_cap_price :=
    TenCap.calculate_ten_cap_price FMP_API_KEY requests_get_json py_repr
      ticker (Some year) in
  let ten_cap_str :=
    match ten_cap_price with
    | Some p => format_2f p
    | None => "N/A"
    end in
  intrinsic ← lift (Mos.calculate_intrinsic_value eps growth_rate year
                      (Some 0.15) (Some 0.50));
  eps_10y ← item intrinsic "EPS_10y";
  future_value ← item intrinsic "Future Value";
  fair_value ← item intrinsic "Fair Value Today";
  mos_price ← item intrinsic "MOS Price (50%)";
  let fair_ten_cap :=
    match ten_cap_price with
    | Some p => format_2f (p * 2)
    | None => "N/A"
    end in
  details ← match growth_details with
            | Some d => Ok d
            | None => UnboundLocalError "growth_details"
            end;
  let growth := from_option JFloat (JStr "N/A") (details !! "avg") in
  shown_price ← (if truthy stock_price
                 then lift (YearData.round_json stock_price)
                 else Ok (JStr "N/A"));
  let shown_date := if truthy actual_date then actual_date else JStr "N/A" in
  Ok (State growth_details
        (fair_value_history st ++
         [FairRow year (round2 eps) eps_10y future_value fair_value mos_price
                  ten_cap_str fair_ten_cap growth shown_price shown_date])
        priced.2).

(** The loop [for offset in range(-1, 4)], over the offsets still to
    come. *)
Fixpoint history_loop (ticker : string)
    (metrics_raw : list (string * list R)) (breach_year start_year : Z)
    (eps_list : list R) (st : state) (offsets : list Z) : result state :=
  match offsets with
  | [] => Ok st
  | offset :: rest =>
    let year_index := (breach_year - start_year + offset)%Z in
    if (0 <=? year_index)%Z && (year_index <? Z.of_nat (length eps_list))%Z
    then
      match eps_list !! Z.to_nat year_index with
      | None => Fail IndexError
      | Some eps =>
        st' ← year_row ticker metrics_raw start_year st year_index eps;
        history_loop ticker metrics_raw breach_year start_year eps_list st'
          rest
      end
    else
      history_loop ticker metrics_raw breach_year start_year eps_list st rest
  end.

(** The row is the row of its own year: a year from one before to three
    after the breach that has an EPS, with the growth estimated for that
    year and the valuation of that EPS at that growth. *)
Definition row_of_own_year (metrics_raw : list (string * list R))
    (breach_year start_year : Z) (row : fair_row) : Prop :=
  exists (k : nat) (eps : R) (d intrinsic : gmap string R),
    row_year row = (start_year + Z.of_nat k)%Z /\
    (breach_year - 1 <= row_year row <= breach_year + 3)%Z /\
    get_list metrics_raw "eps" !! k = Some eps /\
    row_eps row = round2 eps /\
    GrowthEstimation.mos_growth_estimate float_of_str metrics_raw
      (row_year row) start_year = Return d /\
    row_growth row = from_option JFloat (JStr "N/A") (d !! "avg") /\
    Mos.calculate_intrinsic_value eps (default 0 (d !! "avg") / 100)
      (row_year row) (Some 0.15) (Some 0.50) = Return intrinsic /\
    intrinsic !! "EPS_10y" = Some (row_eps_10y row) /\
    intrinsic !! "Future Value" = Some (row_future_value row) /\
    intrinsic !! "Fair Value Today" = Some (row_fair_value row) /\
    intrinsic !! "MOS Price (50%)" = Some (row_mos_price row).

(** [metrics_raw] is the list of the items of the dict; returns
    [fair_value_history] and the requests made. *)
Definition fair_value_history_of (metrics_raw : list (string * list R))
    (breach_year start_year : Z) (ticker : string) (log : list string)
    : result (list fair_row * list string) :=
  details ← lift (GrowthEstimation.mos_growth_estimate float_of_str
                    metrics_raw breach_year start_year);
  let eps_values := get_list metrics_raw "eps" in
  let eps_at_breach := eps_now eps_values breach_year start_year in
  let growth_rate := default 0 (details !! "avg") / 100 in
  let eps_list := get_list metrics_raw "eps" in
  st ← history_loop ticker metrics_raw breach_year start_year eps_list
         (State None [] log) (YearData.range (-1) 4);
  Ok (fair_value_history st, request_log st).

End WithProvider.

End CsvReport.

(** Providers for the examples of the command line helpers and of the
    yearly figures. *)
Module MoreExamples.

(** The records of [TenCapExample] for 2019 without their [calendarYear],
    which a call without a year matches. *)
Definition undated_provider (url : string) : outcome json :=
  if contains "/income-statement/" url
  then Return (JList [JDict (delete "calendarYear"
                                    TenCapExample.income_2019)])
  else if contains "/cash-flow-statement/" url
  then Return (JList [JDict (delete "calendarYear"
                                    TenCapExample.cashflow_2019)])
  else if contains "/key-metrics/" url
  then Return (JList [JDict (delete "calendarYear"
                                    TenCapExample.metrics_2019)])
  else Raise RequestError.

(** A cash flow record of 2019 with a null depreciation. *)
Definition cashflow_null_depreciation : gmap string json :=
  <["depreciationAndAmortization" := JNull]> TenCapExample.cashflow_2019.

Definition null_depreciation_provider (url : string) : outcome json :=
  if contains "/income-statement/" url
  then Return (JList [JDict TenCapExample.income_2019])
  else if contains "/cash-flow-statement/" url
  then Return (JList [JDict cashflow_null_depreciation])
  else if contains "/key-metrics/" url
  then Return (JList [JDict TenCapExample.metrics_2019])
  else Raise RequestError.

Definition money (x : R) : string := "".

(** Six years of EPS and a provider that knows no price. *)
Definition six_years_of_eps : list (string * list R) :=
  [("eps", [1; 2; 3; 4; 5; 6])].

Definition no_price_provider (url : string) : outcome json :=
  Return (JDict ∅).

Definition income_2019 : gmap string json :=
  <["calendarYear" := JStr "2019"]>
  (<["revenue" := JInt 28000000000]> (<["eps" := JInt 11]> ∅)).

Definition income_2020 : gmap string json :=
  <["calendarYear" := JStr "2020"]>
  (<["revenue" := JInt 31000000000]> (<["eps" := JInt 5]> ∅)).

Definition cashflow_2019 : gmap string json :=
  <["calendarYear" := JStr "2019"]>
  (<["freeCashFlow" := JInt 15000000000]> ∅).

Definition metrics_2019 : gmap string json :=
  <["calendarYear" := JStr "2019"]>
  (<["bookValuePerShare" := JInt 120]>
  (<["revenuePerShare" := JInt 60]>
  (<["operatingCashFlowPerShare" := JInt 35]>
  (<["roic" := JInt 1]> ∅)))).

Definition metrics_2020 : gmap string json :=
  <["calendarYear" := JStr "2020"]> (<["bookValuePerShare" := JInt 130]> ∅).

(** The cash flow statement has no record of 2020. *)
Definition yearly_provider (url : string) : outcome json :=
  if contains "/income-statement/" url
  then Return (JList [JDict income_2020; JDict income_2019])
  else if contains "/cash-flow-statement/" url
  then Return (JList [JDict cashflow_2019])
  else if contains "/key-metrics/" url
  then Return (JList [JDict metrics_2020; JDict metrics_2019])
  else Raise RequestError.

(** An income statement whose revenue of 2019 is beyond the floats, and
    no other record. *)
Definition income_oversized : gmap string json :=
  <["calendarYear" := JStr "2019"]> (<["revenue" := JInt (10 ^ 400)]> ∅).

Definition oversized_provider (url : string) : outcome json :=
  if contains "/income-statement/" url
  then Return (JList [JDict income_oversized])
  else Return (JList []).

End MoreExamples.

(** * Properties *)

(** ** Outcomes *)

Lemma bind_Return_inv {A B : Type} (m : outcome A) (k : A -> outcome B)
    (b : B) :
  m ≫= k = Return b -> exists a, m = Return a /\ k a = Return b.
Proof.
  destruct m as [a|e]; cbn [mbind outcome_bind]; [|discriminate].
  intros H. exists a. split; [reflexivity | exact H].
Qed.

(** ** Ints and floats *)

Lemma FLOAT_LIMIT_large : 1 < IZR FLOAT_LIMIT.
Proof. apply IZR_lt. reflexivity. Qed.

Lemma quotient_fits_no_int (v : json) (d : R) :
  is_int v = false -> quotient_fits v d.
Proof. intros Hv r Hint. rewrite Hv in Hint. discriminate Hint. Qed.

Lemma Rabs_quotient_le (x d : R) : 1 <= d -> Rabs (x / d) <= Rabs x.
Proof.
  intros Hd. unfold Rdiv. rewrite Rabs_mult, (Rabs_right (/ d)).
  - pose proof (Rabs_pos x) as Hx.
    assert (Hi : / d <= 1).
    { rewrite <- Rinv_1. apply Rinv_le_contravar; lra. }
    assert (Hp : 0 < / d) by (apply Rinv_0_lt_compat; lra).
    nra.
  - left. apply Rinv_0_lt_compat. lra.
Qed.

Lemma quotient_fits_int (z : Z) (d : R) :
  (Z.abs z < FLOAT_LIMIT)%Z -> 1 <= d -> quotient_fits (JInt z) d.
Proof.
  intros Hz Hd r _ [= <-].
  eapply Rle_lt_trans; [apply Rabs_quotient_le, Hd|].
  rewrite <- abs_IZR. apply IZR_lt, Hz.
Qed.

Lemma Rabs_Rabs_quotient (x d : R) : Rabs (Rabs x / d) = Rabs (x / d).
Proof. unfold Rdiv. rewrite !Rabs_mult, Rabs_Rabsolu. reflexivity. Qed.

Lemma is_number_num (v : json) : is_number v = true -> is_Some (num v).
Proof. destruct v; try discriminate; intros _; cbn [num]; eauto. Qed.

Lemma py_abs_fits (v : json) (r d : R) :
  num v = Some r -> quotient_fits v d ->
  exists w, py_abs v = Return w /\ num w = Some (Rabs r) /\
            quotient_fits w d.
Proof.
  destruct v as [|b|z|x| | |]; try discriminate; cbn [num py_abs];
    intros [= <-] Hfits.
  - exists (JInt (if b then 1 else 0)). split; [reflexivity|].
    assert (Hb : IZR (if b then 1 else 0) = Rabs (if b then 1 else 0)).
    { destruct b; [rewrite Rabs_R1 | rewrite Rabs_R0]; reflexivity. }
    split; [cbn [num]; rewrite Hb; reflexivity|].
    intros r _ [= <-]. rewrite Hb, Rabs_Rabs_quotient.
    apply (Hfits _ eq_refl eq_refl).
  - exists (JInt (Z.abs z)). split; [reflexivity|].
    split; [cbn [num]; rewrite abs_IZR; reflexivity|].
    intros r _ [= <-]. rewrite abs_IZR, Rabs_Rabs_quotient.
    apply (Hfits _ eq_refl eq_refl).
  - exists (JFloat (Rabs x)). split; [reflexivity|].
    split; [reflexivity|]. apply quotient_fits_no_int. reflexivity.
Qed.

Lemma truediv_fits (v : json) (d r : R) :
  num v = Some r -> d <> 0 -> quotient_fits v d ->
  truediv v d = Return (r / d).
Proof.
  intros Hr Hd Hfits. unfold truediv. rewrite Hr.
  rewrite bool_decide_eq_false_2 by exact Hd.
  destruct (is_int v) eqn:Hint; [|reflexivity].
  rewrite bool_decide_eq_false_2; [reflexivity|].
  apply Rlt_not_le, (Hfits r Hint Hr).
Qed.

Lemma truediv_Return_inv (v : json) (d q : R) :
  truediv v d = Return q ->
  exists r, num v = Some r /\ q = r / d /\ quotient_fits v d.
Proof.
  unfold truediv. destruct (num v) as [r|] eqn:Hr; [|discriminate].
  case_bool_decide as Hd; [discriminate|].
  destruct (is_int v) eqn:Hint; cbn [andb].
  - case_bool_decide as Hbig; [discriminate|]. intros [= <-].
    exists r. split; [reflexivity|]. split; [reflexivity|].
    intros r' _ Hr'. rewrite Hr in Hr'. injection Hr' as <-.
    apply Rnot_le_lt, Hbig.
  - intros [= <-]. exists r. split; [reflexivity|]. split; [reflexivity|].
    apply quotient_fits_no_int. rewrite <- Hint. reflexivity.
Qed.

Lemma truediv_Raise_inv (v : json) (d : R) (e : exn) :
  truediv v d = Raise e -> d <> 0 ->
  (num v = None /\ e = TypeError) \/
  (is_Some (num v) /\ ~ quotient_fits v d /\ e = OverflowError).
Proof.
  unfold truediv. destruct (num v) as [r|] eqn:Hr.
  - intros H Hd. rewrite bool_decide_eq_false_2 in H by exact Hd.
    destruct (is_int v) eqn:Hint; cbn [andb] in H; [|discriminate H].
    case_bool_decide as Hbig; [|discriminate H]. injection H as <-.
    right. split; [eauto|]. split; [|reflexivity].
    intros Hfits. specialize (Hfits r Hint Hr). lra.
  - intros [= <-] _. left. split; reflexivity.
Qed.

(** ** Rounding and powers *)

Lemma round_half_even_near (x : R) (k : Z) :
  IZR k - 1 / 2 < x < IZR k + 1 / 2 -> round_half_even x = k.
Proof.
  intros [Hlo Hhi]. unfold round_half_even.
  destruct (Rlt_le_dec x (IZR k)) as [Hlt | Hge].
  - assert (Hfl : Zfloor x = (k - 1)%Z).
    { apply Zfloor_eq. rewrite minus_IZR. lra. }
    rewrite Hfl, minus_IZR.
    rewrite bool_decide_eq_false_2 by lra.
    rewrite bool_decide_eq_true_2 by lra. lia.
  - assert (Hfl : Zfloor x = k) by (apply Zfloor_eq; lra).
    rewrite Hfl. rewrite bool_decide_eq_true_2 by lra. reflexivity.
Qed.

Lemma round2_near (x : R) (k : Z) :
  IZR k - 1 / 2 < x * 100 < IZR k + 1 / 2 -> round2 x = IZR k / 100.
Proof.
  intros H. unfold round2. rewrite (round_half_even_near _ k H). reflexivity.
Qed.

Lemma Rpower_one (z : R) : Rpower 1 z = 1.
Proof. unfold Rpower. rewrite ln_1, Rmult_0_r. apply exp_0. Qed.

(** The fifth root, from the fifth power. *)
Lemma Rpower_fifth_root (a b : R) :
  0 < a -> 0 < b -> b ^ 5 = a -> Rpower a (1 / 5) = b.
Proof.
  intros Ha Hb <-.
  rewrite <- (Rpower_pow 5 b Hb), Rpower_mult.
  replace (INR 5 * (1 / 5)) with 1 by (simpl; lra).
  apply Rpower_1, Hb.
Qed.

Lemma Rpower_fifth_root_bounds (a lo hi : R) :
  0 < a -> 0 < lo -> lo ^ 5 < a -> a < hi ^ 5 -> 0 < hi ->
  lo < Rpower a (1 / 5) < hi.
Proof.
  intros Ha Hlo Hlo5 Hhi5 Hhi.
  assert (Hl : Rpower (lo ^ 5) (1 / 5) = lo)
    by (apply Rpower_fifth_root; auto using pow_lt).
  assert (Hh : Rpower (hi ^ 5) (1 / 5) = hi)
    by (apply Rpower_fifth_root; auto using pow_lt).
  split.
  - rewrite <- Hl at 1. apply Rlt_Rpower_l; [lra|].
    split; [apply pow_lt, Hlo | exact Hlo5].
  - rewrite <- Hh at 1. apply Rlt_Rpower_l; [lra|].
    split; [exact Ha | exact Hhi5].
Qed.

(** A tie goes to the even neighbour, as [round(0.125, 2) == 0.12] and
    [round(0.375, 2) == 0.38]. *)
Example round2_ties : round2 0.125 = 0.12 /\ round2 0.375 = 0.38.
Proof.
  unfold round2, round_half_even. split.
  - replace (0.125 * 100) with (IZR 12 + 1 / 2) by lra.
    rewrite (Zfloor_eq 12) by lra.
    rewrite !bool_decide_eq_false_2 by lra.
    change (Z.even 12) with true. cbv iota. lra.
  - replace (0.375 * 100) with (IZR 37 + 1 / 2) by lra.
    rewrite (Zfloor_eq 37) by lra.
    rewrite !bool_decide_eq_false_2 by lra.
    change (Z.even 37) with false. cbv iota.
    change (37 + 1)%Z with 38%Z. lra.
Qed.

Example depreciation_key_is_found :
  contains "depreciation" (lower "DepreciationAndAmortization") = true /\
  contains "depreciation" (lower "capitalExpenditure") = false.
Proof. split; reflexivity. Qed.

(** ** growth_estimation.py: [calculate_cagr] *)

Section CagrFacts.

Variable float_of_str : string -> option R.

#[local] Abbreviation py_float := (GrowthEstimation.py_float float_of_str).
#[local] Abbreviation calculate_cagr :=
  (GrowthEstimation.calculate_cagr float_of_str).
#[local] Abbreviation invalid_arg := (GrowthEstimation.invalid_arg float_of_str).

Lemma calculate_cagr_valid (start end_ years : json) (s e y : R) :
  py_float start = Some s -> py_float end_ = Some e ->
  py_float years = Some y -> 0 < s -> 0 < e -> 0 < y ->
  calculate_cagr start end_ years = Rpower (e / s) (1 / y) - 1.
Proof.
  intros Hs He Hy Hs0 He0 Hy0. unfold GrowthEstimation.calculate_cagr.
  rewrite Hs, He, Hy.
  rewrite !bool_decide_eq_false_2 by lra. reflexivity.
Qed.

(** C8. [calculate_cagr] returns 0 as soon as one of [start], [end] and
    [years] fails the conversion to [float] or is not strictly positive. *)
Theorem calculate_cagr_invalid_is_zero (start end_ years : json) :
  invalid_arg start \/ invalid_arg end_ \/ invalid_arg years ->
  calculate_cagr start end_ years = 0.
Proof.
  intros H. unfold GrowthEstimation.calculate_cagr.
  unfold GrowthEstimation.invalid_arg in H.
  destruct (py_float start) as [s|] eqn:Hs; [|reflexivity].
  destruct (py_float end_) as [e|] eqn:He; [|reflexivity].
  destruct (py_float years) as [y|] eqn:Hy; [|reflexivity].
  destruct H as [[H | (r & H & Hr)] | [[H | (r & H & Hr)] | [H | (r & H & Hr)]]];
    try discriminate; injection H as <-.
  - rewrite (bool_decide_eq_true_2 (s <= 0)) by exact Hr. reflexivity.
  - rewrite (bool_decide_eq_true_2 (e <= 0)) by exact Hr.
    rewrite orb_true_r. reflexivity.
  - rewrite (bool_decide_eq_true_2 (y <= 0)) by exact Hr.
    rewrite !orb_true_r. reflexivity.
Qed.

(** C9. On strictly positive arguments, [calculate_cagr] of equal [start]
    and [end] is 0, and [calculate_cagr] grows strictly with [end]. *)
Theorem calculate_cagr_flat_and_increasing (start end1 end2 years : json)
    (s e1 e2 y : R) :
  py_float start = Some s -> py_float end1 = Some e1 ->
  py_float end2 = Some e2 -> py_float years = Some y ->
  0 < s -> 0 < e1 -> 0 < e2 -> 0 < y ->
  calculate_cagr start start years = 0 /\
  (e1 < e2 ->
   calculate_cagr start end1 years < calculate_cagr start end2 years).
Proof.
  intros Hs He1 He2 Hy Hs0 He10 He20 Hy0. split.
  - rewrite (calculate_cagr_valid _ _ _ s s y) by assumption.
    replace (s / s) with 1 by (field; lra).
    rewrite Rpower_one. lra.
  - intros Hlt.
    rewrite (calculate_cagr_valid _ _ _ s e1 y) by assumption.
    rewrite (calculate_cagr_valid _ _ _ s e2 y) by assumption.
    assert (Hc : 0 < 1 / y) by (apply Rdiv_lt_0_compat; lra).
    assert (Hinv : 0 < / s) by (apply Rinv_0_lt_compat; lra).
    assert (Hpow : Rpower (e1 / s) (1 / y) < Rpower (e2 / s) (1 / y)).
    { apply Rlt_Rpower_l; [exact Hc|]. unfold Rdiv. split.
      - apply Rmult_lt_0_compat; lra.
      - apply Rmult_lt_compat_r; lra. }
    lra.
Qed.

End CagrFacts.

Lemma calculate_cagr_invalid_is_zero_witness :
  GrowthEstimation.calculate_cagr (fun _ => None) (JInt (-5)) (JInt 10) (JInt 5) = 0 /\
  GrowthEstimation.calculate_cagr (fun _ => None) (JInt 3) (JInt 10) (JInt 0) = 0 /\
  GrowthEstimation.calculate_cagr (fun _ => None) (JStr "n/a") (JInt 10) (JInt 5) = 0.
Proof.
  split; [|split]; apply calculate_cagr_invalid_is_zero.
  - left. right. exists (-5). split; [reflexivity | lra].
  - right. right. right. exists 0. split; [reflexivity | lra].
  - left. left. reflexivity.
Defined.

(** An [int] beyond the floats is an invalid argument: [float] raises an
    [OverflowError] on it. *)
Lemma calculate_cagr_oversized_int :
  GrowthEstimation.invalid_arg (fun _ => None) (JInt (10 ^ 400)) /\
  GrowthEstimation.calculate_cagr (fun _ => None) (JInt (10 ^ 400)) (JInt 10)
    (JInt 5) = 0.
Proof.
  split; [left; reflexivity | reflexivity].
Qed.

Lemma calculate_cagr_flat_and_increasing_witness :
  GrowthEstimation.calculate_cagr (fun _ => None) (JInt 2) (JInt 2) (JInt 5) = 0 /\
  GrowthEstimation.calculate_cagr (fun _ => None) (JInt 2) (JFloat 1) (JInt 5)
  < GrowthEstimation.calculate_cagr (fun _ => None) (JInt 2) (JFloat 2) (JInt 5).
Proof.
  destruct (calculate_cagr_flat_and_increasing (fun _ => None)
              (JInt 2) (JFloat 1) (JFloat 2) (JInt 5) 2 1 2 5
              eq_refl eq_refl eq_refl eq_refl
              ltac:(lra) ltac:(lra) ltac:(lra) ltac:(lra))
    as [Hflat Hincr].
  split; [exact Hflat | apply Hincr; lra].
Defined.

(** ** growth_estimation.py: [mos_growth_estimate] *)

Lemma round2_zero : round2 0 = 0.
Proof. rewrite (round2_near 0 0) by lra. lra. Qed.

Section GrowthFacts.

Import GrowthEstimation GrowthSpec.

Variable float_of_str : string -> option R.

#[local] Abbreviation calculate_cagr :=
  (GrowthEstimation.calculate_cagr float_of_str).
#[local] Abbreviation metric_step :=
  (GrowthEstimation.metric_step float_of_str).
#[local] Abbreviation metric_loop :=
  (GrowthEstimation.metric_loop float_of_str).
#[local] Abbreviation mos_growth_estimate :=
  (GrowthEstimation.mos_growth_estimate float_of_str).

Lemma window_lookup (start_index : Z) (values : list R) (i : nat) :
  (0 <= start_index)%Z -> (i < 6)%nat ->
  take 6 (drop (Z.to_nat start_index) values) !! i
  = values !! (Z.to_nat start_index + i)%nat.
Proof.
  intros _ Hi. rewrite lookup_take_lt by exact Hi. apply lookup_drop.
Qed.

Lemma metric_step_spec (start_index : Z) (a : acc) (key : string)
    (values : list R) :
  (0 <= start_index)%Z ->
  metric_step start_index a (key, values)
  = Return (Acc (<[key := stored start_index values]> (details a))
                (growths a ++
                 if decide (long_enough start_index values)
                 then [window_cagr start_index values] else [])).
Proof.
  intros Hsi. unfold GrowthEstimation.metric_step, stored, metric_cagr.
  destruct (Z.ltb_spec (Z.of_nat (length values)) (start_index + 6))
    as [Hshort | Hlong].
  - rewrite !decide_False by (unfold long_enough; lia).
    rewrite Rmult_0_l, round2_zero, app_nil_r. reflexivity.
  - rewrite !decide_True by exact Hlong.
    unfold window_cagr, index.
    rewrite !window_lookup by (lia || exact Hsi). rewrite Nat.add_0_r.
    destruct (lookup_lt_is_Some_2 values (Z.to_nat start_index))
      as [start Hstart]; [lia|].
    destruct (lookup_lt_is_Some_2 values (Z.to_nat start_index + 5))
      as [end_ Hend]; [lia|].
    rewrite Hstart, Hend. cbn [mbind outcome_bind].
    destruct (bool_decide (0 < start)) eqn:Hs;
      destruct (bool_decide (0 < end_)) eqn:He; cbn [andb];
      rewrite ?Rmult_0_l, ?round2_zero; try reflexivity.
    apply bool_decide_eq_true_1 in Hs, He.
    rewrite (calculate_cagr_valid float_of_str _ _ _ start end_ 5)
      by (reflexivity || lra).
    reflexivity.
Qed.

Lemma metric_loop_spec (start_index : Z) (items : list (string * list R))
    (a : acc) :
  (0 <= start_index)%Z ->
  metric_loop start_index a items
  = Return (Acc (foldl (store start_index) (details a) items)
                (growths a ++ map (λ kv, window_cagr start_index kv.2)
                                  (counted start_index items))).
Proof.
  intros Hsi. revert a. induction items as [|[key values] rest IH]; intros a.
  - cbn. rewrite app_nil_r. destruct a; reflexivity.
  - cbn [GrowthEstimation.metric_loop]. rewrite metric_step_spec by exact Hsi.
    cbn [mbind outcome_bind]. rewrite IH. cbn [details growths foldl].
    unfold counted. rewrite filter_cons. cbn [snd].
    destruct (decide (long_enough start_index values)).
    + rewrite <- app_assoc. reflexivity.
    + rewrite app_nil_r. reflexivity.
Qed.

Lemma store_other (start_index : Z) (items : list (string * list R))
    (m : gmap string R) (key : string) :
  key ∉ items.*1 ->
  foldl (store start_index) m items !! key = m !! key.
Proof.
  revert m. induction items as [|[k v] rest IH]; intros m Hnot; [reflexivity|].
  cbn in Hnot. apply not_elem_of_cons in Hnot as [Hne Hrest].
  cbn [foldl]. rewrite IH by exact Hrest.
  unfold store. cbn [fst snd]. apply lookup_insert_ne. congruence.
Qed.

Lemma store_lookup (start_index : Z) (items : list (string * list R))
    (m : gmap string R) (key : string) (values : list R) :
  NoDup items.*1 -> (key, values) ∈ items ->
  foldl (store start_index) m items !! key
  = Some (stored start_index values).
Proof.
  revert m. induction items as [|[k v] rest IH]; intros m Hnd Hin.
  - apply elem_of_nil in Hin as [].
  - cbn in Hnd. apply NoDup_cons in Hnd as [Hk Hnd].
    cbn [foldl]. apply elem_of_cons in Hin as [Heq | Hin].
    + injection Heq as -> ->. rewrite store_other by exact Hk.
      unfold store. cbn [fst snd]. apply lookup_insert_eq.
    + apply IH; assumption.
Qed.

Lemma mos_growth_estimate_returns (data_dict : list (string * list R))
    (target_year data_start_year : Z) :
  let start_index := (target_year - data_start_year - 5)%Z in
  (0 <= start_index)%Z ->
  mos_growth_estimate data_dict target_year data_start_year
  = Return (<["avg" := avg_of_counted start_index data_dict]>
              (foldl (store start_index) ∅ data_dict)).
Proof.
  intros start_index Hsi. unfold GrowthEstimation.mos_growth_estimate.
  fold start_index. rewrite (proj2 (Z.ltb_ge start_index 0)) by exact Hsi.
  rewrite metric_loop_spec by exact Hsi. cbn [mbind outcome_bind].
  cbn [details growths app]. unfold avg_of_counted.
  destruct (map _ (counted start_index data_dict));
    rewrite (Rmult_comm 100); reflexivity.
Qed.

(** C2. [mos_growth_estimate] raises exactly when [start_index] is negative,
    that is when fewer than five years separate the first year of the data
    from the target year; the exception is the [ValueError], whatever the
    series are, and no result is returned in its place. *)
Theorem mos_growth_estimate_raises_iff (data_dict : list (string * list R))
    (target_year data_start_year : Z) :
  let start_index := (target_year - data_start_year - 5)%Z in
  ((exists e, mos_growth_estimate data_dict target_year data_start_year
              = Raise e)
   <-> (start_index < 0)%Z) /\
  ((start_index < 0)%Z <-> (target_year - data_start_year < 5)%Z) /\
  ((start_index < 0)%Z ->
   forall other : list (string * list R),
     mos_growth_estimate other target_year data_start_year
     = Raise ValueError).
Proof.
  intros start_index. unfold GrowthEstimation.mos_growth_estimate.
  fold start_index.
  destruct (Z.ltb_spec start_index 0) as [Hneg | Hpos].
  - split; [|split].
    + split; [intros _; exact Hneg | intros _; eexists; reflexivity].
    + subst start_index. lia.
    + intros _ other. reflexivity.
  - split; [|split].
    + split; [|lia]. intros [e He].
      rewrite metric_loop_spec in He by exact Hpos. discriminate He.
    + subst start_index. lia.
    + lia.
Qed.

(** C6. A metric whose series reaches the end of the window, with both ends
    of the window strictly positive, is stored as
    [round(((end / start) ** (1 / 5) - 1) * 100, 2)]; the window
    [1, 1, 1, 1, 1, 2] is stored as 14.87. *)
Theorem mos_growth_estimate_stores_cagr :
  (forall (data_dict : list (string * list R))
          (target_year data_start_year : Z) (key : string)
          (values : list R) (start end_ : R),
     let start_index := (target_year - data_start_year - 5)%Z in
     (0 <= start_index)%Z ->
     NoDup data_dict.*1 -> (key, values) ∈ data_dict -> key ≠ "avg" ->
     (start_index + 6 <= Z.of_nat (length values))%Z ->
     values !! Z.to_nat start_index = Some start ->
     values !! (Z.to_nat start_index + 5)%nat = Some end_ ->
     0 < start -> 0 < end_ ->
     exists d,
       mos_growth_estimate data_dict target_year data_start_year = Return d /\
       d !! key = Some (round2 ((Rpower (end_ / start) (1 / 5) - 1) * 100))) /\
  (exists d,
     mos_growth_estimate [("eps", [1; 1; 1; 1; 1; 2])] 2019 2014 = Return d /\
     d !! "eps" = Some 14.87).
Proof.
  assert (Hgen : forall (data_dict : list (string * list R))
          (target_year data_start_year : Z) (key : string)
          (values : list R) (start end_ : R),
     let start_index := (target_year - data_start_year - 5)%Z in
     (0 <= start_index)%Z ->
     NoDup data_dict.*1 -> (key, values) ∈ data_dict -> key ≠ "avg" ->
     (start_index + 6 <= Z.of_nat (length values))%Z ->
     values !! Z.to_nat start_index = Some start ->
     values !! (Z.to_nat start_index + 5)%nat = Some end_ ->
     0 < start -> 0 < end_ ->
     exists d,
       mos_growth_estimate data_dict target_year data_start_year = Return d /\
       d !! key = Some (round2 ((Rpower (end_ / start) (1 / 5) - 1) * 100))).
  { intros data_dict target_year data_start_year key values start end_
      start_index Hsi Hnd Hin Hkey Hlen Hstart Hend Hs He.
    unfold GrowthEstimation.mos_growth_estimate. fold start_index.
    rewrite (proj2 (Z.ltb_ge start_index 0)) by exact Hsi.
    rewrite metric_loop_spec by exact Hsi. cbn [mbind outcome_bind].
    eexists. split; [reflexivity|].
    rewrite lookup_insert_ne by congruence. cbn [details].
    rewrite (store_lookup _ _ _ key values) by assumption.
    unfold stored, metric_cagr. rewrite decide_True by exact Hlen.
    unfold window_cagr. rewrite Hstart, Hend.
    rewrite !bool_decide_eq_true_2 by assumption. reflexivity. }
  split; [exact Hgen|].
  destruct (Hgen [("eps", [1; 1; 1; 1; 1; 2])] 2019%Z 2014%Z "eps"
              [1; 1; 1; 1; 1; 2] 1 2) as (d & Hd & Hk);
    try reflexivity; try lra; try (cbn; lia).
  - cbn. apply NoDup_singleton.
  - apply list_elem_of_singleton. reflexivity.
  - discriminate.
  - exists d. split; [exact Hd|]. rewrite Hk. f_equal.
    rewrite (round2_near _ 1487).
    + lra.
    + assert (H := Rpower_fifth_root_bounds (2 / 1) 1.14865 1.14875).
      lapply H; [clear H; intros H | lra].
      lapply H; [clear H; intros H | lra].
      lapply H; [clear H; intros H | lra].
      lapply H; [clear H; intros H | lra].
      lapply H; [clear H; intros H | lra].
      lra.
Qed.

(** With four series that all reach the end of the window, the average over
    the counted metrics is the average over the four metrics. *)
Lemma avg_of_counted_four_long (start_index : Z)
    (eps book revenue cashflow : list R) :
  long_enough start_index eps -> long_enough start_index book ->
  long_enough start_index revenue -> long_enough start_index cashflow ->
  avg_of_counted start_index
    [("book", book); ("eps", eps); ("revenue", revenue);
     ("cashflow", cashflow)]
  = avg_of_four start_index eps book revenue cashflow.
Proof.
  intros He Hb Hr Hc. unfold avg_of_counted, counted, avg_of_four, metric_cagr.
  rewrite !filter_cons_True by assumption. rewrite filter_nil.
  rewrite !decide_True by assumption.
  cbn [map snd length]. unfold sum. cbn [foldl INR]. f_equal. lra.
Qed.

(** C1, amended. The stored [avg] is the rounded percentage of the mean of
    the decimal CAGRs of the metrics whose series reach the end of the
    window, and 0 when there is no such metric. A metric with an end of the
    window that is not strictly positive counts with the value 0; a metric
    with a shorter series is left out of the sum and of the denominator. *)
Theorem mos_growth_estimate_avg_of_counted
    (data_dict : list (string * list R)) (target_year data_start_year : Z) :
  let start_index := (target_year - data_start_year - 5)%Z in
  (0 <= start_index)%Z ->
  exists d,
    mos_growth_estimate data_dict target_year data_start_year = Return d /\
    d !! "avg" = Some (avg_of_counted start_index data_dict).
Proof.
  intros start_index Hsi. eexists. split.
  - apply mos_growth_estimate_returns, Hsi.
  - apply lookup_insert_eq.
Qed.

End GrowthFacts.

Lemma mos_growth_estimate_avg_of_counted_witness :
  exists d,
    GrowthEstimation.mos_growth_estimate (fun _ => None)
      [("book", [1; 1; 1; 1; 1; 32]); ("eps", []);
       ("revenue", []); ("cashflow", [])] 2019 2014 = Return d /\
    d !! "avg"
    = Some (GrowthSpec.avg_of_counted 0
              [("book", [1; 1; 1; 1; 1; 32]); ("eps", []);
               ("revenue", []); ("cashflow", [])]).
Proof.
  apply (mos_growth_estimate_avg_of_counted (fun _ => None) _ 2019 2014).
  lia.
Defined.

(** C1, as stated, fails: with one series of six years and three empty ones
    the stored [avg] is the CAGR of the one series, 100, where the average
    over the four metrics is 25. *)
Lemma mos_growth_estimate_avg_not_of_four :
  exists d,
    GrowthEstimation.mos_growth_estimate (fun _ => None)
      [("book", [1; 1; 1; 1; 1; 32]); ("eps", []);
       ("revenue", []); ("cashflow", [])] 2019 2014 = Return d /\
    d !! "avg" = Some 100 /\
    GrowthSpec.avg_of_four 0 [] [1; 1; 1; 1; 1; 32] [] [] = 25 /\
    d !! "avg" <> Some (GrowthSpec.avg_of_four 0 [] [1; 1; 1; 1; 1; 32] [] []).
Proof.
  assert (Hw : GrowthSpec.window_cagr 0 [1; 1; 1; 1; 1; 32] = 1).
  { unfold GrowthSpec.window_cagr. simpl.
    rewrite !bool_decide_eq_true_2 by lra. cbn [andb].
    rewrite (Rpower_fifth_root (32 / 1) 2) by lra. lra. }
  assert (Hfour : GrowthSpec.avg_of_four 0 [] [1; 1; 1; 1; 1; 32] [] [] = 25).
  { assert (He : GrowthSpec.metric_cagr 0 [] = 0).
    { unfold GrowthSpec.metric_cagr. apply decide_False.
      unfold GrowthSpec.long_enough. cbn. lia. }
    assert (Hb : GrowthSpec.metric_cagr 0 [1; 1; 1; 1; 1; 32] = 1).
    { unfold GrowthSpec.metric_cagr. rewrite decide_True; [exact Hw|].
      unfold GrowthSpec.long_enough. cbn. lia. }
    unfold GrowthSpec.avg_of_four. rewrite He, Hb.
    rewrite (round2_near _ 2500) by lra. lra. }
  assert (Havg : GrowthSpec.avg_of_counted 0
            [("book", [1; 1; 1; 1; 1; 32]); ("eps", []);
             ("revenue", []); ("cashflow", [])] = 100).
  { unfold GrowthSpec.avg_of_counted, GrowthSpec.counted.
    rewrite filter_cons_True by (unfold GrowthSpec.long_enough; cbn; lia).
    rewrite !filter_cons_False by (unfold GrowthSpec.long_enough; cbn; lia).
    rewrite filter_nil. cbn [map snd length]. rewrite Hw.
    unfold sum. cbn [foldl INR].
    rewrite (round2_near _ 10000) by lra. lra. }
  eexists. split.
  - apply (mos_growth_estimate_returns (fun _ => None) _ 2019 2014). lia.
  - change (2019 - 2014 - 5)%Z with 0%Z.
    rewrite lookup_insert_eq, Havg, Hfour.
    split; [reflexivity|]. split; [reflexivity|].
    intros H. injection H as H. lra.
Qed.

Lemma mos_growth_estimate_raises_iff_witness :
  GrowthEstimation.mos_growth_estimate (fun _ => None)
    [("eps", [1; 1; 1; 1; 1; 2])] 2019 2016 = Raise ValueError.
Proof.
  apply (mos_growth_estimate_raises_iff (fun _ => None) [] 2019 2016).
  lia.
Defined.

Lemma mos_growth_estimate_stores_cagr_witness :
  exists d,
    GrowthEstimation.mos_growth_estimate (fun _ => None)
      [("eps", [1; 1; 1; 1; 1; 2]); ("book", [3; 1; 4; 1; 5; 9])] 2019 2014
    = Return d /\
    d !! "book" = Some (round2 ((Rpower (9 / 3) (1 / 5) - 1) * 100)).
Proof.
  apply (proj1 (mos_growth_estimate_stores_cagr (fun _ => None))
           [("eps", [1; 1; 1; 1; 1; 2]); ("book", [3; 1; 4; 1; 5; 9])]
           2019%Z 2014%Z "book" [3; 1; 4; 1; 5; 9] 3 9);
    try reflexivity; try lra; try (cbn; lia).
  - cbn. apply NoDup_cons. split.
    + intros H. apply list_elem_of_singleton in H. discriminate H.
    + apply NoDup_singleton.
  - apply elem_of_cons. right. apply list_elem_of_singleton. reflexivity.
  - discriminate.
Defined.

(** ** mos.py: [calculate_intrinsic_value] *)

Section MosFacts.

Import Mos.

(** C3. With [eps_now <= 0] or [growth_rate <= 0] the result is the dict of
    four zeros. Otherwise it holds the ten-year EPS
    [eps_now * (1 + growth_rate) ** 10], the future value (that EPS times
    [growth_rate * 200]), the fair value today (the future value over
    [(1 + discount_rate) ** 10]) and the MOS price (the fair value times
    [1 - mos]), each rounded to two decimals; for [eps_now = 1] and
    [growth_rate = 0.1], with the default rates, these are 2.59, 51.87,
    12.82 and 6.41. *)
Theorem calculate_intrinsic_value_spec :
  (forall (eps_now growth_rate : R) (breach_year : Z)
          (discount_rate mos : option R),
     eps_now <= 0 \/ growth_rate <= 0 ->
     calculate_intrinsic_value eps_now growth_rate breach_year
       discount_rate mos
     = Return (<["EPS_10y" := 0]> (<["Future Value" := 0]>
              (<["Fair Value Today" := 0]> (<["MOS Price (50%)" := 0]> ∅))))) /\
  (forall (eps_now growth_rate : R) (breach_year : Z)
          (discount_rate mos : option R),
     0 < eps_now -> 0 < growth_rate ->
     1 + default 0.15 discount_rate <> 0 ->
     let eps_10y := eps_now * (1 + growth_rate) ^ 10 in
     let future_value := eps_10y * (growth_rate * 200) in
     let fair_value_today :=
       future_value / (1 + default 0.15 discount_rate) ^ 10 in
     let mos_price := fair_value_today * (1 - default 0.50 mos) in
     exists d,
       calculate_intrinsic_value eps_now growth_rate breach_year
         discount_rate mos = Return d /\
       d !! "EPS_10y" = Some (round2 eps_10y) /\
       d !! "Future Value" = Some (round2 future_value) /\
       d !! "Fair Value Today" = Some (round2 fair_value_today) /\
       d !! "MOS Price (50%)" = Some (round2 mos_price)) /\
  (exists d,
     calculate_intrinsic_value 1 0.1 2020 None None = Return d /\
     d !! "EPS_10y" = Some 2.59 /\
     d !! "Future Value" = Some 51.87 /\
     d !! "Fair Value Today" = Some 12.82 /\
     d !! "MOS Price (50%)" = Some 6.41).
Proof.
  assert (Hchain : forall (eps_now growth_rate : R) (breach_year : Z)
          (discount_rate mos : option R),
     0 < eps_now -> 0 < growth_rate ->
     1 + default 0.15 discount_rate <> 0 ->
     let eps_10y := eps_now * (1 + growth_rate) ^ 10 in
     let future_value := eps_10y * (growth_rate * 200) in
     let fair_value_today :=
       future_value / (1 + default 0.15 discount_rate) ^ 10 in
     let mos_price := fair_value_today * (1 - default 0.50 mos) in
     exists d,
       calculate_intrinsic_value eps_now growth_rate breach_year
         discount_rate mos = Return d /\
       d !! "EPS_10y" = Some (round2 eps_10y) /\
       d !! "Future Value" = Some (round2 future_value) /\
       d !! "Fair Value Today" = Some (round2 fair_value_today) /\
       d !! "MOS Price (50%)" = Some (round2 mos_price)).
  { intros eps_now growth_rate breach_year discount_rate mos He Hg Hd
      eps_10y future_value fair_value_today mos_price.
    unfold calculate_intrinsic_value.
    rewrite !bool_decide_eq_false_2 by lra. cbn [orb].
    unfold truediv. cbn [num].
    rewrite bool_decide_eq_false_2 by (apply pow_nonzero, Hd).
    cbn [mbind outcome_bind].
    eexists. split; [reflexivity|].
    repeat split; simplify_map_eq; reflexivity. }
  split; [|split; [exact Hchain|]].
  - intros eps_now growth_rate breach_year discount_rate mos H.
    unfold calculate_intrinsic_value.
    destruct H as [H | H].
    + rewrite (bool_decide_eq_true_2 (eps_now <= 0)) by exact H. reflexivity.
    + rewrite (bool_decide_eq_true_2 (growth_rate <= 0)) by exact H.
      rewrite orb_true_r. reflexivity.
  - destruct (Hchain 1 0.1 2020%Z None None) as (d & Hd & H1 & H2 & H3 & H4);
      [lra | lra | cbn; lra |].
    exists d. split; [exact Hd|]. cbn [default] in H1, H2, H3, H4.
    assert (Hp : (1 + 0.15) ^ 10 = 41426511213649 / 10240000000000) by lra.
    rewrite Hp in H3, H4.
    rewrite H1, H2, H3, H4.
    repeat split; f_equal.
    + rewrite (round2_near _ 259) by lra. lra.
    + rewrite (round2_near _ 5187) by lra. lra.
    + rewrite (round2_near _ 1282) by lra. lra.
    + rewrite (round2_near _ 641) by lra. lra.
Qed.

End MosFacts.

Lemma calculate_intrinsic_value_spec_witness :
  Mos.calculate_intrinsic_value 0 0.1 2020 None None
  = Return (<["EPS_10y" := 0]> (<["Future Value" := 0]>
           (<["Fair Value Today" := 0]> (<["MOS Price (50%)" := 0]> ∅)))) /\
  exists d,
    Mos.calculate_intrinsic_value 0.5 0.3 2020 (Some 0.1) (Some 0.25)
    = Return d /\
    d !! "EPS_10y" = Some (round2 (0.5 * (1 + 0.3) ^ 10)) /\
    d !! "Future Value" = Some (round2 (0.5 * (1 + 0.3) ^ 10 * (0.3 * 200))) /\
    d !! "Fair Value Today"
    = Some (round2 (0.5 * (1 + 0.3) ^ 10 * (0.3 * 200) / (1 + 0.1) ^ 10)) /\
    d !! "MOS Price (50%)"
    = Some (round2 (0.5 * (1 + 0.3) ^ 10 * (0.3 * 200) / (1 + 0.1) ^ 10
                    * (1 - 0.25))).
Proof.
  split.
  - apply (proj1 calculate_intrinsic_value_spec). left. lra.
  - apply (proj1 (proj2 calculate_intrinsic_value_spec)
             0.5 0.3 2020%Z (Some 0.1) (Some 0.25)); cbn; lra.
Defined.

Section TenCapFacts.

Import TenCap.

Variable FMP_API_KEY : string.
Variable requests_get_json : string -> outcome json.
Variable py_repr : json -> string.

#[local] Abbreviation get_income_statement :=
  (FmpApi.get_income_statement FMP_API_KEY requests_get_json).
#[local] Abbreviation get_cashflow_statement :=
  (FmpApi.get_cashflow_statement FMP_API_KEY requests_get_json).
#[local] Abbreviation get_key_metrics :=
  (FmpApi.get_key_metrics FMP_API_KEY requests_get_json).
#[local] Abbreviation py_str := (TenCap.py_str py_repr).
#[local] Abbreviation next_year := (TenCap.next_year py_repr).
#[local] Abbreviation year_str := (TenCap.year_str py_repr).
#[local] Abbreviation has_year_record := (TenCap.has_year_record py_repr).
#[local] Abbreviation year_record := (TenCap.year_record py_repr).
#[local] Abbreviation calculate_ten_cap_price :=
  (TenCap.calculate_ten_cap_price FMP_API_KEY requests_get_json py_repr).

Lemma next_year_inv (items : list json) (ys : string) (v : json) :
  next_year items ys = Return v ->
  v = JNull \/
  exists d, v = JDict d /\ JDict d ∈ items /\
            py_str (get d "calendarYear" JNull) = ys.
Proof.
  induction items as [|data rest IH]; cbn [TenCap.next_year].
  - intros [= <-]. left. reflexivity.
  - destruct data as [| | | | | |d]; try discriminate.
    cbn [dict_get mbind outcome_bind].
    destruct (String.eqb (py_str (get d "calendarYear" JNull)) ys) eqn:Heq.
    + intros [= <-]. right. exists d. apply String.eqb_eq in Heq.
      split; [reflexivity|]. split; [apply list_elem_of_here | exact Heq].
    + intros H. destruct (IH H) as [-> | (d' & -> & Hin & Hy)].
      * left. reflexivity.
      * right. exists d'. split; [reflexivity|].
        split; [apply list_elem_of_further, Hin | exact Hy].
Qed.

Lemma chars_are_strings (s : string) (d : gmap string json) :
  JDict d ∉ chars s.
Proof.
  induction s as [|c rest IH]; cbn [chars].
  - apply not_elem_of_nil.
  - apply not_elem_of_cons. split; [discriminate | exact IH].
Qed.

Lemma iter_inv (v : json) (items : list json) (d : gmap string json) :
  iter v = Return items -> JDict d ∈ items -> v = JList items.
Proof.
  destruct v as [| | | |s|l|m]; cbn [iter]; try discriminate;
    intros [= <-] Hin.
  - exfalso. exact (chars_are_strings s d Hin).
  - reflexivity.
  - exfalso. apply list_elem_of_fmap in Hin as (kv & Hkv & _).
    discriminate Hkv.
Qed.

Lemma found_record (v : json) (items : list json) (ys : string)
    (w : json) :
  iter v = Return items -> next_year items ys = Return w ->
  truthy w = true ->
  exists d, w = JDict d /\ v = JList items.
Proof.
  intros Hiter Hnext Htruthy.
  destruct (next_year_inv _ _ _ Hnext) as [-> | (d & -> & Hin & _)].
  - discriminate Htruthy.
  - exists d. split; [reflexivity|]. exact (iter_inv _ _ _ Hiter Hin).
Qed.

Lemma ten_cap_inv (ticker : string) (year : option Z) (p : R) :
  calculate_ten_cap_price ticker year = Some p ->
  exists i c m,
    year_record (get_income_statement ticker 10) year i /\
    year_record (get_cashflow_statement ticker 10) year c /\
    year_record (get_key_metrics ticker 10) year m /\
    ten_cap_of_records i c m = Return (Some p).
Proof.
  unfold TenCap.calculate_ten_cap_price.
  destruct (get_income_statement ticker 10) as [income_data|] eqn:Ei;
    [|discriminate].
  destruct (get_cashflow_statement ticker 10) as [cashflow_data|] eqn:Ec;
    [|discriminate].
  destruct (get_key_metrics ticker 10) as [metrics|] eqn:Em;
    [|discriminate].
  cbn [mbind outcome_bind].
  destruct (negb (truthy income_data) || _ || _); [discriminate|].
  destruct (iter income_data) as [ii|] eqn:Hii; [|discriminate].
  cbn [mbind outcome_bind].
  destruct (next_year ii _) as [wi|] eqn:Hni; [|discriminate].
  cbn [mbind outcome_bind].
  destruct (iter cashflow_data) as [ci|] eqn:Hci; [|discriminate].
  cbn [mbind outcome_bind].
  destruct (next_year ci _) as [wc|] eqn:Hnc; [|discriminate].
  cbn [mbind outcome_bind].
  destruct (iter metrics) as [mi|] eqn:Hmi; [|discriminate].
  cbn [mbind outcome_bind].
  destruct (next_year mi _) as [wm|] eqn:Hnm; [|discriminate].
  cbn [mbind outcome_bind].
  destruct (truthy wi) eqn:Hti; [|discriminate].
  destruct (truthy wc) eqn:Htc; [|discriminate].
  destruct (truthy wm) eqn:Htm; [|discriminate].
  cbn [negb orb].
  destruct (found_record _ _ _ _ Hii Hni Hti) as (i & -> & ->).
  destruct (found_record _ _ _ _ Hci Hnc Htc) as (c & -> & ->).
  destruct (found_record _ _ _ _ Hmi Hnm Htm) as (m & -> & ->).
  destruct (ten_cap_of_records i c m) as [[q|]|] eqn:Hrec; try discriminate.
  intros [= <-]. exists i, c, m.
  split; [exists ii; split; [reflexivity | split; assumption]|].
  split; [exists ci; split; [reflexivity | split; assumption]|].
  split; [exists mi; split; [reflexivity | split; assumption]|].
  exact Hrec.
Qed.

Lemma year_record_has (collection : outcome json) (year : option Z)
    (record : gmap string json) :
  year_record collection year record -> has_year_record collection year.
Proof.
  intros (items & Hc & Hnext & _).
  destruct (next_year_inv _ _ _ Hnext) as [H | (d & H & Hin & Hy)];
    [discriminate H|].
  injection H as <-. exists items, record. auto.
Qed.

Lemma year_record_unique (collection : outcome json) (year : option Z)
    (r1 r2 : gmap string json) :
  year_record collection year r1 -> year_record collection year r2 ->
  r1 = r2.
Proof.
  intros (items1 & Hc1 & Hn1 & _) (items2 & Hc2 & Hn2 & _).
  rewrite Hc1 in Hc2. injection Hc2 as <-.
  rewrite Hn1 in Hn2. injection Hn2 as <-. reflexivity.
Qed.

Lemma ten_cap_run (ticker : string) (year : option Z)
    (i c m : gmap string json) :
  year_record (get_income_statement ticker 10) year i ->
  year_record (get_cashflow_statement ticker 10) year c ->
  year_record (get_key_metrics ticker 10) year m ->
  calculate_ten_cap_price ticker year
  = except_none (ten_cap_of_records i c m).
Proof.
  intros (ii & Ei & Hni & Hti) (ci & Ec & Hnc & Htc) (mi & Em & Hnm & Htm).
  unfold TenCap.calculate_ten_cap_price. rewrite Ei, Ec, Em.
  cbn [mbind outcome_bind iter].
  assert (Hne : forall items r,
            next_year items (year_str year) = Return (JDict r) ->
            truthy (JList items) = true).
  { intros [|x rest] r H; [discriminate H | reflexivity]. }
  rewrite (Hne _ _ Hni), (Hne _ _ Hnc), (Hne _ _ Hnm). cbn [negb orb].
  fold (year_str year). rewrite Hni, Hnc, Hnm. cbn [mbind outcome_bind].
  rewrite Hti, Htc, Htm. reflexivity.
Qed.

Lemma MILLION_ne : MILLION <> 0.
Proof.
  unfold MILLION. lra.
Qed.

Lemma MILLION_ge : 1 <= MILLION.
Proof.
  unfold MILLION. lra.
Qed.

Lemma truediv_MILLION_fits (v : json) (r : R) :
  num v = Some r -> quotient_fits v MILLION ->
  truediv v MILLION = Return (r / MILLION).
Proof.
  intros Hr Hfits. apply truediv_fits; [exact Hr | apply MILLION_ne|].
  exact Hfits.
Qed.

Lemma fields_fit_empty : fields_fit ∅.
Proof.
  intros key value H. rewrite lookup_empty in H. discriminate H.
Qed.

Lemma fields_fit_insert (key : string) (value : json)
    (record : gmap string json) :
  quotient_fits value MILLION -> fields_fit record ->
  fields_fit (<[key := value]> record).
Proof.
  intros Hv Hrec k v Hk. destruct (decide (key = k)) as [->|Hne].
  - rewrite lookup_insert_eq in Hk. injection Hk as <-. exact Hv.
  - rewrite lookup_insert_ne in Hk by exact Hne. exact (Hrec k v Hk).
Qed.

Lemma fields_fit_delete (key : string) (record : gmap string json) :
  fields_fit record -> fields_fit (delete key record).
Proof.
  intros Hrec k v Hk. apply lookup_delete_Some in Hk as [_ Hk].
  exact (Hrec k v Hk).
Qed.

Lemma get_fits (record : gmap string json) (key : string) :
  fields_fit record -> quotient_fits (get record key (JInt 0)) MILLION.
Proof.
  intros Hrec. unfold get. destruct (record !! key) as [v|] eqn:Hv.
  - exact (Hrec key v Hv).
  - apply quotient_fits_int; [reflexivity | apply MILLION_ge].
Qed.

Lemma depreciation_value_fits (c : gmap string json) :
  fields_fit c -> quotient_fits (depreciation_value c) MILLION.
Proof.
  intros Hc. unfold depreciation_value, py_or.
  repeat (destruct (truthy _); [apply get_fits, Hc|]). apply get_fits, Hc.
Qed.

Lemma log_depreciation_fields_ok (items : list (string * json)) :
  (forall key value, (key, value) ∈ items ->
     contains "depreciation" (lower key) = true -> is_Some (num value)) ->
  (forall key value, (key, value) ∈ items -> quotient_fits value MILLION) ->
  log_depreciation_fields items = Return ().
Proof.
  induction items as [|[key value] rest IH]; intros H Hfit; [reflexivity|].
  cbn [log_depreciation_fields].
  assert (Hrest : log_depreciation_fields rest = Return ()).
  { apply IH; intros k v Hin; [apply H | apply (Hfit k)];
      apply list_elem_of_further, Hin. }
  destruct (contains "depreciation" (lower key)) eqn:Hk; [|exact Hrest].
  destruct (H key value (list_elem_of_here _ _) Hk) as [r Hr].
  rewrite (truediv_MILLION_fits value r Hr
             (Hfit key value (list_elem_of_here _ _))).
  exact Hrest.
Qed.

Lemma log_depreciation_fields_inv (items : list (string * json)) :
  log_depreciation_fields items = Return () ->
  forall key value, (key, value) ∈ items ->
    contains "depreciation" (lower key) = true -> is_Some (num value).
Proof.
  induction items as [|[k v] rest IH]; intros Hrun key value Hin Hkey.
  - apply elem_of_nil in Hin as [].
  - cbn [log_depreciation_fields] in Hrun.
    apply elem_of_cons in Hin as [[= -> ->] | Hin].
    + rewrite Hkey in Hrun.
      apply bind_Return_inv in Hrun as (q & Hq & _).
      apply truediv_Return_inv in Hq as (r & Hr & _). eauto.
    + destruct (contains "depreciation" (lower k)).
      * apply bind_Return_inv in Hrun as (q & _ & Hrun).
        exact (IH Hrun key value Hin Hkey).
      * exact (IH Hrun key value Hin Hkey).
Qed.

Lemma log_cashflow_fields_ok (items : list (string * json)) :
  (forall key value, (key, value) ∈ items -> quotient_fits value MILLION) ->
  log_cashflow_fields items = Return ().
Proof.
  induction items as [|[key value] rest IH]; intros Hfit; [reflexivity|].
  cbn [log_cashflow_fields].
  assert (Hrest : log_cashflow_fields rest = Return ()).
  { apply IH. intros k v Hin. apply (Hfit k), list_elem_of_further, Hin. }
  destruct (is_number value) eqn:Hn; [|exact Hrest].
  destruct (is_number_num value Hn) as [r Hr].
  rewrite (truediv_MILLION_fits value r Hr
             (Hfit key value (list_elem_of_here _ _))).
  exact Hrest.
Qed.

Lemma ten_cap_of_records_formula (i c m : gmap string json)
    (pbt dep ar ap capex shares : R) :
  num (get i "incomeBeforeTax" (JInt 0)) = Some pbt ->
  quotient_fits (get i "incomeBeforeTax" (JInt 0)) MILLION ->
  num (depreciation_value c) = Some dep ->
  (dep = 0 -> depreciation_fields_numeric c) ->
  num (get c "accountsReceivables" (JInt 0)) = Some ar ->
  num (get c "accountsPayables" (JInt 0)) = Some ap ->
  num (get c "capitalExpenditure" (JInt 0)) = Some capex ->
  fields_fit c ->
  num (shares_value m i) = Some shares ->
  quotient_fits (shares_value m i) MILLION ->
  0 < shares ->
  ten_cap_of_records i c m
  = Return (Some ((pbt / MILLION + dep / MILLION
                   + (ar / MILLION + ap / MILLION)
                   - 0.5 * (Rabs capex / MILLION))
                  / (shares / MILLION) / 0.10)).
Proof.
  intros Hpbt Hfpbt Hdep Hlog Har Hap Hcapex Hfit Hshares Hfshares Hpos.
  assert (HM : 0 < MILLION) by (unfold MILLION; lra).
  assert (Hs : 0 < shares / MILLION) by (apply Rdiv_lt_0_compat; lra).
  destruct (py_abs_fits _ capex MILLION Hcapex
              (get_fits c "capitalExpenditure" Hfit))
    as (w & Hw & Hnw & Hfw).
  unfold ten_cap_of_records, calculate_working_capital_change.
  rewrite (truediv_MILLION_fits _ pbt Hpbt Hfpbt).
  rewrite (truediv_MILLION_fits _ dep Hdep (depreciation_value_fits c Hfit)).
  rewrite (truediv_MILLION_fits _ ar Har
             (get_fits c "accountsReceivables" Hfit)).
  rewrite (truediv_MILLION_fits _ ap Hap
             (get_fits c "accountsPayables" Hfit)).
  rewrite Hw. cbn [mbind outcome_bind fst].
  rewrite (truediv_MILLION_fits w _ Hnw Hfw).
  rewrite (truediv_MILLION_fits _ shares Hshares Hfshares).
  cbn [mbind outcome_bind fst].
  assert (Hall : forall key value,
            (key, value) ∈ map_to_list c -> quotient_fits value MILLION).
  { intros key value Hin. apply elem_of_map_to_list in Hin.
    exact (Hfit key value Hin). }
  assert (Hl : (if bool_decide (dep / MILLION = 0)
                then log_depreciation_fields (map_to_list c)
                else Return ()) = Return ()).
  { case_bool_decide as Hz; [|reflexivity].
    apply log_depreciation_fields_ok; [|exact Hall]. intros key value Hin.
    apply elem_of_map_to_list in Hin.
    apply Hlog; [|exact Hin].
    apply (Rmult_eq_compat_r MILLION) in Hz. unfold Rdiv in Hz.
    rewrite Rmult_assoc, Rinv_l, Rmult_1_r, Rmult_0_l in Hz by lra.
    exact Hz. }
  rewrite Hl. cbn [mbind outcome_bind].
  rewrite (bool_decide_eq_false_2 (shares / MILLION <= 0)) by lra.
  rewrite (bool_decide_eq_true_2 (0 < shares / MILLION)) by lra.
  rewrite (truediv_fits (JFloat _) (shares / MILLION) _ eq_refl)
    by (try lra; apply quotient_fits_no_int; reflexivity).
  cbn [mbind outcome_bind]. rewrite (log_cashflow_fields_ok _ Hall).
  cbn [mbind outcome_bind]. unfold calculate_owner_earnings.
  do 2 f_equal. lra.
Qed.

(** What a returned price was computed from. *)
Lemma ten_cap_of_records_inv (i c m : gmap string json) (p : R) :
  ten_cap_of_records i c m = Return (Some p) ->
  exists pbt dep ar ap capex shares : R,
    num (get i "incomeBeforeTax" (JInt 0)) = Some pbt /\
    num (depreciation_value c) = Some dep /\
    (dep = 0 -> depreciation_fields_numeric c) /\
    num (get c "accountsReceivables" (JInt 0)) = Some ar /\
    num (get c "accountsPayables" (JInt 0)) = Some ap /\
    num (get c "capitalExpenditure" (JInt 0)) = Some capex /\
    num (shares_value m i) = Some shares /\
    0 < shares /\
    p = 10 * (pbt + dep + ar + ap - Rabs capex / 2) / shares.
Proof.
  assert (HM : 0 < MILLION) by (unfold MILLION; lra).
  unfold ten_cap_of_records, calculate_working_capital_change.
  intros H.
  apply bind_Return_inv in H as (pbt' & Hpbt & H).
  apply truediv_Return_inv in Hpbt as (pbt & Hpbt & -> & _).
  apply bind_Return_inv in H as (dep' & Hdep & H).
  apply truediv_Return_inv in Hdep as (dep & Hdep & -> & _).
  apply bind_Return_inv in H as ([] & Hlog & H).
  apply bind_Return_inv in H as (wc & Hwc & H).
  apply bind_Return_inv in Hwc as (ar' & Har & Hwc).
  apply truediv_Return_inv in Har as (ar & Har & -> & _).
  apply bind_Return_inv in Hwc as (ap' & Hap & Hwc).
  apply truediv_Return_inv in Hap as (ap & Hap & -> & _).
  injection Hwc as <-. cbn [fst] in H.
  apply bind_Return_inv in H as (w & Hw & H).
  apply bind_Return_inv in H as (mc' & Hmc & H).
  apply truediv_Return_inv in Hmc as (mc & Hmc & -> & _).
  apply bind_Return_inv in H as (so' & Hso & H).
  apply truediv_Return_inv in Hso as (shares & Hshares & -> & _).
  destruct (bool_decide (shares / MILLION <= 0)) eqn:Hle;
    [discriminate H|].
  apply bool_decide_eq_false_1, Rnot_le_lt in Hle.
  assert (Hpos : 0 < shares).
  { unfold Rdiv in Hle.
    apply (Rmult_lt_compat_r MILLION) in Hle; [|exact HM].
    rewrite Rmult_assoc, Rinv_l, Rmult_1_r, Rmult_0_l in Hle by lra.
    exact Hle. }
  rewrite (bool_decide_eq_true_2 (0 < shares / MILLION)) in H by exact Hle.
  apply bind_Return_inv in H as (eps & Heps & H).
  apply truediv_Return_inv in Heps as (oe & Hoe & -> & _).
  injection Hoe as <-.
  apply bind_Return_inv in H as ([] & _ & H). injection H as <-.
  assert (Hcapex : exists capex,
            num (get c "capitalExpenditure" (JInt 0)) = Some capex /\
            mc = Rabs capex).
  { destruct (get c "capitalExpenditure" (JInt 0)) as [|b|z|x| | |];
      try discriminate Hw; cbn [py_abs] in Hw; injection Hw as <-;
      cbn [num] in Hmc; injection Hmc as <-; eexists;
      (split; [reflexivity|]).
    - destruct b; [rewrite Rabs_R1 | rewrite Rabs_R0]; reflexivity.
    - apply abs_IZR.
    - reflexivity. }
  destruct Hcapex as (capex & Hcapex & ->).
  exists pbt, dep, ar, ap, capex, shares.
  repeat (split; [reflexivity || assumption|]). split.
  - intros Hz key value Hkv Hkey.
    rewrite bool_decide_eq_true_2 in Hlog
      by (rewrite Hz; unfold Rdiv; apply Rmult_0_l).
    apply (log_depreciation_fields_inv _ Hlog key value);
      [apply elem_of_map_to_list, Hkv | exact Hkey].
  - do 5 (split; [assumption|]).
    unfold calculate_owner_earnings, MILLION.
    replace 0.5 with (1 / 2) by lra. replace 0.10 with (1 / 10) by lra.
    field. lra.
Qed.

Lemma ten_cap_of_records_shares (i c m : gmap string json) (p : R) :
  ten_cap_of_records i c m = Return (Some p) ->
  exists shares, num (shares_value m i) = Some shares /\ 0 < shares.
Proof.
  intros H.
  destruct (ten_cap_of_records_inv i c m p H)
    as (pbt & dep & ar & ap & capex & shares & _ & _ & _ & _ & _ & _
        & Hshares & Hpos & _).
  exists shares. split; assumption.
Qed.

Lemma shares_value_first_truthy (m i : gmap string json) :
  shares_value m i
  = first_truthy [get m "weightedAverageShsOut" (JInt 0);
                  get m "weightedAverageShsOutDil" (JInt 0);
                  get i "weightedAverageShsOut" (JInt 0)]
                 (get i "weightedAverageShsOutDil" (JInt 0)).
Proof.
  unfold shares_value, first_truthy, py_or. cbn [List.find].
  repeat (destruct (truthy _); [reflexivity|]). reflexivity.
Qed.

(** C5. [calculate_ten_cap_price] returns [None] when one of the three
    collections holds no record of the requested year, and when the shares
    outstanding of the records found (the first truthy value among two
    fields of the key metrics and the same two fields of the income record)
    are not a strictly positive number. *)
Theorem calculate_ten_cap_price_none (ticker : string) (year : option Z) :
  (~ has_year_record (get_income_statement ticker 10) year \/
   ~ has_year_record (get_cashflow_statement ticker 10) year \/
   ~ has_year_record (get_key_metrics ticker 10) year ->
   calculate_ten_cap_price ticker year = None) /\
  (forall i m : gmap string json,
     year_record (get_income_statement ticker 10) year i ->
     year_record (get_key_metrics ticker 10) year m ->
     shares_value m i
     = first_truthy [get m "weightedAverageShsOut" (JInt 0);
                     get m "weightedAverageShsOutDil" (JInt 0);
                     get i "weightedAverageShsOut" (JInt 0)]
                    (get i "weightedAverageShsOutDil" (JInt 0)) /\
     ((forall shares, num (shares_value m i) = Some shares -> shares <= 0) ->
      calculate_ten_cap_price ticker year = None)).
Proof.
  split.
  - intros H.
    destruct (calculate_ten_cap_price ticker year) as [p|] eqn:E;
      [|reflexivity].
    exfalso.
    destruct (ten_cap_inv _ _ _ E) as (i & c & m & Hi & Hc & Hm & _).
    apply year_record_has in Hi, Hc, Hm. tauto.
  - intros i m Hi Hm. split; [apply shares_value_first_truthy|].
    intros Hshares.
    destruct (calculate_ten_cap_price ticker year) as [p|] eqn:E;
      [|reflexivity].
    exfalso.
    destruct (ten_cap_inv _ _ _ E) as (i' & c & m' & Hi' & _ & Hm' & Hrec).
    rewrite (year_record_unique _ _ _ _ Hi' Hi) in Hrec.
    rewrite (year_record_unique _ _ _ _ Hm' Hm) in Hrec.
    destruct (ten_cap_of_records_shares _ _ _ _ Hrec) as (s & Hs & Hpos).
    specialize (Hshares s Hs). lra.
Qed.

End TenCapFacts.




Lemma example_income_fits :
  quotient_fits (get TenCapExample.income_2019 "incomeBeforeTax" (JInt 0))
    TenCap.MILLION.
Proof.
  apply (quotient_fits_int 100000000); [reflexivity | apply MILLION_ge].
Qed.

Lemma example_cashflow_fits : TenCap.fields_fit TenCapExample.cashflow_2019.
Proof.
  unfold TenCapExample.cashflow_2019.
  apply fields_fit_insert; [apply quotient_fits_no_int; reflexivity|].
  do 4 (apply fields_fit_insert;
        [apply quotient_fits_int; [reflexivity | apply MILLION_ge]|]).
  apply fields_fit_empty.
Qed.

Lemma example_shares_fit :
  quotient_fits
    (TenCap.shares_value TenCapExample.metrics_2019
       TenCapExample.income_2019) TenCap.MILLION.
Proof.
  apply (quotient_fits_int 50000000); [reflexivity | apply MILLION_ge].
Qed.




Lemma calculate_ten_cap_price_none_witness :
  TenCap.calculate_ten_cap_price "demo" TenCapExample.provider
    TenCapExample.repr "COF" (Some 2018%Z) = None /\
  TenCap.calculate_ten_cap_price "demo" TenCapExample.provider
    TenCapExample.repr "COF" (Some 2020%Z) = None.
Proof.
  split.
  - apply (proj1 (calculate_ten_cap_price_none "demo" TenCapExample.provider
                    TenCapExample.repr "COF" (Some 2018%Z))).
    left. intros (items & d & Hitems & Hin & Hyear).
    change (Return (JList [JDict TenCapExample.income_2020;
                           JDict TenCapExample.income_2019])
            = Return (JList items)) in Hitems.
    injection Hitems as <-.
    apply elem_of_cons in Hin as [Hd | Hin];
      [|apply list_elem_of_singleton in Hin as Hd];
      injection Hd as ->; vm_compute in Hyear; discriminate Hyear.
  - apply (proj2 (calculate_ten_cap_price_none "demo" TenCapExample.provider
                    TenCapExample.repr "COF" (Some 2020%Z))
             TenCapExample.income_2020 TenCapExample.metrics_2020).
    + exists [JDict TenCapExample.income_2020;
              JDict TenCapExample.income_2019].
      repeat split; reflexivity.
    + exists [JDict TenCapExample.metrics_2020;
              JDict TenCapExample.metrics_2019].
      repeat split; reflexivity.
    + intros shares Hshares.
      change (Some 0 = Some shares) in Hshares.
      injection Hshares as <-. lra.
Defined.

(** ** fmp_api.py: [get_valid_price] *)

Section PriceFacts.

Variable FMP_API_KEY : string.
Variable requests_get_json : string -> outcome json.
Variable strptime : string -> option Z.
Variable strftime : Z -> string.

#[local] Abbreviation price_on_date :=
  (FmpApi.price_on_date FMP_API_KEY requests_get_json).
#[local] Abbreviation price_url := (FmpApi.price_url FMP_API_KEY).
#[local] Abbreviation candidate := (FmpApi.candidate strftime).
#[local] Abbreviation search_back :=
  (FmpApi.search_back FMP_API_KEY requests_get_json strftime).
#[local] Abbreviation get_valid_price :=
  (FmpApi.get_valid_price FMP_API_KEY requests_get_json strptime strftime).

Lemma price_on_date_close (ticker date : string) (d : gmap string json)
    (bars : list json) (e : gmap string json) (v : json) :
  requests_get_json (price_url ticker date) = Return (JDict d) ->
  d !! "historical" = Some (JList (JDict e :: bars)) ->
  e !! "close" = Some v ->
  price_on_date ticker date = v.
Proof.
  intros Hreq Hh Hc. unfold FmpApi.price_on_date, FmpApi.close_of.
  rewrite Hreq. cbn [mbind outcome_bind py_in subscript_key].
  rewrite Hh. rewrite bool_decide_eq_true_2 by eauto.
  cbn [truthy subscript_index lookup list_lookup mbind outcome_bind
       subscript_key].
  rewrite Hc. reflexivity.
Qed.

Lemma search_back_miss (ticker : string) (base_date : Z) (days : list nat)
    (log : list string) :
  Forall (λ i, (1 <= base_date - Z.of_nat i)%Z /\
               truthy (price_on_date ticker (candidate base_date i)) = false)
         days ->
  search_back ticker base_date days log
  = Return (JNull, JNull,
            log ++ map (λ i, price_url ticker (candidate base_date i)) days).
Proof.
  revert log. induction days as [|i rest IH]; intros log Hall.
  - cbn. rewrite app_nil_r. reflexivity.
  - apply Forall_cons in Hall as [[Hday Hfalsy] Hrest].
    cbn [FmpApi.search_back]. unfold FmpApi.minus_days.
    rewrite (proj2 (Z.ltb_ge _ 1)) by exact Hday.
    cbn [mbind outcome_bind FmpApi.get_price_on_date].
    fold (candidate base_date i). rewrite Hfalsy.
    rewrite (IH _ Hrest). cbn [map]. rewrite <- app_assoc. reflexivity.
Qed.

Lemma search_back_hit (ticker : string) (base_date : Z)
    (before : list nat) (i : nat) (after : list nat) (log : list string) :
  Forall (λ j, (1 <= base_date - Z.of_nat j)%Z /\
               truthy (price_on_date ticker (candidate base_date j)) = false)
         before ->
  (1 <= base_date - Z.of_nat i)%Z ->
  truthy (price_on_date ticker (candidate base_date i)) = true ->
  search_back ticker base_date (before ++ i :: after) log
  = Return (price_on_date ticker (candidate base_date i),
            JStr (candidate base_date i),
            log ++ map (λ j, price_url ticker (candidate base_date j))
                       (before ++ [i])).
Proof.
  revert log. induction before as [|j rest IH]; intros log Hall Hday Htruthy.
  - cbn [app FmpApi.search_back]. unfold FmpApi.minus_days.
    rewrite (proj2 (Z.ltb_ge _ 1)) by exact Hday.
    cbn [mbind outcome_bind FmpApi.get_price_on_date].
    fold (candidate base_date i). rewrite Htruthy. reflexivity.
  - apply Forall_cons in Hall as [[Hj Hfalsy] Hrest].
    cbn [app FmpApi.search_back]. unfold FmpApi.minus_days.
    rewrite (proj2 (Z.ltb_ge _ 1)) by exact Hj.
    cbn [mbind outcome_bind FmpApi.get_price_on_date].
    fold (candidate base_date j). rewrite Hfalsy.
    rewrite (IH _ Hrest Hday Htruthy). cbn [map app].
    rewrite <- app_assoc. reflexivity.
Qed.

Lemma seq_split (n i : nat) :
  (i < n)%nat -> seq 0 n = seq 0 i ++ i :: seq (S i) (n - S i).
Proof.
  intros Hi. replace n with (i + S (n - S i))%nat at 1 by lia.
  rewrite seq_app. reflexivity.
Qed.

(** C7. From a base date with thirteen days before it, [get_valid_price]
    requests the prices of [base_date], [base_date - 1], ... in this order
    and stops at the first candidate with a price, the one it returns with
    its date string; when none of the fourteen candidates has a price it
    has requested all of them and returns [(None, None)]. A candidate has a
    price when the price found for it is truthy. *)
Theorem get_valid_price_first_hit (ticker base_date_str : string)
    (base_date : Z) (log : list string) :
  strptime base_date_str = Some base_date -> (14 <= base_date)%Z ->
  (forall i : nat,
     (i < 14)%nat ->
     truthy (price_on_date ticker (candidate base_date i)) = true ->
     (forall j : nat, (j < i)%nat ->
        truthy (price_on_date ticker (candidate base_date j)) = false) ->
     get_valid_price ticker base_date_str log
     = Return (price_on_date ticker (candidate base_date i),
               JStr (candidate base_date i),
               log ++ map (λ j, price_url ticker (candidate base_date j))
                          (seq 0 (S i)))) /\
  ((forall j : nat, (j < 14)%nat ->
      truthy (price_on_date ticker (candidate base_date j)) = false) ->
   get_valid_price ticker base_date_str log
   = Return (JNull, JNull,
             log ++ map (λ j, price_url ticker (candidate base_date j))
                        (seq 0 14))).
Proof.
  intros Hparse Hbase. unfold FmpApi.get_valid_price. rewrite Hparse. split.
  - intros i Hi Htruthy Hbefore.
    rewrite (seq_split 14 i Hi), seq_S.
    apply search_back_hit; [|lia|exact Htruthy].
    apply Forall_forall. intros j Hj. apply elem_of_seq in Hj.
    split; [lia | apply Hbefore; lia].
  - intros Hnone. apply search_back_miss.
    apply Forall_forall. intros j Hj. apply elem_of_seq in Hj.
    split; [lia | apply Hnone; lia].
Qed.

Lemma search_back_result (ticker : string) (base_date : Z)
    (days : list nat) (log log' : list string) (p d : json) :
  search_back ticker base_date days log = Return (p, d, log') ->
  (p = JNull /\ d = JNull) \/
  (truthy p = true /\
   exists date, d = JStr date /\ p = price_on_date ticker date).
Proof.
  revert log. induction days as [|i rest IH]; intros log.
  - cbn. intros [= <- <- _]. left. split; reflexivity.
  - cbn [FmpApi.search_back]. unfold FmpApi.minus_days.
    destruct (base_date - Z.of_nat i <? 1)%Z; [discriminate|].
    cbn [mbind outcome_bind FmpApi.get_price_on_date].
    destruct (truthy (price_on_date ticker _)) eqn:Htruthy.
    + intros [= <- <- _]. right. split; [exact Htruthy|].
      eexists. split; reflexivity.
    + apply IH.
Qed.

End PriceFacts.

Section TwoProviders.

Variable FMP_API_KEY : string.
Variables requests1 requests2 : string -> outcome json.
Variable strftime : Z -> string.

#[local] Abbreviation same_or_falsy :=
  (FmpApi.same_or_falsy FMP_API_KEY requests1 requests2).

Lemma search_back_agree (ticker : string) (base_date : Z) (days : list nat)
    (log : list string) :
  Forall (λ i, same_or_falsy ticker (FmpApi.candidate strftime base_date i))
         days ->
  FmpApi.search_back FMP_API_KEY requests1 strftime ticker base_date days log
  = FmpApi.search_back FMP_API_KEY requests2 strftime ticker base_date days
      log.
Proof.
  revert log. induction days as [|i rest IH]; intros log Hall; [reflexivity|].
  apply Forall_cons in Hall as [Hi Hrest].
  cbn [FmpApi.search_back]. unfold FmpApi.minus_days.
  destruct (base_date - Z.of_nat i <? 1)%Z; [reflexivity|].
  cbn [mbind outcome_bind FmpApi.get_price_on_date].
  fold (FmpApi.candidate strftime base_date i).
  destruct Hi as [Heq | [Hf1 Hf2]].
  - rewrite Heq.
    destruct (truthy (FmpApi.price_on_date FMP_API_KEY requests2 ticker _));
      [reflexivity | apply IH, Hrest].
  - rewrite Hf1, Hf2. apply IH, Hrest.
Qed.

End TwoProviders.

(** C10. A day whose recorded close is 0 has the price 0, which is falsy
    like [None], and the price [get_valid_price] returns with a date is
    truthy: it is never 0. A day whose recorded close is falsy is requested
    and then skipped, and the search goes on: when the days before a later
    candidate have no truthy price either, that candidate is the one
    returned, after the requests for all the days down to it. Such a day is
    skipped like a day without a price: two providers that differ on the
    fourteen candidates only by falsy prices yield the same result and the
    same requests. *)
Theorem get_valid_price_skips_falsy (FMP_API_KEY : string)
    (strptime : string -> option Z) (strftime : Z -> string) :
  (truthy JNull = false /\ truthy (JInt 0) = false /\
   truthy (JFloat 0) = false) /\
  (forall (requests_get_json : string -> outcome json)
          (ticker base_date_str : string) (log log' : list string)
          (p d : json),
     FmpApi.get_valid_price FMP_API_KEY requests_get_json strptime strftime
       ticker base_date_str log = Return (p, d, log') ->
     (p = JNull /\ d = JNull) \/
     (truthy p = true /\
      exists date,
        d = JStr date /\
        p = FmpApi.price_on_date FMP_API_KEY requests_get_json ticker date)) /\
  (forall (requests1 requests2 : string -> outcome json)
          (ticker base_date_str : string) (log : list string),
     (forall (base_date : Z) (i : nat),
        strptime base_date_str = Some base_date -> (i < 14)%nat ->
        FmpApi.same_or_falsy FMP_API_KEY requests1 requests2 ticker
          (FmpApi.candidate strftime base_date i)) ->
     FmpApi.get_valid_price FMP_API_KEY requests1 strptime strftime
       ticker base_date_str log
     = FmpApi.get_valid_price FMP_API_KEY requests2 strptime strftime
         ticker base_date_str log) /\
  (forall (requests_get_json : string -> outcome json)
          (ticker base_date_str : string) (base_date : Z)
          (log : list string) (j k : nat) (d : gmap string json)
          (bars : list json) (e : gmap string json) (close : json),
     strptime base_date_str = Some base_date -> (14 <= base_date)%Z ->
     (j < k < 14)%nat ->
     requests_get_json
       (FmpApi.price_url FMP_API_KEY ticker
          (FmpApi.candidate strftime base_date j)) = Return (JDict d) ->
     d !! "historical" = Some (JList (JDict e :: bars)) ->
     e !! "close" = Some close ->
     truthy close = false ->
     (forall i : nat, (i < k)%nat -> i <> j ->
        truthy (FmpApi.price_on_date FMP_API_KEY requests_get_json ticker
                  (FmpApi.candidate strftime base_date i)) = false) ->
     truthy (FmpApi.price_on_date FMP_API_KEY requests_get_json ticker
               (FmpApi.candidate strftime base_date k)) = true ->
     FmpApi.price_on_date FMP_API_KEY requests_get_json ticker
       (FmpApi.candidate strftime base_date j) = close /\
     FmpApi.get_valid_price FMP_API_KEY requests_get_json strptime strftime
       ticker base_date_str log
     = Return (FmpApi.price_on_date FMP_API_KEY requests_get_json ticker
                 (FmpApi.candidate strftime base_date k),
               JStr (FmpApi.candidate strftime base_date k),
               log ++ map (λ i, FmpApi.price_url FMP_API_KEY ticker
                                  (FmpApi.candidate strftime base_date i))
                          (seq 0 (S k)))).
Proof.
  split; [|split; [|split]].
  - split; [reflexivity|]. split; [reflexivity|].
    cbn [truthy]. rewrite bool_decide_eq_true_2 by reflexivity. reflexivity.
  - intros requests_get_json ticker base_date_str log log' p d.
    unfold FmpApi.get_valid_price.
    destruct (strptime base_date_str) as [base_date|]; [|discriminate].
    apply search_back_result.
  - intros requests1 requests2 ticker base_date_str log Hagree.
    unfold FmpApi.get_valid_price.
    destruct (strptime base_date_str) as [base_date|]; [|reflexivity].
    apply search_back_agree. apply Forall_forall. intros i Hi.
    apply elem_of_seq in Hi. apply Hagree; [reflexivity | lia].
  - intros requests_get_json ticker base_date_str base_date log j k d bars e
      close Hparse Hbase Hjk Hreq Hh Hc Hfalsy Hothers Hhit.
    pose proof (price_on_date_close _ _ _ _ _ _ _ _ Hreq Hh Hc) as Hprice.
    split; [exact Hprice|].
    unfold FmpApi.get_valid_price. rewrite Hparse.
    rewrite (seq_split 14 k ltac:(lia)), seq_S.
    apply search_back_hit; [|lia|exact Hhit].
    apply Forall_forall. intros i Hi. apply elem_of_seq in Hi.
    split; [lia|].
    destruct (Nat.eq_dec i j) as [->|Hne].
    + rewrite Hprice. exact Hfalsy.
    + apply Hothers; [lia | exact Hne].
Qed.

Lemma get_valid_price_first_hit_witness :
  exists log,
    FmpApi.get_valid_price "demo" PriceExample.provider PriceExample.strptime
      PriceExample.strftime "COF" "2019-12-31" []
    = Return (JFloat 95.5, JStr "2019-12-21", log) /\
    length log = 11%nat.
Proof.
  eexists. split.
  - apply (proj1 (get_valid_price_first_hit "demo" PriceExample.provider
                    PriceExample.strptime PriceExample.strftime
                    "COF" "2019-12-31" 737424 [] eq_refl ltac:(lia)) 10%nat).
    + lia.
    + change (truthy (JFloat 95.5) = true). cbn [truthy].
      rewrite bool_decide_eq_false_2 by lra. reflexivity.
    + intros j Hj.
      do 10 (destruct j as [|j]; [reflexivity|]). lia.
  - reflexivity.
Defined.

Lemma get_valid_price_skips_falsy_witness :
  (FmpApi.price_on_date "demo" PriceExample.provider "COF" "2019-12-24"
   = JInt 0 /\
   FmpApi.get_valid_price "demo" PriceExample.provider PriceExample.strptime
     PriceExample.strftime "COF" "2019-12-31" []
   = Return (JFloat 95.5, JStr "2019-12-21",
             map (λ i, FmpApi.price_url "demo" "COF"
                         (FmpApi.candidate PriceExample.strftime 737424%Z i))
                 (seq 0 11))) /\
  FmpApi.get_valid_price "demo" PriceExample.provider PriceExample.strptime
    PriceExample.strftime "COF" "2019-12-31" []
  = FmpApi.get_valid_price "demo" PriceExample.provider_without_zero
      PriceExample.strptime PriceExample.strftime "COF" "2019-12-31" [].
Proof.
  split.
  - apply (proj2 (proj2 (proj2 (get_valid_price_skips_falsy "demo"
                                  PriceExample.strptime
                                  PriceExample.strftime)))
             PriceExample.provider "COF" "2019-12-31" 737424%Z [] 7%nat
             10%nat
             (<["symbol" := JStr "COF"]>
              (<["historical" := JList [JDict (<["close" := JInt 0]> ∅)]]> ∅))
             [] (<["close" := JInt 0]> ∅) (JInt 0)).
    + reflexivity.
    + lia.
    + lia.
    + reflexivity.
    + reflexivity.
    + reflexivity.
    + reflexivity.
    + intros i Hi Hne.
      do 10 (destruct i as [|i]; [first [reflexivity | lia]|]). lia.
    + change (truthy (JFloat 95.5) = true). cbn [truthy].
      rewrite bool_decide_eq_false_2 by lra. reflexivity.
  - apply (proj1 (proj2 (proj2 (get_valid_price_skips_falsy "demo"
                                  PriceExample.strptime
                                  PriceExample.strftime)))).
    intros base_date i Hparse Hi. injection Hparse as <-.
    do 14 (destruct i as [|i];
           [first [left; reflexivity | right; split; reflexivity]|]).
    lia.
Defined.

(** * Further properties *)

(** ** growth_estimation.py *)

Section MoreCagrFacts.

Variable float_of_str : string -> option R.

#[local] Abbreviation py_float := (GrowthEstimation.py_float float_of_str).
#[local] Abbreviation calculate_cagr :=
  (GrowthEstimation.calculate_cagr float_of_str).

(** X1. Compounding [start] at the rate [calculate_cagr] returns, over a
    whole number of years, gives [end] back. *)
Theorem calculate_cagr_compounds_to_end (start end_ years : json)
    (s e : R) (n : nat) :
  py_float start = Some s -> py_float end_ = Some e ->
  py_float years = Some (INR n) -> 0 < s -> 0 < e -> (0 < n)%nat ->
  s * (1 + calculate_cagr start end_ years) ^ n = e.
Proof.
  intros Hs He Hy Hs0 He0 Hn.
  assert (Hn0 : 0 < INR n) by (apply lt_0_INR; lia).
  assert (Hq : 0 < e / s) by (apply Rdiv_lt_0_compat; assumption).
  rewrite (calculate_cagr_valid float_of_str _ _ _ s e (INR n))
    by assumption.
  replace (1 + (Rpower (e / s) (1 / INR n) - 1))
    with (Rpower (e / s) (1 / INR n)) by lra.
  rewrite <- Rpower_pow by apply exp_pos.
  rewrite Rpower_mult.
  replace (1 / INR n * INR n) with 1 by (field; lra).
  rewrite Rpower_1 by exact Hq. field. lra.
Qed.

(** X2. On strictly positive arguments the rate has the sign of
    [end - start], and it stays above -1: a loss never reaches 100%. *)
Theorem calculate_cagr_sign (start end_ years : json) (s e y : R) :
  py_float start = Some s -> py_float end_ = Some e ->
  py_float years = Some y -> 0 < s -> 0 < e -> 0 < y ->
  -1 < calculate_cagr start end_ years /\
  (s < e -> 0 < calculate_cagr start end_ years) /\
  (e < s -> calculate_cagr start end_ years < 0).
Proof.
  intros Hs He Hy Hs0 He0 Hy0.
  rewrite (calculate_cagr_valid float_of_str _ _ _ s e y) by assumption.
  assert (Hc : 0 < 1 / y) by (apply Rdiv_lt_0_compat; lra).
  assert (Hq : 0 < e / s) by (apply Rdiv_lt_0_compat; assumption).
  assert (Hpos : 0 < Rpower (e / s) (1 / y)) by apply exp_pos.
  split; [lra|]. split; intros Hlt.
  - assert (H1 : 1 < e / s).
    { apply (Rmult_lt_reg_r s); [exact Hs0|]. unfold Rdiv.
      rewrite Rmult_assoc, Rinv_l by lra. lra. }
    pose proof (Rlt_Rpower_l 1 (e / s) (1 / y) Hc (conj Rlt_0_1 H1)) as H.
    rewrite Rpower_one in H. lra.
  - assert (H1 : e / s < 1).
    { apply (Rmult_lt_reg_r s); [exact Hs0|]. unfold Rdiv.
      rewrite Rmult_assoc, Rinv_l by lra. lra. }
    pose proof (Rlt_Rpower_l (e / s) 1 (1 / y) Hc (conj Hq H1)) as H.
    rewrite Rpower_one in H. lra.
Qed.

End MoreCagrFacts.

Lemma calculate_cagr_compounds_to_end_witness :
  1 * (1 + GrowthEstimation.calculate_cagr (fun _ => None)
             (JInt 1) (JInt 2) (JInt 5)) ^ 5 = 2.
Proof.
  apply (calculate_cagr_compounds_to_end (fun _ => None)
           (JInt 1) (JInt 2) (JInt 5) 1 2 5).
  - reflexivity.
  - reflexivity.
  - cbn. f_equal. lra.
  - lra.
  - lra.
  - lia.
Defined.

Lemma calculate_cagr_sign_witness :
  -1 < GrowthEstimation.calculate_cagr (fun _ => None)
         (JInt 4) (JInt 3) (JInt 5) /\
  GrowthEstimation.calculate_cagr (fun _ => None) (JInt 4) (JInt 3) (JInt 5)
  < 0.
Proof.
  destruct (calculate_cagr_sign (fun _ => None) (JInt 4) (JInt 3) (JInt 5)
              4 3 5 eq_refl eq_refl eq_refl
              ltac:(lra) ltac:(lra) ltac:(lra)) as (Hlow & _ & Hneg).
  split; [exact Hlow | apply Hneg; lra].
Defined.

Section MoreGrowthFacts.

Import GrowthEstimation GrowthSpec.

Variable float_of_str : string -> option R.

#[local] Abbreviation mos_growth_estimate :=
  (GrowthEstimation.mos_growth_estimate float_of_str).

Lemma store_keys (start_index : Z) (items : list (string * list R))
    (m : gmap string R) (key : string) :
  is_Some (foldl (store start_index) m items !! key)
  <-> is_Some (m !! key) \/ key ∈ items.*1.
Proof.
  revert m. induction items as [|[k v] rest IH]; intros m; cbn [foldl].
  - cbn. rewrite elem_of_nil. tauto.
  - rewrite IH. unfold store. cbn [fst snd fmap list_fmap].
    rewrite lookup_insert_is_Some, elem_of_cons. split.
    + intros [[-> | [Hne H]] | H];
        [right; left; reflexivity | left; exact H | right; right; exact H].
    + intros [H | [-> | H]];
        [|left; left; reflexivity | right; exact H].
      destruct (decide (k = key));
        [left; left; assumption | left; right; split; assumption].
Qed.

(** X3. The dict returned has one entry for each metric of the input and
    the entry [avg], and no other. *)
Theorem mos_growth_estimate_keys (data_dict : list (string * list R))
    (target_year data_start_year : Z) :
  (0 <= target_year - data_start_year - 5)%Z ->
  exists d,
    mos_growth_estimate data_dict target_year data_start_year = Return d /\
    forall key, is_Some (d !! key) <-> key = "avg" \/ key ∈ data_dict.*1.
Proof.
  intros Hsi. eexists. split.
  - apply mos_growth_estimate_returns, Hsi.
  - intros key. rewrite lookup_insert_is_Some, store_keys.
    rewrite lookup_empty. split.
    + intros [<- | [_ [[x Hx] | H]]]; [left; reflexivity | discriminate Hx|].
      right. exact H.
    + intros [-> | H]; [left; reflexivity|].
      destruct (decide ("avg" = key)); [left; assumption|].
      right. split; [assumption | right; exact H].
Qed.

(** X4. A metric whose series stops before the end of the window, or whose
    window starts or ends on a value that is not strictly positive, is
    stored with the growth 0. *)
Theorem mos_growth_estimate_stores_zero (data_dict : list (string * list R))
    (target_year data_start_year : Z) (key : string) (values : list R) :
  let start_index := (target_year - data_start_year - 5)%Z in
  (0 <= start_index)%Z ->
  NoDup data_dict.*1 -> (key, values) ∈ data_dict -> key ≠ "avg" ->
  (Z.of_nat (length values) < start_index + 6)%Z \/
  (exists start, values !! Z.to_nat start_index = Some start /\ start <= 0) \/
  (exists end_,
     values !! (Z.to_nat start_index + 5)%nat = Some end_ /\ end_ <= 0) ->
  exists d,
    mos_growth_estimate data_dict target_year data_start_year = Return d /\
    d !! key = Some 0.
Proof.
  intros start_index Hsi Hnd Hin Hkey Hcase. eexists. split.
  - apply mos_growth_estimate_returns, Hsi.
  - rewrite lookup_insert_ne by congruence.
    rewrite (store_lookup _ _ _ key values) by assumption.
    f_equal. unfold stored.
    assert (H0 : metric_cagr start_index values = 0).
    { unfold metric_cagr. destruct (decide _) as [Hlong|]; [|reflexivity].
      unfold long_enough in Hlong. fold start_index.
      destruct Hcase as [Hshort | [(start & Hs & Hle) | (end_ & He & Hle)]].
      - lia.
      - unfold window_cagr. cbv zeta. rewrite Hs.
        destruct (values !! (Z.to_nat start_index + 5)%nat); [|reflexivity].
        rewrite (bool_decide_eq_false_2 (0 < start)) by lra. reflexivity.
      - unfold window_cagr. cbv zeta. rewrite He.
        destruct (values !! Z.to_nat start_index); [|reflexivity].
        rewrite (bool_decide_eq_false_2 (0 < end_)) by lra.
        rewrite andb_false_r. reflexivity. }
    fold start_index. rewrite H0, Rmult_0_l. apply round2_zero.
Qed.

(** Two series of the same metric that [mos_growth_estimate] cannot tell
    apart: same length, same two ends of the window. *)
Lemma same_window_stored (start_index : Z) (v v' : list R) :
  length v = length v' ->
  v !! Z.to_nat start_index = v' !! Z.to_nat start_index ->
  v !! (Z.to_nat start_index + 5)%nat = v' !! (Z.to_nat start_index + 5)%nat ->
  (long_enough start_index v <-> long_enough start_index v') /\
  window_cagr start_index v = window_cagr start_index v'.
Proof.
  intros Hlen Hs He. unfold long_enough, window_cagr.
  rewrite Hlen, Hs, He. tauto.
Qed.

Lemma same_window_counted (start_index : Z)
    (data data' : list (string * list R)) :
  Forall2 (λ kv kv' : string * list R,
             kv.1 = kv'.1 /\ length kv.2 = length kv'.2 /\
             kv.2 !! Z.to_nat start_index = kv'.2 !! Z.to_nat start_index /\
             kv.2 !! (Z.to_nat start_index + 5)%nat
             = kv'.2 !! (Z.to_nat start_index + 5)%nat) data data' ->
  map (λ kv, window_cagr start_index kv.2) (counted start_index data)
  = map (λ kv, window_cagr start_index kv.2) (counted start_index data') /\
  forall m, foldl (store start_index) m data
            = foldl (store start_index) m data'.
Proof.
  induction 1 as [|[k v] [k' v'] rest rest' (Hk & Hlen & Hs & He) _ [IHc IHs]].
  - split; reflexivity.
  - cbn [fst snd] in Hk, Hlen, Hs, He. subst k'.
    destruct (same_window_stored start_index v v' Hlen Hs He) as [Hlong Hw].
    split.
    + unfold counted in *. rewrite !filter_cons. cbn [snd].
      destruct (decide (long_enough start_index v)) as [Hl|Hl];
        destruct (decide (long_enough start_index v')) as [Hl'|Hl'];
        try tauto; cbn [map snd]; congruence.
    + intros m. cbn [foldl]. rewrite IHs. f_equal.
      unfold store, stored, metric_cagr. cbn [fst snd]. rewrite Hw.
      destruct (decide (long_enough start_index v)) as [Hl|Hl];
        destruct (decide (long_enough start_index v')) as [Hl'|Hl'];
        try tauto; reflexivity.
Qed.

(** X5. Only the length of a series and the two values at the ends of the
    window are read: series that agree on these give the same result,
    whatever the years in between hold. *)
Theorem mos_growth_estimate_reads_window_ends
    (data data' : list (string * list R)) (target_year data_start_year : Z) :
  let i := Z.to_nat (target_year - data_start_year - 5) in
  Forall2 (λ kv kv' : string * list R,
             kv.1 = kv'.1 /\ length kv.2 = length kv'.2 /\
             kv.2 !! i = kv'.2 !! i /\
             kv.2 !! (i + 5)%nat = kv'.2 !! (i + 5)%nat) data data' ->
  mos_growth_estimate data target_year data_start_year
  = mos_growth_estimate data' target_year data_start_year.
Proof.
  intros i Hsame.
  destruct (Z.ltb_spec (target_year - data_start_year - 5) 0) as [Hneg|Hpos].
  - unfold GrowthEstimation.mos_growth_estimate.
    rewrite !(proj2 (Z.ltb_lt _ 0)) by exact Hneg. reflexivity.
  - rewrite !mos_growth_estimate_returns by exact Hpos.
    destruct (same_window_counted _ _ _ Hsame) as [Hc Hs].
    unfold avg_of_counted. rewrite Hc, Hs. reflexivity.
Qed.

(** X6. With four series of one length, as [get_year_data_by_range] builds
    them, [avg] is the rounded percentage of the mean of the four decimal
    CAGRs: every metric counts in the denominator. *)
Theorem mos_growth_estimate_avg_equal_lengths
    (eps book revenue cashflow : list R) (target_year data_start_year : Z) :
  let start_index := (target_year - data_start_year - 5)%Z in
  (0 <= start_index)%Z ->
  length eps = length book -> length revenue = length book ->
  length cashflow = length book ->
  exists d,
    mos_growth_estimate
      [("book", book); ("eps", eps); ("revenue", revenue);
       ("cashflow", cashflow)] target_year data_start_year = Return d /\
    d !! "avg" = Some (avg_of_four start_index eps book revenue cashflow).
Proof.
  intros start_index Hsi He Hr Hc. eexists. split.
  - apply mos_growth_estimate_returns, Hsi.
  - rewrite lookup_insert_eq. f_equal. fold start_index.
    destruct (decide (long_enough start_index book)) as [Hlong|Hshort].
    + apply avg_of_counted_four_long; unfold long_enough in *; lia.
    + unfold avg_of_counted, counted, avg_of_four, metric_cagr.
      rewrite !filter_cons_False by (unfold long_enough in *; cbn; lia).
      rewrite filter_nil.
      rewrite !decide_False by (unfold long_enough in *; lia).
      cbn [map]. f_equal. lra.
Qed.

End MoreGrowthFacts.

Lemma mos_growth_estimate_keys_witness :
  exists d,
    GrowthEstimation.mos_growth_estimate (fun _ => None)
      [("eps", [1; 1; 1; 1; 1; 2]); ("book", [])] 2019 2014 = Return d /\
    forall key,
      is_Some (d !! key)
      <-> key = "avg" \/ key ∈ [("eps", [1; 1; 1; 1; 1; 2]); ("book", [])].*1.
Proof.
  apply (mos_growth_estimate_keys (fun _ => None) _ 2019 2014). lia.
Defined.

Lemma mos_growth_estimate_stores_zero_witness :
  exists d,
    GrowthEstimation.mos_growth_estimate (fun _ => None)
      [("eps", [1; 1; 1; 1; 1; 2]); ("book", [-3; 1; 4; 1; 5; 9])] 2019 2014
    = Return d /\
    d !! "book" = Some 0.
Proof.
  apply (mos_growth_estimate_stores_zero (fun _ => None)
           [("eps", [1; 1; 1; 1; 1; 2]); ("book", [-3; 1; 4; 1; 5; 9])]
           2019 2014 "book" [-3; 1; 4; 1; 5; 9]).
  - lia.
  - cbn. apply NoDup_cons. split.
    + intros H. apply list_elem_of_singleton in H. discriminate H.
    + apply NoDup_singleton.
  - apply elem_of_cons. right. apply list_elem_of_singleton. reflexivity.
  - discriminate.
  - right. left. exists (-3). split; [reflexivity | lra].
Defined.

Lemma mos_growth_estimate_reads_window_ends_witness :
  GrowthEstimation.mos_growth_estimate (fun _ => None)
    [("eps", [1; 7; 7; 7; 7; 2])] 2019 2014
  = GrowthEstimation.mos_growth_estimate (fun _ => None)
      [("eps", [1; 0; -4; 3; 9; 2])] 2019 2014.
Proof.
  apply (mos_growth_estimate_reads_window_ends (fun _ => None)).
  constructor; [|constructor].
  repeat split; reflexivity.
Defined.

Lemma mos_growth_estimate_avg_equal_lengths_witness :
  exists d,
    GrowthEstimation.mos_growth_estimate (fun _ => None)
      [("book", [2; 0]); ("eps", [1; 5]); ("revenue", [3; 3]);
       ("cashflow", [0; 1])] 2019 2014 = Return d /\
    d !! "avg"
    = Some (GrowthSpec.avg_of_four 0 [1; 5] [2; 0] [3; 3] [0; 1]).
Proof.
  apply (mos_growth_estimate_avg_equal_lengths (fun _ => None)
           [1; 5] [2; 0] [3; 3] [0; 1] 2019 2014);
    first [lia | reflexivity].
Defined.

(** ** mos.py *)

Lemma round_half_even_mono (x y : R) :
  x <= y -> (round_half_even x <= round_half_even y)%Z.
Proof.
  intros Hxy. unfold round_half_even.
  pose proof (Zfloor_bound x) as Hx. pose proof (Zfloor_bound y) as Hy.
  pose proof (Zfloor_le x y Hxy) as Hfl.
  destruct (Z.eq_dec (Zfloor x) (Zfloor y)) as [Heq | Hne].
  - rewrite <- Heq in *.
    repeat case_bool_decide; destruct (Z.even (Zfloor x)); lia || lra.
  - repeat case_bool_decide;
      destruct (Z.even (Zfloor x)); destruct (Z.even (Zfloor y)); lia.
Qed.

Lemma round2_mono (x y : R) : x <= y -> round2 x <= round2 y.
Proof.
  intros Hxy. unfold round2.
  assert (H : IZR (round_half_even (x * 100))
              <= IZR (round_half_even (y * 100))).
  { apply IZR_le, round_half_even_mono. lra. }
  lra.
Qed.

Section MoreMosFacts.

Import Mos.

(** X7. On numbers, the guard of [calculate_intrinsic_value] never raises:
    a call that raises has [eps_now > 0] and [growth_rate > 0]. Past the
    guard a [discount_rate] of -1 makes every call raise, the fair value
    being a quotient by [(1 + discount_rate) ** 10]. A dict that is
    returned holds the four entries the report reads; past the guard it
    also holds ['Groth_rate'] and ['EPS_now'], and it never holds another
    key. *)
Theorem calculate_intrinsic_value_raises_and_keys (eps_now growth_rate : R)
    (breach_year : Z) (discount_rate mos : option R) :
  ((exists e, calculate_intrinsic_value eps_now growth_rate breach_year
                discount_rate mos = Raise e) ->
   0 < eps_now /\ 0 < growth_rate) /\
  (0 < eps_now -> 0 < growth_rate -> 1 + default 0.15 discount_rate = 0 ->
   exists e, calculate_intrinsic_value eps_now growth_rate breach_year
               discount_rate mos = Raise e) /\
  (forall d, calculate_intrinsic_value eps_now growth_rate breach_year
               discount_rate mos = Return d ->
     forall key : string,
       is_Some (d !! key)
       <-> key ∈ ["EPS_10y"; "Future Value"; "Fair Value Today";
                  "MOS Price (50%)"] \/
           (0 < eps_now /\ 0 < growth_rate /\
            key ∈ ["Groth_rate"; "EPS_now"])).
Proof.
  unfold calculate_intrinsic_value, truediv. cbn [num is_int andb].
  case_bool_decide as He; [|case_bool_decide as Hg]; cbn [orb].
  - split; [|split].
    + intros [e H]. discriminate H.
    + lra.
    + intros d [= <-] key.
      assert (Hempty : ~ is_Some ((∅ : gmap string R) !! key))
        by apply lookup_empty_is_Some.
      rewrite !lookup_insert_is_Some, !elem_of_cons, !elem_of_nil.
      intuition (try congruence; try lra).
  - split; [|split].
    + intros [e H]. discriminate H.
    + lra.
    + intros d [= <-] key.
      assert (Hempty : ~ is_Some ((∅ : gmap string R) !! key))
        by apply lookup_empty_is_Some.
      rewrite !lookup_insert_is_Some, !elem_of_cons, !elem_of_nil.
      intuition (try congruence; try lra).
  - apply Rnot_le_lt in He, Hg.
    case_bool_decide as Hz; cbn [mbind outcome_bind].
    + split; [|split].
      * intros _. split; assumption.
      * intros _ _ _. eexists. reflexivity.
      * intros d H. discriminate H.
    + split; [|split].
      * intros [e H]. discriminate H.
      * intros _ _ H0. exfalso. apply Hz. rewrite H0. apply pow_i. lia.
      * intros d [= <-] key.
        assert (Hempty : ~ is_Some ((∅ : gmap string R) !! key))
          by apply lookup_empty_is_Some.
        rewrite !lookup_insert_is_Some, !elem_of_cons, !elem_of_nil.
        intuition (try congruence; try lra).
Qed.

(** X8. With a discount rate that is not negative and a margin of safety
    between 0 and 1, the figures returned are ordered:
    [0 <= MOS price <= fair value today <= future value]. *)
Theorem calculate_intrinsic_value_ordered (eps_now growth_rate : R)
    (breach_year : Z) (discount_rate mos : option R) :
  0 <= default 0.15 discount_rate ->
  0 <= default 0.50 mos <= 1 ->
  exists d mos_price fair_value future_value,
    calculate_intrinsic_value eps_now growth_rate breach_year
      discount_rate mos = Return d /\
    d !! "MOS Price (50%)" = Some mos_price /\
    d !! "Fair Value Today" = Some fair_value /\
    d !! "Future Value" = Some future_value /\
    0 <= mos_price <= fair_value /\ fair_value <= future_value.
Proof.
  intros Hd Hm. unfold calculate_intrinsic_value, truediv. cbn [num].
  destruct (bool_decide (eps_now <= 0) || bool_decide (growth_rate <= 0))
    eqn:Hguard.
  - exists (<["EPS_10y" := 0]> (<["Future Value" := 0]>
           (<["Fair Value Today" := 0]> (<["MOS Price (50%)" := 0]> ∅)))),
      0, 0, 0.
    split; [reflexivity|]. repeat split; simplify_map_eq; auto; lra.
  - apply orb_false_elim in Hguard as [He Hg].
    apply bool_decide_eq_false_1 in He, Hg.
    set (P := (1 + default 0.15 discount_rate) ^ 10).
    assert (HP : 1 <= P) by (apply pow_R1_Rle; lra).
    rewrite bool_decide_eq_false_2 by lra. cbn [mbind outcome_bind].
    set (fut := eps_now * (1 + growth_rate) ^ 10 * (growth_rate * 200)).
    assert (Hfut : 0 <= fut).
    { unfold fut. apply Rmult_le_pos; [|lra].
      apply Rmult_le_pos; [lra|]. apply pow_le. lra. }
    assert (Hfair : 0 <= fut / P <= fut).
    { assert (Hinv : 0 < / P <= 1).
      { split; [apply Rinv_0_lt_compat; lra|].
        rewrite <- Rinv_1. apply Rinv_le_contravar; lra. }
      unfold Rdiv. split; [apply Rmult_le_pos; lra|].
      rewrite <- (Rmult_1_r fut) at 2. apply Rmult_le_compat_l; lra. }
    assert (Hmos : 0 <= fut / P * (1 - default 0.50 mos) <= fut / P).
    { split; [apply Rmult_le_pos; lra|].
      rewrite <- (Rmult_1_r (fut / P)) at 2.
      apply Rmult_le_compat_l; lra. }
    eexists _, (round2 (fut / P * (1 - default 0.50 mos))),
      (round2 (fut / P)), (round2 fut).
    split; [reflexivity|].
    repeat split; try (simplify_map_eq; reflexivity).
    + rewrite <- round2_zero. apply round2_mono. lra.
    + apply round2_mono. lra.
    + apply round2_mono. lra.
Qed.

End MoreMosFacts.

Lemma calculate_intrinsic_value_raises_and_keys_witness :
  exists e,
    Mos.calculate_intrinsic_value 1 0.1 2020 (Some (-1)) None = Raise e.
Proof.
  apply (proj1 (proj2 (calculate_intrinsic_value_raises_and_keys
                         1 0.1 2020 (Some (-1)) None))).
  - lra.
  - lra.
  - cbn. lra.
Defined.

Lemma calculate_intrinsic_value_ordered_witness :
  exists d mos_price fair_value future_value,
    Mos.calculate_intrinsic_value 0.5 0.3 2020 None None = Return d /\
    d !! "MOS Price (50%)" = Some mos_price /\
    d !! "Fair Value Today" = Some fair_value /\
    d !! "Future Value" = Some future_value /\
    0 <= mos_price <= fair_value /\ fair_value <= future_value.
Proof.
  apply calculate_intrinsic_value_ordered; cbn; lra.
Defined.

(** ** fmp_api.py: prices *)

Section MorePriceFacts.

Variable FMP_API_KEY : string.
Variable requests_get_json : string -> outcome json.
Variable strptime : string -> option Z.
Variable strftime : Z -> string.

#[local] Abbreviation price_on_date :=
  (FmpApi.price_on_date FMP_API_KEY requests_get_json).
#[local] Abbreviation price_url := (FmpApi.price_url FMP_API_KEY).
#[local] Abbreviation candidate := (FmpApi.candidate strftime).
#[local] Abbreviation search_back :=
  (FmpApi.search_back FMP_API_KEY requests_get_json strftime).
#[local] Abbreviation get_valid_price :=
  (FmpApi.get_valid_price FMP_API_KEY requests_get_json strptime strftime).

(** X9. The price of a date is the [close] of the first entry of the
    [historical] list of the response; a failed request and every other
    shape of response (no dict, no or an empty [historical], a first entry
    without [close]) give [None]. *)
Theorem price_on_date_is_first_close (ticker date : string) :
  (forall (d : gmap string json) (bars : list json) (e : gmap string json)
          (v : json),
     requests_get_json (price_url ticker date) = Return (JDict d) ->
     d !! "historical" = Some (JList (JDict e :: bars)) ->
     e !! "close" = Some v ->
     price_on_date ticker date = v) /\
  (price_on_date ticker date ≠ JNull ->
   exists (d : gmap string json) (bars : list json) (e : gmap string json),
     requests_get_json (price_url ticker date) = Return (JDict d) /\
     d !! "historical" = Some (JList (JDict e :: bars)) /\
     e !! "close" = Some (price_on_date ticker date)).
Proof.
  unfold FmpApi.price_on_date, FmpApi.close_of. split.
  - intros d bars e v -> Hh Hc. cbn [mbind outcome_bind py_in subscript_key].
    rewrite Hh. rewrite bool_decide_eq_true_2 by eauto.
    cbn [truthy subscript_index lookup list_lookup mbind outcome_bind
         subscript_key].
    rewrite Hc. reflexivity.
  - destruct (requests_get_json (price_url ticker date)) as [data|];
      cbn [mbind outcome_bind]; [|congruence].
    destruct data as [| | | | | |d]; cbn [py_in mbind outcome_bind];
      try congruence.
    + destruct (contains _ _); cbn [subscript_key mbind outcome_bind];
        congruence.
    + destruct (existsb _ _); cbn [subscript_key mbind outcome_bind];
        congruence.
    + destruct (d !! "historical") as [h|] eqn:Hh.
      * rewrite bool_decide_eq_true_2 by eauto.
        cbn [subscript_key mbind outcome_bind]. rewrite Hh.
        cbn [mbind outcome_bind].
        destruct (truthy h) eqn:Ht; [|congruence].
        destruct h as [| | | |s|[|first bars]|m];
          cbn [subscript_index lookup list_lookup mbind outcome_bind];
          try congruence.
        -- destruct (String.get 0 s); cbn [mbind outcome_bind subscript_key];
             congruence.
        -- destruct first as [| | | | | |e];
             cbn [subscript_key mbind outcome_bind]; try congruence.
           destruct (e !! "close") as [v|] eqn:Hc; [|congruence].
           intros _. exists d, bars, e. auto.
      * rewrite bool_decide_eq_false_2 by (intros [x Hx]; discriminate Hx).
        congruence.
Qed.

Lemma search_back_log (ticker : string) (base_date : Z) (days : list nat)
    (log log' : list string) (p d : json) :
  search_back ticker base_date days log = Return (p, d, log') ->
  exists k : nat,
    (k <= length days)%nat /\ (days ≠ [] -> 1 <= k)%nat /\
    log' = log ++ map (λ j, price_url ticker (candidate base_date j))
                      (take k days).
Proof.
  revert log. induction days as [|i rest IH]; intros log.
  - cbn. intros [= _ _ <-]. exists 0%nat.
    split; [lia|]. split; [congruence|]. cbn. rewrite app_nil_r. reflexivity.
  - cbn [FmpApi.search_back]. unfold FmpApi.minus_days.
    destruct (base_date - Z.of_nat i <? 1)%Z; [discriminate|].
    cbn [mbind outcome_bind FmpApi.get_price_on_date].
    fold (candidate base_date i).
    destruct (truthy (price_on_date ticker _)).
    + intros [= _ _ <-]. exists 1%nat. cbn [length take map].
      split; [lia|]. split; [lia|]. rewrite take_0. reflexivity.
    + intros H. destruct (IH _ H) as (k & Hk & _ & ->).
      exists (S k). cbn [length take map]. split; [lia|]. split; [lia|].
      rewrite <- app_assoc. reflexivity.
Qed.

Lemma search_back_raise (ticker : string) (base_date : Z) (days : list nat)
    (log : list string) (e : exn) :
  search_back ticker base_date days log = Raise e ->
  e = OverflowError /\
  exists i, i ∈ days /\ (base_date - Z.of_nat i < 1)%Z.
Proof.
  revert log. induction days as [|i rest IH]; intros log; [discriminate|].
  cbn [FmpApi.search_back]. unfold FmpApi.minus_days.
  destruct (Z.ltb_spec (base_date - Z.of_nat i) 1) as [Hlt|Hge].
  - intros [= <-]. split; [reflexivity|]. exists i.
    split; [apply list_elem_of_here | exact Hlt].
  - cbn [mbind outcome_bind FmpApi.get_price_on_date].
    destruct (truthy _); [discriminate|].
    intros H. destruct (IH _ H) as (-> & j & Hj & Hlt).
    split; [reflexivity|]. exists j.
    split; [apply list_elem_of_further, Hj | exact Hlt].
Qed.

(** X10. A call that returns has requested between one and fourteen prices,
    those of the most recent candidates, after the requests made before.
    A call raises only [ValueError], when the base date does not parse, or
    [OverflowError], when the base date has fewer than thirteen days before
    it. *)
Theorem get_valid_price_requests (ticker base_date_str : string)
    (log : list string) :
  (forall (p d : json) (log' : list string),
     get_valid_price ticker base_date_str log = Return (p, d, log') ->
     exists (base_date : Z) (k : nat),
       strptime base_date_str = Some base_date /\
       (1 <= k <= 14)%nat /\
       log' = log ++ map (λ j, price_url ticker (candidate base_date j))
                         (seq 0 k)) /\
  (forall e : exn,
     get_valid_price ticker base_date_str log = Raise e ->
     (e = ValueError /\ strptime base_date_str = None) \/
     (e = OverflowError /\
      exists base_date,
        strptime base_date_str = Some base_date /\ (base_date < 14)%Z)).
Proof.
  unfold FmpApi.get_valid_price.
  destruct (strptime base_date_str) as [base_date|]; split.
  - intros p d log' H.
    destruct (search_back_log _ _ _ _ _ _ _ H) as (k & Hk & Hk1 & ->).
    rewrite length_seq in Hk. exists base_date, k.
    split; [reflexivity|]. split; [split; [apply Hk1; discriminate | lia]|].
    rewrite take_seq. replace (k `min` 14)%nat with k by lia. reflexivity.
  - intros e H. right.
    destruct (search_back_raise _ _ _ _ _ H) as (-> & i & Hi & Hlt).
    split; [reflexivity|]. exists base_date. split; [reflexivity|].
    apply elem_of_seq in Hi. lia.
  - intros p d log' H. discriminate H.
  - intros e [= <-]. left. split; reflexivity.
Qed.

End MorePriceFacts.

Lemma price_on_date_is_first_close_witness :
  FmpApi.price_on_date "demo" PriceExample.provider "COF" "2019-12-21"
  = JFloat 95.5.
Proof.
  apply (proj1 (price_on_date_is_first_close "demo" PriceExample.provider
                  "COF" "2019-12-21")
           (<["symbol" := JStr "COF"]>
            (<["historical" := JList [JDict (<["close" := JFloat 95.5]> ∅)]]>
               ∅))
           [] (<["close" := JFloat 95.5]> ∅) (JFloat 95.5));
    reflexivity.
Defined.

Lemma get_valid_price_requests_witness :
  (exists log',
     FmpApi.get_valid_price "demo" (fun _ => Return (JDict ∅))
       PriceExample.strptime PriceExample.strftime "COF" "2019-12-31" []
     = Return (JNull, JNull, log') /\
     exists (base_date : Z) (k : nat),
       PriceExample.strptime "2019-12-31" = Some base_date /\
       (1 <= k <= 14)%nat /\
       log' = [] ++ map (λ j, FmpApi.price_url "demo" "COF"
                                (FmpApi.candidate PriceExample.strftime
                                   base_date j))
                        (seq 0 k)) /\
  ((ValueError = ValueError /\ PriceExample.strptime "yesterday" = None) \/
   (ValueError = OverflowError /\
    exists base_date,
      PriceExample.strptime "yesterday" = Some base_date /\
      (base_date < 14)%Z)).
Proof.
  split.
  - eexists. split; [reflexivity|].
    eapply (proj1 (get_valid_price_requests "demo"
                     (fun _ => Return (JDict ∅)) PriceExample.strptime
                     PriceExample.strftime "COF" "2019-12-31" [])).
    reflexivity.
  - apply (proj2 (get_valid_price_requests "demo"
                    (fun _ => Return (JDict ∅)) PriceExample.strptime
                    PriceExample.strftime "COF" "yesterday" [])).
    reflexivity.
Defined.

(** ** ten_cap.py *)

Lemma get_Some (d : gmap string json) (k : string) (dflt v : json) :
  d !! k = Some v -> get d k dflt = v.
Proof. unfold get. intros ->. reflexivity. Qed.

Lemma get_None (d : gmap string json) (k : string) (dflt : json) :
  d !! k = None -> get d k dflt = dflt.
Proof. unfold get. intros ->. reflexivity. Qed.

Lemma truediv_MILLION_zero : truediv (JInt 0) TenCap.MILLION = Return 0.
Proof.
  rewrite (truediv_MILLION_fits (JInt 0) 0 eq_refl).
  - f_equal. unfold Rdiv. apply Rmult_0_l.
  - apply quotient_fits_int; [reflexivity | apply MILLION_ge].
Qed.

Lemma truediv_MILLION_raises (v : json) :
  (exists e, truediv v TenCap.MILLION = Raise e)
  <-> num v = None \/ ~ quotient_fits v TenCap.MILLION.
Proof.
  split.
  - intros [e He].
    destruct (truediv_Raise_inv _ _ _ He MILLION_ne)
      as [[Hn _] | (_ & Hf & _)]; [left | right]; assumption.
  - intros Hbad. destruct (truediv v TenCap.MILLION) as [q|e] eqn:Hq;
      [|eauto].
    apply truediv_Return_inv in Hq as (r & Hr & _ & Hfits).
    destruct Hbad as [Hn | Hf]; [congruence | contradiction].
Qed.

Lemma quotient_overflows_int (z : Z) :
  (FLOAT_LIMIT * 1000000 <= Z.abs z)%Z ->
  ~ quotient_fits (JInt z) TenCap.MILLION.
Proof.
  intros Hz Hfits. specialize (Hfits (IZR z) eq_refl eq_refl).
  apply IZR_le in Hz. rewrite mult_IZR, abs_IZR in Hz.
  unfold Rdiv, TenCap.MILLION in Hfits.
  rewrite Rabs_mult, (Rabs_right (/ 1000000)) in Hfits
    by (left; apply Rinv_0_lt_compat; lra).
  assert (Hx : Rabs (IZR z) = Rabs (IZR z) * / 1000000 * 1000000)
    by (field).
  lra.
Qed.

(** X11. The working capital change is the sum of its two components and
    a field the record lacks counts as 0. The call raises exactly when
    one of the two fields holds a value that is no number, a [TypeError],
    or an [int] whose quotient by a million is beyond the floats, an
    [OverflowError]. *)
Theorem calculate_working_capital_change_spec
    (cashflow_data : gmap string json) :
  (forall wc ar ap : R,
     TenCap.calculate_working_capital_change cashflow_data
     = Return (wc, (ar, ap)) ->
     wc = ar + ap /\
     (cashflow_data !! "accountsReceivables" = None -> ar = 0) /\
     (cashflow_data !! "accountsPayables" = None -> ap = 0)) /\
  ((exists e, TenCap.calculate_working_capital_change cashflow_data = Raise e)
   <-> exists v,
         (cashflow_data !! "accountsReceivables" = Some v \/
          cashflow_data !! "accountsPayables" = Some v) /\
         (num v = None \/ ~ quotient_fits v TenCap.MILLION)) /\
  (forall e,
     TenCap.calculate_working_capital_change cashflow_data = Raise e ->
     exists v,
       (cashflow_data !! "accountsReceivables" = Some v \/
        cashflow_data !! "accountsPayables" = Some v) /\
       (e = TypeError /\ num v = None \/
        e = OverflowError /\ is_int v = true /\
        ~ quotient_fits v TenCap.MILLION)).
Proof.
  assert (Hfield : forall key,
            (exists v, cashflow_data !! key = Some v /\
                       get cashflow_data key (JInt 0) = v) \/
            (cashflow_data !! key = None /\
             truediv (get cashflow_data key (JInt 0)) TenCap.MILLION
             = Return 0)).
  { intros key. destruct (cashflow_data !! key) as [v|] eqn:Hv.
    - left. exists v. split; [reflexivity | apply get_Some, Hv].
    - right. split; [reflexivity|].
      rewrite (get_None _ _ _ Hv). apply truediv_MILLION_zero. }
  assert (Hraise : forall v e,
            truediv v TenCap.MILLION = Raise e ->
            e = TypeError /\ num v = None \/
            e = OverflowError /\ is_int v = true /\
            ~ quotient_fits v TenCap.MILLION).
  { intros v e He.
    destruct (truediv_Raise_inv _ _ _ He MILLION_ne)
      as [[Hn ->] | (_ & Hf & ->)]; [left; auto|].
    right. split; [reflexivity|]. split; [|exact Hf].
    destruct (is_int v) eqn:Hint; [reflexivity|].
    exfalso. apply Hf, quotient_fits_no_int, Hint. }
  assert (Hbad : forall v q,
            truediv v TenCap.MILLION = Return q ->
            num v = None \/ ~ quotient_fits v TenCap.MILLION -> False).
  { intros v q Hq Hv. apply truediv_MILLION_raises in Hv as [e He].
    congruence. }
  unfold TenCap.calculate_working_capital_change.
  destruct (Hfield "accountsReceivables") as [(x & Hx & Hgx) | [Hx Hgx]];
    destruct (Hfield "accountsPayables") as [(y & Hy & Hgy) | [Hy Hgy]];
    rewrite ?Hgx, ?Hgy; rewrite ?Hx, ?Hy.
  - destruct (truediv x TenCap.MILLION) as [ar|ea] eqn:Ea;
      cbn [mbind outcome_bind];
      [destruct (truediv y TenCap.MILLION) as [ap|ep] eqn:Ep;
       cbn [mbind outcome_bind]|].
    + split; [|split].
      * intros wc ar' ap' [= <- <- <-]. split; [reflexivity|].
        split; discriminate.
      * split; [intros [e H]; discriminate H|].
        intros (v & [[= <-] | [= <-]] & Hv); exfalso;
          [exact (Hbad _ _ Ea Hv) | exact (Hbad _ _ Ep Hv)].
      * intros e H. discriminate H.
    + split; [discriminate|]. split.
      * split; [intros _ | intros _; eauto].
        exists y. split; [right; reflexivity|].
        apply truediv_MILLION_raises. eauto.
      * intros e [= <-]. exists y. split; [right; reflexivity|].
        apply Hraise, Ep.
    + split; [discriminate|]. split.
      * split; [intros _ | intros _; eauto].
        exists x. split; [left; reflexivity|].
        apply truediv_MILLION_raises. eauto.
      * intros e [= <-]. exists x. split; [left; reflexivity|].
        apply Hraise, Ea.
  - destruct (truediv x TenCap.MILLION) as [ar|ea] eqn:Ea;
      cbn [mbind outcome_bind].
    + split; [|split].
      * intros wc ar' ap' [= <- <- <-]. split; [reflexivity|].
        split; [discriminate | reflexivity].
      * split; [intros [e H]; discriminate H|].
        intros (v & [[= <-] | H] & Hv); [|discriminate H].
        exfalso. exact (Hbad _ _ Ea Hv).
      * intros e H. discriminate H.
    + split; [discriminate|]. split.
      * split; [intros _ | intros _; eauto].
        exists x. split; [left; reflexivity|].
        apply truediv_MILLION_raises. eauto.
      * intros e [= <-]. exists x. split; [left; reflexivity|].
        apply Hraise, Ea.
  - cbn [mbind outcome_bind].
    destruct (truediv y TenCap.MILLION) as [ap|ep] eqn:Ep;
      cbn [mbind outcome_bind].
    + split; [|split].
      * intros wc ar' ap' [= <- <- <-]. split; [reflexivity|].
        split; [reflexivity | discriminate].
      * split; [intros [e H]; discriminate H|].
        intros (v & [H | [= <-]] & Hv); [discriminate H|].
        exfalso. exact (Hbad _ _ Ep Hv).
      * intros e H. discriminate H.
    + split; [discriminate|]. split.
      * split; [intros _ | intros _; eauto].
        exists y. split; [right; reflexivity|].
        apply truediv_MILLION_raises. eauto.
      * intros e [= <-]. exists y. split; [right; reflexivity|].
        apply Hraise, Ep.
  - cbn [mbind outcome_bind]. split; [|split].
    + intros wc ar ap [= <- <- <-]. split; [lra|]. split; reflexivity.
    + split; [intros [e H]; discriminate H|].
      intros (v & [H | H] & _); discriminate H.
    + intros e H. discriminate H.
Qed.

Lemma calculate_working_capital_change_spec_witness :
  (exists wc ar ap : R,
     TenCap.calculate_working_capital_change
       (delete "accountsPayables" TenCapExample.cashflow_2019)
     = Return (wc, (ar, ap)) /\
     wc = ar + ap /\ ar = -8 /\ ap = 0) /\
  (exists e,
     TenCap.calculate_working_capital_change
       (<["accountsReceivables" := JInt (10 ^ 400)]> ∅) = Raise e).
Proof.
  split.
  - assert (Hrun : TenCap.calculate_working_capital_change
                     (delete "accountsPayables" TenCapExample.cashflow_2019)
                   = Return (-8000000 / TenCap.MILLION + 0,
                             (-8000000 / TenCap.MILLION, 0))).
    { unfold TenCap.calculate_working_capital_change.
      change (get (delete "accountsPayables" TenCapExample.cashflow_2019)
                "accountsReceivables" (JInt 0)) with (JInt (-8000000)).
      change (get (delete "accountsPayables" TenCapExample.cashflow_2019)
                "accountsPayables" (JInt 0)) with (JInt 0).
      rewrite (truediv_MILLION_fits (JInt (-8000000)) (-8000000) eq_refl)
        by (apply quotient_fits_int; [reflexivity | apply MILLION_ge]).
      rewrite truediv_MILLION_zero. reflexivity. }
    destruct (proj1 (calculate_working_capital_change_spec
                       (delete "accountsPayables"
                          TenCapExample.cashflow_2019))
                _ _ _ Hrun) as (Hwc & _ & Hap).
    do 3 eexists. split; [exact Hrun|]. split; [exact Hwc|].
    split; [unfold TenCap.MILLION; lra | apply Hap; reflexivity].
  - apply (proj1 (proj2 (calculate_working_capital_change_spec
                           (<["accountsReceivables" := JInt (10 ^ 400)]>
                              ∅)))).
    exists (JInt (10 ^ 400)). split; [left; reflexivity|].
    right. apply quotient_overflows_int. apply Z.leb_le. reflexivity.
Defined.

Section MoreTenCapFacts.

Import TenCap.

Variable FMP_API_KEY : string.
Variable requests_get_json : string -> outcome json.
Variable py_repr : json -> string.

#[local] Abbreviation get_income_statement :=
  (FmpApi.get_income_statement FMP_API_KEY requests_get_json).
#[local] Abbreviation get_cashflow_statement :=
  (FmpApi.get_cashflow_statement FMP_API_KEY requests_get_json).
#[local] Abbreviation get_key_metrics :=
  (FmpApi.get_key_metrics FMP_API_KEY requests_get_json).
#[local] Abbreviation year_record := (TenCap.year_record py_repr).
#[local] Abbreviation calculate_ten_cap_price :=
  (TenCap.calculate_ten_cap_price FMP_API_KEY requests_get_json py_repr).

(** X12. A price is only ever returned from the record of the year of each
    of the three collections, with numbers in every field read and strictly
    positive shares; it is then ten times the owner earnings per share,
    taken on the raw figures: the conversion to millions cancels out. *)
Theorem calculate_ten_cap_price_some (ticker : string) (year : option Z)
    (p : R) :
  calculate_ten_cap_price ticker year = Some p ->
  exists (i c m : gmap string json) (pbt dep ar ap capex shares : R),
    year_record (get_income_statement ticker 10) year i /\
    year_record (get_cashflow_statement ticker 10) year c /\
    year_record (get_key_metrics ticker 10) year m /\
    num (get i "incomeBeforeTax" (JInt 0)) = Some pbt /\
    num (depreciation_value c) = Some dep /\
    (dep = 0 -> depreciation_fields_numeric c) /\
    num (get c "accountsReceivables" (JInt 0)) = Some ar /\
    num (get c "accountsPayables" (JInt 0)) = Some ap /\
    num (get c "capitalExpenditure" (JInt 0)) = Some capex /\
    num (shares_value m i) = Some shares /\
    0 < shares /\
    p = 10 * (pbt + dep + ar + ap - Rabs capex / 2) / shares.
Proof.
  intros H.
  destruct (ten_cap_inv _ _ _ _ _ _ H) as (i & c & m & Hi & Hc & Hm & Hrec).
  destruct (ten_cap_of_records_inv _ _ _ _ Hrec)
    as (pbt & dep & ar & ap & capex & shares & Hnum).
  exists i, c, m, pbt, dep, ar, ap, capex, shares. tauto.
Qed.

(** X13. When no depreciation is found (the four alternatives are missing
    or falsy) and a field of the cash flow record whose name mentions
    depreciation holds a value that is no number, such as a null
    [depreciationAndAmortization], the year has no price. *)
Theorem calculate_ten_cap_price_null_depreciation (ticker : string)
    (year : option Z) (c : gmap string json) (key : string) (value : json) :
  year_record (get_cashflow_statement ticker 10) year c ->
  num (depreciation_value c) = Some 0 ->
  c !! key = Some value ->
  contains "depreciation" (lower key) = true ->
  num value = None ->
  calculate_ten_cap_price ticker year = None.
Proof.
  intros Hc Hdep Hkey Hname Hvalue.
  destruct (calculate_ten_cap_price ticker year) as [p|] eqn:E;
    [|reflexivity].
  exfalso.
  destruct (ten_cap_inv _ _ _ _ _ _ E) as (i & c' & m & _ & Hc' & _ & Hrec).
  rewrite (year_record_unique _ _ _ _ _ Hc' Hc) in Hrec.
  destruct (ten_cap_of_records_inv _ _ _ _ Hrec)
    as (pbt & dep & ar & ap & capex & shares & _ & Hdep' & Hlog & _).
  rewrite Hdep in Hdep'. injection Hdep' as <-.
  destruct (Hlog eq_refl key value Hkey Hname) as [r Hr]. congruence.
Qed.

End MoreTenCapFacts.

(** ** ten_cap.py: the command line helpers *)

Section CliFacts.

Import TenCapCli.

Variable FMP_API_KEY : string.
Variable requests_get_json : string -> outcome json.
Variable py_repr : json -> string.
Variable format_money : R -> string.

#[local] Abbreviation calculate_ten_cap_price :=
  (TenCap.calculate_ten_cap_price FMP_API_KEY requests_get_json py_repr).
#[local] Abbreviation get_ten_cap_data :=
  (TenCapCli.get_ten_cap_data FMP_API_KEY requests_get_json py_repr).
#[local] Abbreviation print_ten_cap_analysis :=
  (TenCapCli.print_ten_cap_analysis FMP_API_KEY requests_get_json py_repr
     format_money).

Lemma get_ten_cap_data_is_price (ticker : string) (year : option Z) :
  get_ten_cap_data ticker year = calculate_ten_cap_price ticker year.
Proof.
  unfold TenCapCli.get_ten_cap_data.
  destruct (calculate_ten_cap_price ticker year); reflexivity.
Qed.

(** X14. [print_ten_cap_analysis] never prints an analysis. Without a
    price for the omitted year, or with the price 0, it prints the line
    that no analysis could be made; with any other price it prints nothing
    and raises a [TypeError], the price being a float and not the dict the
    prints subscript. *)
Theorem print_ten_cap_analysis_outcome (ticker : string) :
  (calculate_ten_cap_price ticker None = None \/
   calculate_ten_cap_price ticker None = Some 0 ->
   print_ten_cap_analysis ticker
   = (["Konnte keine TEN CAP Analyse für " +:+ ticker +:+ " durchführen"],
      Return ())) /\
  (forall p : R,
     calculate_ten_cap_price ticker None = Some p -> p <> 0 ->
     print_ten_cap_analysis ticker = ([], Raise TypeError)).
Proof.
  unfold TenCapCli.print_ten_cap_analysis.
  rewrite get_ten_cap_data_is_price. split.
  - intros [-> | ->]; cbn [from_option truthy].
    + reflexivity.
    + rewrite bool_decide_eq_true_2 by reflexivity. reflexivity.
  - intros p -> Hp. cbn [from_option truthy].
    rewrite bool_decide_eq_false_2 by exact Hp. reflexivity.
Qed.

End CliFacts.

(** ** fmp_api.py: [get_year_data_by_range] *)

Section YearDataFacts.

Import YearData.

Variable FMP_API_KEY : string.
Variable requests_get_json : string -> outcome json.
Variable py_repr : json -> string.

#[local] Abbreviation py_str := (TenCap.py_str py_repr).
#[local] Abbreviation first_of_year := (YearData.first_of_year py_repr).
#[local] Abbreviation get_by_year := (YearData.get_by_year py_repr).
#[local] Abbreviation year_step := (YearData.year_step py_repr).
#[local] Abbreviation year_loop := (YearData.year_loop py_repr).
#[local] Abbreviation year_entry := (YearData.year_entry py_repr).
#[local] Abbreviation get_year_data_by_range :=
  (YearData.get_year_data_by_range FMP_API_KEY requests_get_json py_repr).

Lemma truediv_million (v : json) (r : R) :
  num v = Some r -> quotient_fits v 1000000 ->
  truediv v 1000000 = Return (r / 1000000).
Proof. intros Hr Hfits. apply truediv_fits; [exact Hr | lra | exact Hfits]. Qed.

Lemma get_or_inv (v : json) (k : string) (dflt x : json) :
  get_or v k dflt = Return x -> exists d, v = JDict d /\ x = get d k dflt.
Proof.
  destruct v; try discriminate. cbn [get_or]. intros [= <-]. eauto.
Qed.

Lemma truediv_million_inv (v : json) (q : R) :
  truediv v 1000000 = Return q ->
  exists r, num v = Some r /\ q = r / 1000000 /\ quotient_fits v 1000000.
Proof. apply truediv_Return_inv. Qed.

Lemma year_step_inv (income cashflow metrics : json) (acc acc' : lists)
    (year : Z) :
  year_step income cashflow metrics acc year = Return acc' ->
  exists (r : row) (book eps revenue cashflow_ps : json),
    year_entry income cashflow metrics year r book eps revenue cashflow_ps /\
    (forall i c : gmap string json,
       get_by_year income year = Return (JDict i) ->
       get_by_year cashflow year = Return (JDict c) ->
       quotient_fits (get i "revenue" (JInt 0)) 1000000 /\
       quotient_fits (get c "freeCashFlow" (JInt 0)) 1000000) /\
    acc' = Lists (results acc ++ [r]) (book_list acc ++ [book])
             (eps_list acc ++ [eps]) (revenue_list acc ++ [revenue])
             (cashflow_list acc ++ [cashflow_ps]).
Proof.
  unfold YearData.year_step. intros H.
  apply bind_Return_inv in H as (vi & Hi & H).
  apply bind_Return_inv in H as (vc & Hc & H).
  apply bind_Return_inv in H as (vm & Hm & H).
  apply bind_Return_inv in H as (rev_v & Hrv & H).
  apply get_or_inv in Hrv as (i & -> & ->).
  apply bind_Return_inv in H as (revenue & Hrev & H).
  apply truediv_million_inv in Hrev as (rev & Hrev & -> & Hfrev).
  apply bind_Return_inv in H as (fcf_v & Hfv & H).
  apply get_or_inv in Hfv as (c & -> & ->).
  apply bind_Return_inv in H as (fcf_q & Hfcf & H).
  apply truediv_million_inv in Hfcf as (fcf & Hfcf & -> & Hffcf).
  apply bind_Return_inv in H as (eps & Heps & H).
  cbn [get_or] in Heps. injection Heps as <-.
  apply bind_Return_inv in H as (roic & Hroic & H).
  apply get_or_inv in Hroic as (m & -> & ->).
  apply bind_Return_inv in H as (eps_rounded & Hround & H).
  apply bind_Return_inv in H as (roic_text & Htext & H).
  cbn [get_or mbind outcome_bind] in H. injection H as <-.
  eexists (Row year _ _ eps_rounded roic_text), _, _, _, _.
  split; [|split; [|reflexivity]].
  - exists i, c, m, rev, fcf. cbn [Year Revenue FreeCashFlow EPS ROIC].
    repeat (split; [reflexivity || assumption|]).
    repeat split; reflexivity.
  - intros i' c' Hi' Hc'. rewrite Hi in Hi'. rewrite Hc in Hc'.
    injection Hi' as <-. injection Hc' as <-. split; assumption.
Qed.

Lemma year_loop_inv (income cashflow metrics : json) (years : list Z)
    (acc acc' : lists) :
  year_loop income cashflow metrics acc years = Return acc' ->
  exists (rows : list row) (bs es rs cs : list json),
    acc' = Lists (results acc ++ rows) (book_list acc ++ bs)
             (eps_list acc ++ es) (revenue_list acc ++ rs)
             (cashflow_list acc ++ cs) /\
    length rows = length years /\ length bs = length years /\
    length es = length years /\ length rs = length years /\
    length cs = length years /\
    forall (k : nat) (year : Z),
      years !! k = Some year ->
      exists r b e rv cp,
        rows !! k = Some r /\ bs !! k = Some b /\ es !! k = Some e /\
        rs !! k = Some rv /\ cs !! k = Some cp /\
        year_entry income cashflow metrics year r b e rv cp.
Proof.
  revert acc. induction years as [|y rest IH]; intros acc.
  - cbn. intros [= <-]. exists [], [], [], [], [].
    rewrite !app_nil_r. destruct acc. repeat split; try reflexivity.
    intros k year Hk. discriminate Hk.
  - cbn [YearData.year_loop].
    destruct (year_step income cashflow metrics acc y) as [acc1|] eqn:Hstep;
      [|discriminate].
    cbn [mbind outcome_bind]. intros Hloop.
    destruct (year_step_inv _ _ _ _ _ _ Hstep)
      as (r & b & e & rv & cp & Hentry & _ & ->).
    destruct (IH _ Hloop)
      as (rows & bs & es & rs & cs & -> & Hl1 & Hl2 & Hl3 & Hl4 & Hl5 & Hall).
    cbn [results book_list eps_list revenue_list cashflow_list].
    exists (r :: rows), (b :: bs), (e :: es), (rv :: rs), (cp :: cs).
    rewrite <- !app_assoc. cbn [app length].
    repeat (split; [reflexivity || congruence|]).
    intros [|k] year Hk.
    + injection Hk as <-. exists r, b, e, rv, cp. repeat split; assumption.
    + exact (Hall k year Hk).
Qed.

Lemma range_length (a b : Z) : length (range a b) = Z.to_nat (b - a).
Proof. unfold range. rewrite length_map, length_seq. reflexivity. Qed.

Lemma range_lookup (a b : Z) (k : nat) :
  (k < Z.to_nat (b - a))%nat ->
  range a b !! k = Some (a + Z.of_nat k)%Z.
Proof.
  intros Hk. unfold range. rewrite list_lookup_fmap, lookup_seq_lt by exact Hk.
  reflexivity.
Qed.

(** X15. The four series and the table of rows have one entry per
    requested year, [years + 1] of them, and row [k] is the row of the year
    [start_year + k]. *)
Theorem get_year_data_by_range_shape (ticker : string) (start_year years : Z)
    (rows : list row) (mos_metrics : list (string * list json)) :
  get_year_data_by_range ticker start_year years
  = Return (rows, mos_metrics) ->
  exists book eps revenue cashflow : list json,
    mos_metrics = [("book", book); ("eps", eps); ("revenue", revenue);
                   ("cashflow", cashflow)] /\
    length rows = Z.to_nat (years + 1) /\
    length book = Z.to_nat (years + 1) /\
    length eps = Z.to_nat (years + 1) /\
    length revenue = Z.to_nat (years + 1) /\
    length cashflow = Z.to_nat (years + 1) /\
    forall (k : nat) (r : row),
      rows !! k = Some r -> Year r = (start_year + Z.of_nat k)%Z.
Proof.
  unfold YearData.get_year_data_by_range.
  destruct (FmpApi.get_income_statement _ _ _ _) as [income|];
    [|discriminate].
  destruct (FmpApi.get_cashflow_statement _ _ _ _) as [cashflow|];
    [|discriminate].
  destruct (FmpApi.get_key_metrics _ _ _ _) as [metrics|]; [|discriminate].
  cbn [mbind outcome_bind].
  destruct (year_loop income cashflow metrics _ _) as [acc|] eqn:Hloop;
    [|discriminate].
  cbn [mbind outcome_bind]. intros [= <- <-].
  destruct (year_loop_inv _ _ _ _ _ _ Hloop)
    as (rs & bs & es & rvs & cs & -> & Hl1 & Hl2 & Hl3 & Hl4 & Hl5 & Hall).
  cbn [results book_list eps_list revenue_list cashflow_list app].
  rewrite range_length in Hl1, Hl2, Hl3, Hl4, Hl5.
  replace (start_year + years + 1 - start_year)%Z with (years + 1)%Z
    in * by lia.
  exists bs, es, rvs, cs. repeat (split; [reflexivity || assumption|]).
  intros k r Hk.
  assert (Hlt : (k < Z.to_nat (years + 1))%nat).
  { rewrite <- Hl1. apply lookup_lt_is_Some. eauto. }
  destruct (Hall k (start_year + Z.of_nat k)%Z)
    as (r' & b & e & rv & cp & Hr' & _ & _ & _ & _ & Hentry).
  { apply range_lookup. lia. }
  destruct Hentry as (i & c & m & rev & fcf & _ & _ & _ & _ & _ & Hyear & _).
  congruence.
Qed.

Lemma get_year_data_by_range_inv (ticker : string) (start_year years : Z)
    (rows : list row) (mos_metrics : list (string * list json)) :
  get_year_data_by_range ticker start_year years
  = Return (rows, mos_metrics) ->
  exists (income cashflow metrics : json) (bs es rs cs : list json),
    FmpApi.get_income_statement FMP_API_KEY requests_get_json ticker 20
    = Return income /\
    FmpApi.get_cashflow_statement FMP_API_KEY requests_get_json ticker 20
    = Return cashflow /\
    FmpApi.get_key_metrics FMP_API_KEY requests_get_json ticker 20
    = Return metrics /\
    mos_metrics = [("book", bs); ("eps", es); ("revenue", rs);
                   ("cashflow", cs)] /\
    forall k : nat,
      (k < Z.to_nat (years + 1))%nat ->
      exists r b e rv cp,
        rows !! k = Some r /\ bs !! k = Some b /\ es !! k = Some e /\
        rs !! k = Some rv /\ cs !! k = Some cp /\
        year_entry income cashflow metrics (start_year + Z.of_nat k)%Z
          r b e rv cp.
Proof.
  unfold YearData.get_year_data_by_range. intros H.
  apply bind_Return_inv in H as (income & Hi & H).
  apply bind_Return_inv in H as (cashflow & Hc & H).
  apply bind_Return_inv in H as (metrics & Hm & H).
  apply bind_Return_inv in H as (acc & Hloop & H).
  injection H as <- <-.
  destruct (year_loop_inv _ _ _ _ _ _ Hloop)
    as (rows & bs & es & rs & cs & -> & _ & _ & _ & _ & _ & Hall).
  cbn [results book_list eps_list revenue_list cashflow_list app].
  exists income, cashflow, metrics, bs, es, rs, cs.
  repeat (split; [reflexivity || assumption|]).
  intros k Hk. apply Hall, range_lookup.
  replace (start_year + years + 1 - start_year)%Z with (years + 1)%Z by lia.
  exact Hk.
Qed.

(** X16. Entry [k] of each series and row [k] of the table hold the
    figures of the year [start_year + k]: the fields of the first record of
    that year in the income statement (revenue, EPS), the cash flow
    statement (free cash flow) and the key metrics (book value, revenue and
    operating cash flow per share), a missing field counting as 0. *)
Theorem get_year_data_by_range_entries (ticker : string)
    (start_year years : Z) (income cashflow metrics : json)
    (rows : list row) (book eps revenue cashflow_ps : list json) (k : nat) :
  FmpApi.get_income_statement FMP_API_KEY requests_get_json ticker 20
  = Return income ->
  FmpApi.get_cashflow_statement FMP_API_KEY requests_get_json ticker 20
  = Return cashflow ->
  FmpApi.get_key_metrics FMP_API_KEY requests_get_json ticker 20
  = Return metrics ->
  get_year_data_by_range ticker start_year years
  = Return (rows, [("book", book); ("eps", eps); ("revenue", revenue);
                   ("cashflow", cashflow_ps)]) ->
  (k < Z.to_nat (years + 1))%nat ->
  exists r b e rv cp,
    rows !! k = Some r /\ book !! k = Some b /\ eps !! k = Some e /\
    revenue !! k = Some rv /\ cashflow_ps !! k = Some cp /\
    year_entry income cashflow metrics (start_year + Z.of_nat k)%Z
      r b e rv cp.
Proof.
  intros Hi Hc Hm H Hk.
  destruct (get_year_data_by_range_inv _ _ _ _ _ H)
    as (income' & cashflow' & metrics' & bs & es & rs & cs
        & Hi' & Hc' & Hm' & Hmos & Hall).
  rewrite Hi in Hi'. rewrite Hc in Hc'. rewrite Hm in Hm'.
  injection Hi' as <-. injection Hc' as <-. injection Hm' as <-.
  injection Hmos as -> -> -> ->. exact (Hall k Hk).
Qed.

Lemma first_of_year_missing (entries : list json) (year : Z) :
  Forall (λ entry, exists d : gmap string json,
            entry = JDict d /\
            py_str (get d "calendarYear" JNull) ≠ py_str (JInt year))
         entries ->
  first_of_year entries year = Return (JDict ∅).
Proof.
  induction 1 as [|entry rest (d & -> & Hne) _ IH]; [reflexivity|].
  cbn [YearData.first_of_year dict_get mbind outcome_bind].
  rewrite (proj2 (String.eqb_neq _ _) Hne). exact IH.
Qed.

(** X17. A requested year that none of the three statements has a record
    of is kept: its row holds the revenue 0, the free cash flow 0, the EPS
    0 and the ROIC dash, and its entry is 0 in each of the four series. *)
Theorem get_year_data_by_range_missing_year (ticker : string)
    (start_year years : Z) (income cashflow metrics : list json)
    (rows : list row) (mos_metrics : list (string * list json)) (k : nat) :
  let no_record (entries : list json) :=
    Forall (λ entry, exists d : gmap string json,
              entry = JDict d /\
              py_str (get d "calendarYear" JNull)
              ≠ py_str (JInt (start_year + Z.of_nat k))) entries in
  FmpApi.get_income_statement FMP_API_KEY requests_get_json ticker 20
  = Return (JList income) ->
  FmpApi.get_cashflow_statement FMP_API_KEY requests_get_json ticker 20
  = Return (JList cashflow) ->
  FmpApi.get_key_metrics FMP_API_KEY requests_get_json ticker 20
  = Return (JList metrics) ->
  no_record income -> no_record cashflow -> no_record metrics ->
  get_year_data_by_range ticker start_year years
  = Return (rows, mos_metrics) ->
  (k < Z.to_nat (years + 1))%nat ->
  rows !! k = Some (Row (start_year + Z.of_nat k) 0 0 (JInt 0) "–") /\
  forall (name : string) (series : list json),
    (name, series) ∈ mos_metrics -> series !! k = Some (JInt 0).
Proof.
  intros no_record Hi Hc Hm Hni Hnc Hnm H Hk.
  destruct (get_year_data_by_range_inv _ _ _ _ _ H)
    as (income' & cashflow' & metrics' & bs & es & rs & cs
        & Hi' & Hc' & Hm' & -> & Hall).
  rewrite Hi in Hi'. rewrite Hc in Hc'. rewrite Hm in Hm'.
  injection Hi' as <-. injection Hc' as <-. injection Hm' as <-.
  destruct (Hall k Hk)
    as (r & b & e & rv & cp & Hr & Hb & He & Hrv & Hcp & Hentry).
  destruct Hentry
    as (i & c & m & rev & fcf & Hgi & Hgc & Hgm & Hrev & Hfcf & Hyear
        & Hrevenue & Hfree & Heps & Hroic & -> & -> & -> & ->).
  unfold YearData.get_by_year in Hgi, Hgc, Hgm.
  cbn [iter mbind outcome_bind] in Hgi, Hgc, Hgm.
  rewrite (first_of_year_missing _ _ Hni) in Hgi.
  rewrite (first_of_year_missing _ _ Hnc) in Hgc.
  rewrite (first_of_year_missing _ _ Hnm) in Hgm.
  injection Hgi as <-. injection Hgc as <-. injection Hgm as <-.
  unfold get in *. rewrite lookup_empty in *. cbn [default from_option] in *.
  injection Hrev as <-. injection Hfcf as <-.
  cbn [round_json] in Heps. injection Heps as Heps.
  replace (0 / 1000000) with 0 in * by lra. rewrite round2_zero in *.
  split.
  - rewrite Hr. f_equal. destruct r as [y rv' f' e' t'].
    cbn [Year Revenue FreeCashFlow EPS ROIC] in *.
    cbn [YearData.roic_text] in Hroic. congruence.
  - intros name series Hin.
    repeat (apply elem_of_cons in Hin as [[= -> ->] | Hin];
            [assumption|]).
    apply elem_of_nil in Hin as [].
Qed.

Lemma round_json_returns (v : json) :
  (exists x, round_json v = Return x) <-> is_Some (num v).
Proof.
  destruct v; cbn [round_json num]; split;
    intros [x H]; try discriminate H; eauto.
Qed.

Lemma roic_text_returns (v : json) :
  (exists t, YearData.roic_text py_repr v = Return t)
  <-> v = JNull \/ is_Some (num v).
Proof.
  destruct v; cbn [YearData.roic_text round_percent num mbind outcome_bind];
    split; try (intros [t H]; discriminate H);
    try (intros [H | [x H]]; discriminate H); eauto.
Qed.

Lemma year_step_run (income cashflow metrics : json) (acc : lists)
    (year : Z) :
  YearData.year_readable py_repr income cashflow metrics year ->
  exists acc', year_step income cashflow metrics acc year = Return acc'.
Proof.
  intros (i & c & m & Hi & Hc & Hm & [rev Hrev] & Hfrev & [fcf Hfcf] & Hffcf
          & Heps & Hroic).
  apply (proj2 (round_json_returns _)) in Heps as [er Her].
  apply (proj2 (roic_text_returns _)) in Hroic as [t Ht].
  unfold YearData.year_step. rewrite Hi, Hc, Hm.
  cbn [mbind outcome_bind get_or].
  rewrite (truediv_million _ rev Hrev Hfrev).
  rewrite (truediv_million _ fcf Hfcf Hffcf).
  cbn [mbind outcome_bind]. rewrite Her. cbn [mbind outcome_bind].
  rewrite Ht. cbn [mbind outcome_bind]. eauto.
Qed.

Lemma year_step_readable (income cashflow metrics : json) (acc acc' : lists)
    (year : Z) :
  year_step income cashflow metrics acc year = Return acc' ->
  YearData.year_readable py_repr income cashflow metrics year.
Proof.
  intros Hstep.
  destruct (year_step_inv _ _ _ _ _ _ Hstep)
    as (r & b & e & rv & cp & Hentry & Hfits & _).
  destruct Hentry as (i & c & m & rev & fcf & Hgi & Hgc & Hgm & Hrev & Hfcf
                      & _ & _ & _ & Heps & Hroic & _).
  destruct (Hfits i c Hgi Hgc) as [Hfrev Hffcf].
  exists i, c, m.
  split; [exact Hgi|]. split; [exact Hgc|]. split; [exact Hgm|].
  split; [eauto|]. split; [exact Hfrev|].
  split; [eauto|]. split; [exact Hffcf|].
  split; [apply (proj1 (round_json_returns _)); eauto|].
  apply (proj1 (roic_text_returns _)). eauto.
Qed.

Lemma year_loop_readable (income cashflow metrics : json) (years : list Z)
    (acc acc' : lists) :
  year_loop income cashflow metrics acc years = Return acc' ->
  Forall (YearData.year_readable py_repr income cashflow metrics) years.
Proof.
  revert acc. induction years as [|y rest IH]; intros acc Hloop;
    [constructor|].
  cbn [YearData.year_loop] in Hloop.
  apply bind_Return_inv in Hloop as (acc1 & Hstep & Hloop).
  constructor; [exact (year_step_readable _ _ _ _ _ _ Hstep)|].
  exact (IH _ Hloop).
Qed.

Lemma year_loop_run (income cashflow metrics : json) (years : list Z)
    (acc : lists) :
  Forall (YearData.year_readable py_repr income cashflow metrics) years ->
  exists acc', year_loop income cashflow metrics acc years = Return acc'.
Proof.
  intros Hall. revert acc.
  induction Hall as [|y rest Hy _ IH]; intros acc; [cbn; eauto|].
  cbn [YearData.year_loop].
  destruct (year_step_run _ _ _ acc _ Hy) as [acc1 ->].
  cbn [mbind outcome_bind]. apply IH.
Qed.

Lemma get_year_data_by_range_run (ticker : string) (start_year years : Z)
    (income cashflow metrics : json) :
  FmpApi.get_income_statement FMP_API_KEY requests_get_json ticker 20
  = Return income ->
  FmpApi.get_cashflow_statement FMP_API_KEY requests_get_json ticker 20
  = Return cashflow ->
  FmpApi.get_key_metrics FMP_API_KEY requests_get_json ticker 20
  = Return metrics ->
  (forall k : nat,
     (k < Z.to_nat (years + 1))%nat ->
     YearData.year_readable py_repr income cashflow metrics
       (start_year + Z.of_nat k)%Z) ->
  exists rows mos_metrics,
    get_year_data_by_range ticker start_year years
    = Return (rows, mos_metrics).
Proof.
  intros Hi Hc Hm Hall.
  unfold YearData.get_year_data_by_range. rewrite Hi, Hc, Hm.
  cbn [mbind outcome_bind].
  destruct (year_loop_run income cashflow metrics
              (range start_year (start_year + years + 1))
              (Lists [] [] [] [] [])) as [acc ->].
  - apply Forall_forall. intros y Hy.
    apply list_elem_of_lookup in Hy as [k Hk].
    assert (Hlt : (k < Z.to_nat (years + 1))%nat).
    { apply lookup_lt_Some in Hk. rewrite range_length in Hk. lia. }
    rewrite range_lookup in Hk by lia. injection Hk as <-.
    apply Hall, Hlt.
  - cbn [mbind outcome_bind]. eauto.
Qed.

(** X18. A call of [get_year_data_by_range] returns only if the three
    requests succeed and the figures of every requested year can be read:
    each statement is a list whose records, up to the first one of the
    year, are dicts, the revenue and the free cash flow are numbers whose
    quotient by a million is a float, the EPS is a number and the ROIC is
    null or a number. With a year that cannot be read, such as one with a
    null [eps], a statement that is an error message instead of a list, or
    a revenue that is an [int] beyond the floats, the call raises. *)
Theorem get_year_data_by_range_returns_only_readable (ticker : string)
    (start_year years : Z) :
  (forall (rows : list row) (mos_metrics : list (string * list json)),
     get_year_data_by_range ticker start_year years
     = Return (rows, mos_metrics) ->
     exists income cashflow metrics : json,
       FmpApi.get_income_statement FMP_API_KEY requests_get_json ticker 20
       = Return income /\
       FmpApi.get_cashflow_statement FMP_API_KEY requests_get_json ticker 20
       = Return cashflow /\
       FmpApi.get_key_metrics FMP_API_KEY requests_get_json ticker 20
       = Return metrics /\
       forall k : nat,
         (k < Z.to_nat (years + 1))%nat ->
         YearData.year_readable py_repr income cashflow metrics
           (start_year + Z.of_nat k)%Z) /\
  (forall (income cashflow metrics : json) (k : nat),
     FmpApi.get_income_statement FMP_API_KEY requests_get_json ticker 20
     = Return income ->
     FmpApi.get_cashflow_statement FMP_API_KEY requests_get_json ticker 20
     = Return cashflow ->
     FmpApi.get_key_metrics FMP_API_KEY requests_get_json ticker 20
     = Return metrics ->
     (k < Z.to_nat (years + 1))%nat ->
     ~ YearData.year_readable py_repr income cashflow metrics
         (start_year + Z.of_nat k)%Z ->
     exists e, get_year_data_by_range ticker start_year years = Raise e).
Proof.
  assert (Hreturns :
    forall (rows : list row) (mos_metrics : list (string * list json)),
      get_year_data_by_range ticker start_year years
      = Return (rows, mos_metrics) ->
      exists income cashflow metrics : json,
        FmpApi.get_income_statement FMP_API_KEY requests_get_json ticker 20
        = Return income /\
        FmpApi.get_cashflow_statement FMP_API_KEY requests_get_json ticker 20
        = Return cashflow /\
        FmpApi.get_key_metrics FMP_API_KEY requests_get_json ticker 20
        = Return metrics /\
        forall k : nat,
          (k < Z.to_nat (years + 1))%nat ->
          YearData.year_readable py_repr income cashflow metrics
            (start_year + Z.of_nat k)%Z).
  { intros rows mos H. unfold YearData.get_year_data_by_range in H.
    apply bind_Return_inv in H as (income & Hi & H).
    apply bind_Return_inv in H as (cashflow & Hc & H).
    apply bind_Return_inv in H as (metrics & Hm & H).
    apply bind_Return_inv in H as (acc & Hloop & _).
    exists income, cashflow, metrics. repeat (split; [assumption|]).
    intros k Hk. apply year_loop_readable in Hloop.
    apply (proj1 (Forall_forall _ _) Hloop), list_elem_of_lookup.
    exists k. apply range_lookup. lia. }
  split; [exact Hreturns|].
  intros income cashflow metrics k Hi Hc Hm Hk Hn.
  destruct (get_year_data_by_range ticker start_year years)
    as [[rows mos]|e] eqn:H; [|eauto].
  exfalso.
  destruct (Hreturns rows mos eq_refl)
    as (income' & cashflow' & metrics' & Hi' & Hc' & Hm' & Hall).
  rewrite Hi in Hi'. rewrite Hc in Hc'. rewrite Hm in Hm'.
  injection Hi' as <-. injection Hc' as <-. injection Hm' as <-.
  exact (Hn (Hall k Hk)).
Qed.

End YearDataFacts.

(** ** Examples of the further properties *)

Lemma undated_records_found :
  TenCap.year_record TenCapExample.repr
    (FmpApi.get_income_statement "demo" MoreExamples.undated_provider
       "COF" 10) None (delete "calendarYear" TenCapExample.income_2019) /\
  TenCap.year_record TenCapExample.repr
    (FmpApi.get_cashflow_statement "demo" MoreExamples.undated_provider
       "COF" 10) None (delete "calendarYear" TenCapExample.cashflow_2019) /\
  TenCap.year_record TenCapExample.repr
    (FmpApi.get_key_metrics "demo" MoreExamples.undated_provider
       "COF" 10) None (delete "calendarYear" TenCapExample.metrics_2019).
Proof.
  repeat split; eexists; repeat split; reflexivity.
Qed.

Lemma undated_price :
  TenCap.calculate_ten_cap_price "demo" MoreExamples.undated_provider
    TenCapExample.repr "COF" None = Some 22.
Proof.
  destruct undated_records_found as (Hi & Hc & Hm).
  rewrite (ten_cap_run _ _ _ _ _ _ _ _ Hi Hc Hm).
  rewrite (ten_cap_of_records_formula _ _ _ 100000000 20000000 (-8000000)
             3000000 (-10000000) 50000000);
    try reflexivity; try lra.
  - cbn [except_none]. f_equal. rewrite Rabs_left by lra.
    unfold TenCap.MILLION. lra.
  - exact example_income_fits.
  - apply fields_fit_delete, example_cashflow_fits.
  - exact example_shares_fit.
Qed.

Lemma calculate_ten_cap_price_some_witness :
  exists (i c m : gmap string json) (pbt dep ar ap capex shares : R),
    TenCap.year_record TenCapExample.repr
      (FmpApi.get_income_statement "demo" MoreExamples.undated_provider
         "COF" 10) None i /\
    TenCap.year_record TenCapExample.repr
      (FmpApi.get_cashflow_statement "demo" MoreExamples.undated_provider
         "COF" 10) None c /\
    TenCap.year_record TenCapExample.repr
      (FmpApi.get_key_metrics "demo" MoreExamples.undated_provider
         "COF" 10) None m /\
    num (get i "incomeBeforeTax" (JInt 0)) = Some pbt /\
    num (TenCap.depreciation_value c) = Some dep /\
    (dep = 0 -> TenCap.depreciation_fields_numeric c) /\
    num (get c "accountsReceivables" (JInt 0)) = Some ar /\
    num (get c "accountsPayables" (JInt 0)) = Some ap /\
    num (get c "capitalExpenditure" (JInt 0)) = Some capex /\
    num (TenCap.shares_value m i) = Some shares /\
    0 < shares /\
    22 = 10 * (pbt + dep + ar + ap - Rabs capex / 2) / shares.
Proof.
  exact (calculate_ten_cap_price_some "demo" MoreExamples.undated_provider
           TenCapExample.repr "COF" None 22 undated_price).
Defined.

Lemma calculate_ten_cap_price_null_depreciation_witness :
  TenCap.calculate_ten_cap_price "demo"
    MoreExamples.null_depreciation_provider TenCapExample.repr "COF"
    (Some 2019%Z) = None.
Proof.
  apply (calculate_ten_cap_price_null_depreciation "demo"
           MoreExamples.null_depreciation_provider TenCapExample.repr
           "COF" (Some 2019%Z) MoreExamples.cashflow_null_depreciation
           "depreciationAndAmortization" JNull).
  - eexists. repeat split; reflexivity.
  - reflexivity.
  - reflexivity.
  - reflexivity.
  - reflexivity.
Defined.

Lemma print_ten_cap_analysis_outcome_witness :
  TenCapCli.print_ten_cap_analysis "demo" TenCapExample.provider
    TenCapExample.repr MoreExamples.money "COF"
  = (["Konnte keine TEN CAP Analyse für COF durchführen"], Return ()) /\
  TenCapCli.print_ten_cap_analysis "demo" MoreExamples.undated_provider
    TenCapExample.repr MoreExamples.money "COF"
  = ([], Raise TypeError).
Proof.
  split.
  - apply (proj1 (print_ten_cap_analysis_outcome "demo" TenCapExample.provider
                    TenCapExample.repr MoreExamples.money "COF")).
    left. reflexivity.
  - apply (proj2 (print_ten_cap_analysis_outcome "demo"
                    MoreExamples.undated_provider TenCapExample.repr
                    MoreExamples.money "COF") 22 undated_price).
    lra.
Defined.

Lemma yearly_readable (k : nat) :
  (k < Z.to_nat (1 + 1))%nat ->
  YearData.year_readable TenCapExample.repr
    (JList [JDict MoreExamples.income_2020; JDict MoreExamples.income_2019])
    (JList [JDict MoreExamples.cashflow_2019])
    (JList [JDict MoreExamples.metrics_2020; JDict MoreExamples.metrics_2019])
    (2019 + Z.of_nat k)%Z.
Proof.
  intros Hk. destruct k as [|[|k]]; [| |cbn in Hk; lia].
  - exists MoreExamples.income_2019, MoreExamples.cashflow_2019,
      MoreExamples.metrics_2019.
    do 3 (split; [reflexivity|]). split; [eexists; reflexivity|].
    split; [apply (quotient_fits_int 28000000000); [reflexivity | lra]|].
    split; [eexists; reflexivity|].
    split; [apply (quotient_fits_int 15000000000); [reflexivity | lra]|].
    split; [eexists; reflexivity|].
    right. eexists. reflexivity.
  - exists MoreExamples.income_2020, ∅, MoreExamples.metrics_2020.
    do 3 (split; [reflexivity|]). split; [eexists; reflexivity|].
    split; [apply (quotient_fits_int 31000000000); [reflexivity | lra]|].
    split; [eexists; reflexivity|].
    split; [apply (quotient_fits_int 0); [reflexivity | lra]|].
    split; [eexists; reflexivity|].
    left. reflexivity.
Qed.

Lemma yearly_returns :
  exists rows mos_metrics,
    YearData.get_year_data_by_range "demo" MoreExamples.yearly_provider
      TenCapExample.repr "COF" 2019 1 = Return (rows, mos_metrics).
Proof.
  apply (get_year_data_by_range_run "demo" MoreExamples.yearly_provider
           TenCapExample.repr "COF" 2019 1
           (JList [JDict MoreExamples.income_2020;
                   JDict MoreExamples.income_2019])
           (JList [JDict MoreExamples.cashflow_2019])
           (JList [JDict MoreExamples.metrics_2020;
                   JDict MoreExamples.metrics_2019]));
    try reflexivity.
  exact yearly_readable.
Qed.

Lemma get_year_data_by_range_shape_witness :
  exists rows book eps revenue cashflow,
    YearData.get_year_data_by_range "demo" MoreExamples.yearly_provider
      TenCapExample.repr "COF" 2019 1
    = Return (rows, [("book", book); ("eps", eps); ("revenue", revenue);
                     ("cashflow", cashflow)]) /\
    length rows = 2%nat /\ length book = 2%nat /\ length eps = 2%nat /\
    length revenue = 2%nat /\ length cashflow = 2%nat /\
    forall (k : nat) (r : YearData.row),
      rows !! k = Some r -> YearData.Year r = (2019 + Z.of_nat k)%Z.
Proof.
  destruct yearly_returns as (rows & mos & H).
  destruct (get_year_data_by_range_shape "demo" MoreExamples.yearly_provider
              TenCapExample.repr "COF" 2019 1 rows mos H)
    as (book & eps & revenue & cashflow & -> & Hshape).
  exists rows, book, eps, revenue, cashflow. split; [exact H | exact Hshape].
Defined.

Lemma get_year_data_by_range_entries_witness :
  exists (rows : list YearData.row) (book eps revenue cashflow_ps : list json)
         r b e rv cp,
    rows !! 1%nat = Some r /\ book !! 1%nat = Some b /\
    eps !! 1%nat = Some e /\ revenue !! 1%nat = Some rv /\
    cashflow_ps !! 1%nat = Some cp /\
    YearData.year_entry TenCapExample.repr
      (JList [JDict MoreExamples.income_2020; JDict MoreExamples.income_2019])
      (JList [JDict MoreExamples.cashflow_2019])
      (JList [JDict MoreExamples.metrics_2020;
              JDict MoreExamples.metrics_2019])
      (2019 + Z.of_nat 1)%Z r b e rv cp.
Proof.
  destruct yearly_returns as (rows & mos & H).
  destruct (get_year_data_by_range_inv _ _ _ _ _ _ _ _ H)
    as (_ & _ & _ & book & eps & revenue & cashflow_ps & _ & _ & _ & -> & _).
  exists rows, book, eps, revenue, cashflow_ps.
  apply (get_year_data_by_range_entries "demo" MoreExamples.yearly_provider
           TenCapExample.repr "COF" 2019 1 _ _ _ rows book eps revenue
           cashflow_ps 1 eq_refl eq_refl eq_refl H).
  cbn. lia.
Defined.

Lemma get_year_data_by_range_missing_year_witness :
  exists rows mos_metrics,
    YearData.get_year_data_by_range "demo" MoreExamples.yearly_provider
      TenCapExample.repr "COF" 2018 0 = Return (rows, mos_metrics) /\
    rows !! 0%nat = Some (YearData.Row (2018 + Z.of_nat 0) 0 0 (JInt 0) "–") /\
    forall (name : string) (series : list json),
      (name, series) ∈ mos_metrics -> series !! 0%nat = Some (JInt 0).
Proof.
  destruct (get_year_data_by_range_run "demo" MoreExamples.yearly_provider
              TenCapExample.repr "COF" 2018 0
              (JList [JDict MoreExamples.income_2020;
                      JDict MoreExamples.income_2019])
              (JList [JDict MoreExamples.cashflow_2019])
              (JList [JDict MoreExamples.metrics_2020;
                      JDict MoreExamples.metrics_2019])
              eq_refl eq_refl eq_refl) as (rows & mos & H).
  { intros k Hk. destruct k as [|k]; [|cbn in Hk; lia].
    exists ∅, ∅, ∅.
    do 3 (split; [reflexivity|]). split; [eexists; reflexivity|].
    split; [apply (quotient_fits_int 0); [reflexivity | lra]|].
    split; [eexists; reflexivity|].
    split; [apply (quotient_fits_int 0); [reflexivity | lra]|].
    split; [eexists; reflexivity|].
    left. reflexivity. }
  exists rows, mos. split; [exact H|].
  apply (get_year_data_by_range_missing_year "demo"
           MoreExamples.yearly_provider TenCapExample.repr "COF" 2018 0
           [JDict MoreExamples.income_2020; JDict MoreExamples.income_2019]
           [JDict MoreExamples.cashflow_2019]
           [JDict MoreExamples.metrics_2020; JDict MoreExamples.metrics_2019]
           rows mos 0 eq_refl eq_refl eq_refl);
    try exact H; try (cbn; lia);
    repeat (constructor; [eexists; split; [reflexivity | discriminate]|]);
    constructor.
Defined.

Lemma get_year_data_by_range_returns_only_readable_witness :
  (exists rows mos_metrics,
     YearData.get_year_data_by_range "demo" MoreExamples.yearly_provider
       TenCapExample.repr "COF" 2019 1 = Return (rows, mos_metrics) /\
     exists income cashflow metrics : json,
       FmpApi.get_income_statement "demo" MoreExamples.yearly_provider
         "COF" 20 = Return income /\
       FmpApi.get_cashflow_statement "demo" MoreExamples.yearly_provider
         "COF" 20 = Return cashflow /\
       FmpApi.get_key_metrics "demo" MoreExamples.yearly_provider
         "COF" 20 = Return metrics /\
       forall k : nat,
         (k < Z.to_nat (1 + 1))%nat ->
         YearData.year_readable TenCapExample.repr income cashflow metrics
           (2019 + Z.of_nat k)%Z) /\
  (exists e,
     YearData.get_year_data_by_range "demo" MoreExamples.oversized_provider
       TenCapExample.repr "COF" 2019 0 = Raise e).
Proof.
  split.
  - destruct yearly_returns as (rows & mos & H).
    exists rows, mos. split; [exact H|].
    exact (proj1 (get_year_data_by_range_returns_only_readable "demo"
                    MoreExamples.yearly_provider TenCapExample.repr
                    "COF" 2019 1) rows mos H).
  - apply (proj2 (get_year_data_by_range_returns_only_readable "demo"
                    MoreExamples.oversized_provider TenCapExample.repr
                    "COF" 2019 0)
             (JList [JDict MoreExamples.income_oversized]) (JList [])
             (JList []) 0%nat eq_refl eq_refl eq_refl).
    + cbn. lia.
    + intros (i & c & m & Hi & _ & _ & _ & Hfits & _).
      change (Return (JDict MoreExamples.income_oversized)
              = Return (JDict i)) in Hi.
      injection Hi as <-.
      apply (quotient_overflows_int (10 ^ 400));
        [apply Z.leb_le; reflexivity | exact Hfits].
Defined.

(** ** csv_report.py: the fair value history *)

Section CsvFacts.

Import CsvReport.

Variable FMP_API_KEY : string.
Variable requests_get_json : string -> outcome json.
Variable strptime : string -> option Z.
Variable strftime : Z -> string.
Variable py_repr : json -> string.
Variable float_of_str : string -> option R.
Variable format_2f : R -> string.

#[local] Abbreviation mos_growth_estimate :=
  (GrowthEstimation.mos_growth_estimate float_of_str).
#[local] Abbreviation get_valid_price :=
  (FmpApi.get_valid_price FMP_API_KEY requests_get_json strptime strftime).
#[local] Abbreviation year_row :=
  (CsvReport.year_row FMP_API_KEY requests_get_json strptime strftime
     py_repr float_of_str format_2f).
#[local] Abbreviation history_loop :=
  (CsvReport.history_loop FMP_API_KEY requests_get_json strptime strftime
     py_repr float_of_str format_2f).
#[local] Abbreviation fair_value_history_of :=
  (CsvReport.fair_value_history_of FMP_API_KEY requests_get_json strptime
     strftime py_repr float_of_str format_2f).
#[local] Abbreviation row_of_own_year :=
  (CsvReport.row_of_own_year float_of_str).

Lemma range_offsets : YearData.range (-1) 4 = [-1; 0; 1; 2; 3]%Z.
Proof. reflexivity. Qed.

Lemma mos_growth_estimate_too_early (metrics_raw : list (string * list R))
    (target_year data_start_year : Z) :
  (target_year - data_start_year < 5)%Z ->
  mos_growth_estimate metrics_raw target_year data_start_year
  = Raise ValueError.
Proof.
  intros H. unfold GrowthEstimation.mos_growth_estimate.
  rewrite (proj2 (Z.ltb_lt _ 0)) by lia. reflexivity.
Qed.

Lemma mos_growth_estimate_return_inv (metrics_raw : list (string * list R))
    (target_year data_start_year : Z) (d : gmap string R) :
  mos_growth_estimate metrics_raw target_year data_start_year = Return d ->
  (5 <= target_year - data_start_year)%Z.
Proof.
  intros H.
  destruct (Z.lt_ge_cases (target_year - data_start_year) 5) as [Hlt|Hge];
    [|exact Hge].
  rewrite mos_growth_estimate_too_early in H by exact Hlt. discriminate H.
Qed.

Lemma calculate_intrinsic_value_report_rates (eps growth_rate : R)
    (year : Z) :
  exists (intrinsic : gmap string R) (a b c d : R),
    Mos.calculate_intrinsic_value eps growth_rate year (Some 0.15)
      (Some 0.50) = Return intrinsic /\
    intrinsic !! "EPS_10y" = Some a /\
    intrinsic !! "Future Value" = Some b /\
    intrinsic !! "Fair Value Today" = Some c /\
    intrinsic !! "MOS Price (50%)" = Some d.
Proof.
  unfold Mos.calculate_intrinsic_value, truediv. cbn [num default from_option].
  destruct (bool_decide (eps <= 0) || bool_decide (growth_rate <= 0)).
  - do 5 eexists. split; [reflexivity|].
    repeat split; simplify_map_eq; reflexivity.
  - rewrite (bool_decide_eq_false_2 ((1 + 0.15) ^ 10 = 0))
      by (apply pow_nonzero; lra).
    cbn [mbind outcome_bind]. do 5 eexists. split; [reflexivity|].
    repeat split; simplify_map_eq; reflexivity.
Qed.

Lemma item_inv (d : gmap string R) (key : string) (x : R) :
  item d key = Ok x -> d !! key = Some x.
Proof.
  unfold item. destruct (d !! key); intros H; [|discriminate H].
  injection H as ->. reflexivity.
Qed.

Lemma result_bind_Ok_inv {A B : Type} (m : result A) (k : A -> result B)
    (b : B) :
  m ≫= k = Ok b -> exists a, m = Ok a /\ k a = Ok b.
Proof.
  destruct m as [a|e|name]; cbn [mbind result_bind]; intros H;
    try discriminate H.
  exists a. split; [reflexivity | exact H].
Qed.

(** A row that [year_row] appends: either the estimate of the year
    returned, and the row is the row of that year, or it raised, and the
    row shows the growth of the estimate the state still holds next to a
    valuation at the rate 0. *)
Lemma year_row_inv (ticker : string) (metrics_raw : list (string * list R))
    (start_year : Z) (st st' : state) (year_index : Z) (eps : R) :
  year_row ticker metrics_raw start_year st year_index eps = Ok st' ->
  let year := (start_year + year_index)%Z in
  exists (d intrinsic : gmap string R) (growth_rate : R) (row : fair_row),
    growth_details st' = Some d /\
    fair_value_history st' = fair_value_history st ++ [row] /\
    (mos_growth_estimate metrics_raw year start_year = Return d /\
     growth_rate = default 0 (d !! "avg") / 100
     \/ (exists e, mos_growth_estimate metrics_raw year start_year = Raise e)
        /\ growth_details st = Some d /\ growth_rate = 0) /\
    row_year row = year /\
    row_eps row = round2 eps /\
    row_growth row = from_option JFloat (JStr "N/A") (d !! "avg") /\
    Mos.calculate_intrinsic_value eps growth_rate year (Some 0.15)
      (Some 0.50) = Return intrinsic /\
    intrinsic !! "EPS_10y" = Some (row_eps_10y row) /\
    intrinsic !! "Future Value" = Some (row_future_value row) /\
    intrinsic !! "Fair Value Today" = Some (row_fair_value row) /\
    intrinsic !! "MOS Price (50%)" = Some (row_mos_price row).
Proof.
  intros H year. unfold CsvReport.year_row in H. fold year in H.
  apply result_bind_Ok_inv in H as (priced & _ & H).
  apply result_bind_Ok_inv in H as (intrinsic & Hintr & H).
  apply result_bind_Ok_inv in H as (a & Ha%item_inv & H).
  apply result_bind_Ok_inv in H as (b & Hb%item_inv & H).
  apply result_bind_Ok_inv in H as (c & Hc%item_inv & H).
  apply result_bind_Ok_inv in H as (m & Hm%item_inv & H).
  apply result_bind_Ok_inv in H as (d & Hd & H).
  apply result_bind_Ok_inv in H as (shown & _ & H).
  injection H as <-. cbn [growth_details fair_value_history].
  destruct (mos_growth_estimate metrics_raw year start_year) as [d'|e]
    eqn:Hest.
  - injection Hd as ->.
    destruct (Mos.calculate_intrinsic_value eps _ year _ _) as [i|e]
      eqn:Hi in Hintr; [|discriminate Hintr].
    injection Hintr as ->.
    exists d, intrinsic, (default 0 (d !! "avg") / 100). eexists.
    split; [reflexivity|]. split; [reflexivity|].
    split; [left; split; reflexivity|].
    cbn [row_year row_eps row_growth row_eps_10y row_future_value
         row_fair_value row_mos_price].
    repeat split; assumption.
  - destruct (growth_details st) as [d0|] eqn:Hst; [|discriminate Hd].
    injection Hd as ->.
    destruct (Mos.calculate_intrinsic_value eps _ year _ _) as [i|e']
      eqn:Hi in Hintr; [|discriminate Hintr].
    injection Hintr as ->.
    exists d, intrinsic, 0. eexists.
    split; [reflexivity|]. split; [reflexivity|].
    split; [right; split; [eexists; reflexivity | split; reflexivity]|].
    cbn [row_year row_eps row_growth row_eps_10y row_future_value
         row_fair_value row_mos_price].
    repeat split; assumption.
Qed.

(** X19. With fewer than five years between the start of the data and the
    breach, the [ValueError] of the first growth estimate leaves the
    function: no row is built and no price is requested. *)
Theorem fair_value_history_insufficient_history
    (metrics_raw : list (string * list R)) (breach_year start_year : Z)
    (ticker : string) (log : list string) :
  (breach_year - start_year < 5)%Z ->
  fair_value_history_of metrics_raw breach_year start_year ticker log
  = Fail ValueError.
Proof.
  intros H. unfold CsvReport.fair_value_history_of.
  rewrite mos_growth_estimate_too_early by exact H. reflexivity.
Qed.

(** X20. With exactly five years between the start of the data and the
    breach and an EPS for the year before the breach, the growth estimate
    of that year fails and is replaced by the rate 0, but no row comes of
    it: once the price lookup has returned, building the row reads
    [growth_details], which was never assigned; when the price lookup
    raises, its exception leaves the function. *)
Theorem fair_value_history_unbound_growth_details
    (metrics_raw : list (string * list R)) (breach_year start_year : Z)
    (ticker : string) (log : list string) :
  (breach_year - start_year = 5)%Z ->
  (5 <= length (get_list metrics_raw "eps"))%nat ->
  let base_date := pretty (start_year + 4)%Z +:+ "-12-31" in
  (forall (p d : json) (log' : list string),
     get_valid_price ticker base_date log = Return (p, d, log') ->
     fair_value_history_of metrics_raw breach_year start_year ticker log
     = UnboundLocalError "growth_details") /\
  (forall e : exn,
     get_valid_price ticker base_date log = Raise e ->
     fair_value_history_of metrics_raw breach_year start_year ticker log
     = Fail e).
Proof.
  intros Hfive Hlen base_date.
  assert (Hrun : fair_value_history_of metrics_raw breach_year start_year
                   ticker log
                 = st ← (priced ← lift (get_valid_price ticker base_date log);
                         (UnboundLocalError "growth_details" : result state));
                   history_loop ticker metrics_raw breach_year start_year
                     (get_list metrics_raw "eps") st [0; 1; 2; 3]%Z
                   ≫= λ st', Ok (fair_value_history st', request_log st')).
  { unfold CsvReport.fair_value_history_of.
    rewrite (mos_growth_estimate_returns float_of_str) by lia.
    cbn [lift mbind result_bind]. rewrite range_offsets.
    cbn [CsvReport.history_loop].
    replace (breach_year - start_year + -1)%Z with 4%Z by lia.
    rewrite (proj2 (Z.leb_le 0 4)) by lia.
    rewrite (proj2 (Z.ltb_lt 4 _)) by lia. cbn [andb].
    destruct (lookup_lt_is_Some_2 (get_list metrics_raw "eps") (Z.to_nat 4))
      as [eps Heps]; [lia|].
    rewrite Heps. unfold CsvReport.year_row.
    rewrite (mos_growth_estimate_too_early metrics_raw (start_year + 4)
               start_year ltac:(lia)).
    cbn [growth_details request_log]. fold base_date.
    destruct (get_valid_price ticker base_date log) as [priced|e];
      cbn [lift mbind result_bind]; [|reflexivity].
    unfold Mos.calculate_intrinsic_value.
    rewrite (bool_decide_eq_true_2 (0 <= 0)) by lra. rewrite orb_true_r.
    cbn [lift mbind result_bind]. unfold item.
    rewrite !lookup_insert_ne by discriminate.
    rewrite lookup_insert_eq. cbn [mbind result_bind].
    rewrite lookup_insert_ne, lookup_insert_eq by discriminate.
    cbn [mbind result_bind].
    rewrite !lookup_insert_ne, lookup_insert_eq by discriminate.
    reflexivity. }
  rewrite Hrun. split.
  - intros p d log' ->. reflexivity.
  - intros e ->. reflexivity.
Qed.

Lemma history_loop_inv (ticker : string)
    (metrics_raw : list (string * list R)) (breach_year start_year : Z)
    (offsets : list Z) :
  (5 <= breach_year - start_year)%Z ->
  forall st st' : state,
    history_loop ticker metrics_raw breach_year start_year
      (get_list metrics_raw "eps") st offsets = Ok st' ->
    StronglySorted Z.lt offsets ->
    Forall (λ o, (-1 <= o <= 3)%Z) offsets ->
    (growth_details st = None
     \/ Forall (λ o, (5 <= breach_year - start_year + o)%Z) offsets) ->
    Forall (row_of_own_year metrics_raw breach_year start_year)
      (fair_value_history st) ->
    Forall (row_of_own_year metrics_raw breach_year start_year)
      (fair_value_history st') /\
    map row_year (fair_value_history st')
    = map row_year (fair_value_history st)
      ++ map (λ o, (breach_year + o)%Z)
           (filter (λ o, (breach_year - start_year + o
                          < Z.of_nat (length (get_list metrics_raw "eps")))%Z)
              offsets).
Proof.
  intros Hfive. induction offsets as [|o rest IH];
    intros st st' Hrun Hsorted Hbounds Hfresh Hrows.
  - injection Hrun as <-. split; [exact Hrows|].
    rewrite filter_nil. cbn [map]. rewrite app_nil_r. reflexivity.
  - apply StronglySorted_inv in Hsorted as [Hsorted Hlater].
    apply Forall_cons in Hbounds as [Ho Hbounds].
    cbn [CsvReport.history_loop] in Hrun.
    rewrite (proj2 (Z.leb_le 0 _)) in Hrun by lia. cbn [andb] in Hrun.
    rewrite filter_cons.
    destruct (decide (breach_year - start_year + o
                      < Z.of_nat (length (get_list metrics_raw "eps")))%Z)
      as [Hin|Hout].
    + rewrite (proj2 (Z.ltb_lt _ _)) in Hrun by exact Hin.
      destruct (get_list metrics_raw "eps"
                  !! Z.to_nat (breach_year - start_year + o)) as [eps|]
        eqn:Heps; [|discriminate Hrun].
      apply result_bind_Ok_inv in Hrun as (st1 & Hrow & Hrun).
      apply year_row_inv in Hrow
        as (d & intrinsic & g & row & Hd & Hhist & Hest & Hyear & Hreps
            & Hgrowth & Hintr & Ha & Hb & Hc & Hm).
      destruct Hest as [[Hest ->]|[[e Hest] [Hst _]]].
      * pose proof (mos_growth_estimate_return_inv _ _ _ _ Hest) as Hidx.
        destruct (IH st1 st' Hrun Hsorted Hbounds) as [Hall Hyears].
        { right. eapply Forall_impl; [exact Hlater|].
          intros o' Ho'. cbn beta in Ho'. lia. }
        { rewrite Hhist. apply Forall_app. split; [exact Hrows|].
          apply Forall_singleton.
          exists (Z.to_nat (breach_year - start_year + o)), eps, d, intrinsic.
          rewrite Hyear.
          split; [lia|]. split; [lia|]. split; [exact Heps|].
          split; [exact Hreps|]. split; [exact Hest|].
          split; [exact Hgrowth|]. split; [exact Hintr|].
          repeat split; assumption. }
        split; [exact Hall|]. rewrite Hyears, Hhist, map_app.
        cbn [map]. rewrite Hyear, <- app_assoc. cbn [app].
        do 2 f_equal. lia.
      * exfalso. destruct Hfresh as [Hnone|Hall].
        { rewrite Hnone in Hst. discriminate Hst. }
        apply Forall_cons in Hall as [Hidx _].
        rewrite (mos_growth_estimate_returns float_of_str) in Hest
          by (cbn zeta; lia).
        discriminate Hest.
    + rewrite (proj2 (Z.ltb_ge _ _)) in Hrun by lia.
      apply (IH st st' Hrun Hsorted Hbounds); [|exact Hrows].
      destruct Hfresh as [Hnone|Hall]; [left; exact Hnone|].
      right. apply Forall_cons in Hall as [_ Hall]. exact Hall.
Qed.

(** X21. When the history is returned, its rows are those of the years
    from one before to three after the breach that have an EPS, in that
    order, and every row is the row of its own year: its growth is the
    average estimated for that year, and its valuation is the one of that
    year's EPS at a hundredth of that average. The rate 0 that replaces a
    failed estimate never reaches a returned row. *)
Theorem fair_value_history_rows (metrics_raw : list (string * list R))
    (breach_year start_year : Z) (ticker : string) (log log' : list string)
    (rows : list fair_row) :
  fair_value_history_of metrics_raw breach_year start_year ticker log
  = Ok (rows, log') ->
  Forall (row_of_own_year metrics_raw breach_year start_year) rows /\
  map row_year rows
  = map (λ o, (breach_year + o)%Z)
      (filter (λ o, (breach_year - start_year + o
                     < Z.of_nat (length (get_list metrics_raw "eps")))%Z)
         [-1; 0; 1; 2; 3]%Z).
Proof.
  intros Hrun. unfold CsvReport.fair_value_history_of in Hrun.
  destruct (mos_growth_estimate metrics_raw breach_year start_year)
    as [details|e] eqn:Hdetails; [|discriminate Hrun].
  apply mos_growth_estimate_return_inv in Hdetails.
  cbn [lift mbind result_bind] in Hrun. rewrite range_offsets in Hrun.
  destruct (history_loop _ _ _ _ _ _ _) as [st'| |] eqn:Hloop in Hrun;
    try discriminate Hrun.
  injection Hrun as <- <-.
  apply (history_loop_inv _ _ _ _ _ Hdetails) in Hloop.
  - exact Hloop.
  - repeat (constructor; [|repeat constructor; lia]). constructor.
  - repeat constructor; lia.
  - left. reflexivity.
  - constructor.
Qed.

Lemma fair_value_history_of_loop (metrics_raw : list (string * list R))
    (breach_year start_year : Z) (ticker : string) (log : list string) :
  (5 <= breach_year - start_year)%Z ->
  fair_value_history_of metrics_raw breach_year start_year ticker log
  = st' ← history_loop ticker metrics_raw breach_year start_year
            (get_list metrics_raw "eps") (State None [] log)
            [-1; 0; 1; 2; 3]%Z;
    Ok (fair_value_history st', request_log st').
Proof.
  intros Hfive. unfold CsvReport.fair_value_history_of.
  rewrite (mos_growth_estimate_returns float_of_str) by (cbn zeta; lia).
  cbn [lift mbind result_bind]. rewrite range_offsets. reflexivity.
Qed.

Lemma year_row_run (ticker : string) (metrics_raw : list (string * list R))
    (start_year : Z) (st : state) (year_index : Z) (eps : R) :
  (5 <= year_index)%Z ->
  (exists (p d : json) (log' : list string),
     get_valid_price ticker (pretty (start_year + year_index)%Z +:+ "-12-31")
       (request_log st) = Return (p, d, log') /\
     (truthy p = true -> is_Some (num p))) ->
  exists st',
    year_row ticker metrics_raw start_year st year_index eps = Ok st'.
Proof.
  intros Hidx (p & d & log' & Hp & Hnum). unfold CsvReport.year_row.
  rewrite (mos_growth_estimate_returns float_of_str metrics_raw
             (start_year + year_index) start_year ltac:(cbn zeta; lia)).
  rewrite Hp. cbn [lift mbind result_bind].
  match goal with
  | |- context [Mos.calculate_intrinsic_value eps ?g ?y _ _] =>
    destruct (calculate_intrinsic_value_report_rates eps g y)
      as (i & a & b & c & m & Hi & Ha & Hb & Hc & Hm)
  end.
  rewrite Hi. cbn [lift mbind result_bind]. unfold item.
  rewrite Ha, Hb, Hc, Hm. cbn [mbind result_bind fst snd].
  destruct (truthy p) eqn:Ht.
  - destruct (proj2 (round_json_returns p) (Hnum eq_refl)) as [x Hx].
    rewrite Hx. cbn [lift mbind result_bind]. eexists. reflexivity.
  - cbn [mbind result_bind]. eexists. reflexivity.
Qed.

Lemma history_loop_run (ticker : string)
    (metrics_raw : list (string * list R)) (breach_year start_year : Z)
    (offsets : list Z) :
  (5 <= breach_year - start_year)%Z ->
  ((breach_year - start_year)%Z = 5%Z ->
   (length (get_list metrics_raw "eps") < 5)%nat) ->
  (forall (year : Z) (log : list string),
     (breach_year - 1 <= year <= breach_year + 3)%Z ->
     (year - start_year < Z.of_nat (length (get_list metrics_raw "eps")))%Z ->
     exists (p d : json) (log' : list string),
       get_valid_price ticker (pretty year +:+ "-12-31") log
       = Return (p, d, log') /\
       (truthy p = true -> is_Some (num p))) ->
  Forall (λ o, (-1 <= o <= 3)%Z) offsets ->
  forall st : state,
    exists st',
      history_loop ticker metrics_raw breach_year start_year
        (get_list metrics_raw "eps") st offsets = Ok st'.
Proof.
  intros Hfive Hlast Hprice. induction offsets as [|o rest IH];
    intros Hbounds st.
  - eexists. reflexivity.
  - apply Forall_cons in Hbounds as [Ho Hbounds].
    cbn [CsvReport.history_loop].
    rewrite (proj2 (Z.leb_le 0 _)) by lia. cbn [andb].
    destruct (Z.ltb_spec (breach_year - start_year + o)
                (Z.of_nat (length (get_list metrics_raw "eps"))))
      as [Hin|Hout]; [|exact (IH Hbounds st)].
    destruct (lookup_lt_is_Some_2 (get_list metrics_raw "eps")
                (Z.to_nat (breach_year - start_year + o))) as [eps Heps];
      [lia|].
    rewrite Heps.
    destruct (year_row_run ticker metrics_raw start_year st
                (breach_year - start_year + o)%Z eps) as [st1 Hst1].
    + destruct (Z.eq_dec (breach_year - start_year)%Z 5%Z) as [Heq|Hne];
        [|lia].
      specialize (Hlast Heq). lia.
    + apply Hprice; lia.
    + rewrite Hst1. cbn [mbind result_bind]. exact (IH Hbounds st1).
Qed.

(** X22. The history is returned when the breach is at least five years
    after the start of the data, the year before the breach has no EPS if
    the breach is exactly five years after the start, and, for every year
    from one before to three after the breach that has an EPS, the price
    lookup returns a price that is falsy or a number. *)
Theorem fair_value_history_returns (metrics_raw : list (string * list R))
    (breach_year start_year : Z) (ticker : string) (log : list string) :
  (5 <= breach_year - start_year)%Z ->
  ((breach_year - start_year)%Z = 5%Z ->
   (length (get_list metrics_raw "eps") < 5)%nat) ->
  (forall (year : Z) (log0 : list string),
     (breach_year - 1 <= year <= breach_year + 3)%Z ->
     (year - start_year < Z.of_nat (length (get_list metrics_raw "eps")))%Z ->
     exists (p d : json) (log1 : list string),
       get_valid_price ticker (pretty year +:+ "-12-31") log0
       = Return (p, d, log1) /\
       (truthy p = true -> is_Some (num p))) ->
  exists (rows : list fair_row) (log' : list string),
    fair_value_history_of metrics_raw breach_year start_year ticker log
    = Ok (rows, log').
Proof.
  intros Hfive Hlast Hprice.
  rewrite fair_value_history_of_loop by exact Hfive.
  destruct (history_loop_run ticker metrics_raw breach_year start_year
              [-1; 0; 1; 2; 3]%Z Hfive Hlast Hprice
              ltac:(repeat constructor; lia) (State None [] log))
    as [st' Hst'].
  rewrite Hst'. cbn [mbind result_bind]. eauto.
Qed.

End CsvFacts.

Lemma six_years_price (year : Z) (log : list string) :
  (2020 - 1 <= year <= 2020 + 3)%Z ->
  (year - 2014
   < Z.of_nat (length (CsvReport.get_list MoreExamples.six_years_of_eps
                         "eps")))%Z ->
  exists (p d : json) (log' : list string),
    FmpApi.get_valid_price "demo" MoreExamples.no_price_provider
      PriceExample.strptime PriceExample.strftime "COF"
      (pretty year +:+ "-12-31") log = Return (p, d, log') /\
    (truthy p = true -> is_Some (num p)).
Proof.
  intros Hyear Hlen. cbn in Hlen. assert (year = 2019%Z) as -> by lia.
  exists JNull, JNull. eexists. split; [reflexivity|].
  intros H. discriminate H.
Qed.

Lemma six_years_history :
  exists (rows : list CsvReport.fair_row) (log' : list string),
    CsvReport.fair_value_history_of "demo" MoreExamples.no_price_provider
      PriceExample.strptime PriceExample.strftime TenCapExample.repr
      (fun _ => None) MoreExamples.money MoreExamples.six_years_of_eps
      2020 2014 "COF" [] = CsvReport.Ok (rows, log').
Proof.
  rewrite fair_value_history_of_loop by lia.
  destruct (history_loop_run "demo" MoreExamples.no_price_provider
              PriceExample.strptime PriceExample.strftime TenCapExample.repr
              (fun _ => None) MoreExamples.money "COF"
              MoreExamples.six_years_of_eps 2020 2014 [-1; 0; 1; 2; 3]%Z
              ltac:(lia) ltac:(lia) six_years_price
              ltac:(repeat constructor; lia)
              (CsvReport.State None [] [])) as [st' Hst'].
  rewrite Hst'. cbn [mbind CsvReport.result_bind]. eauto.
Qed.

Lemma fair_value_history_insufficient_history_witness :
  CsvReport.fair_value_history_of "demo" MoreExamples.no_price_provider
    PriceExample.strptime PriceExample.strftime TenCapExample.repr
    (fun _ => None) MoreExamples.money MoreExamples.six_years_of_eps
    2018 2014 "COF" [] = CsvReport.Fail ValueError.
Proof.
  apply fair_value_history_insufficient_history. lia.
Defined.

Lemma fair_value_history_unbound_growth_details_witness :
  CsvReport.fair_value_history_of "demo" MoreExamples.no_price_provider
    PriceExample.strptime PriceExample.strftime TenCapExample.repr
    (fun _ => None) MoreExamples.money MoreExamples.six_years_of_eps
    2020 2015 "COF" [] = CsvReport.UnboundLocalError "growth_details".
Proof.
  eapply (proj1 (fair_value_history_unbound_growth_details "demo"
                   MoreExamples.no_price_provider PriceExample.strptime
                   PriceExample.strftime TenCapExample.repr (fun _ => None)
                   MoreExamples.money MoreExamples.six_years_of_eps
                   2020 2015 "COF" [] eq_refl ltac:(cbn; lia))).
  reflexivity.
Defined.

Lemma fair_value_history_rows_witness :
  exists (rows : list CsvReport.fair_row) (log' : list string),
    CsvReport.fair_value_history_of "demo" MoreExamples.no_price_provider
      PriceExample.strptime PriceExample.strftime TenCapExample.repr
      (fun _ => None) MoreExamples.money MoreExamples.six_years_of_eps
      2020 2014 "COF" [] = CsvReport.Ok (rows, log') /\
    Forall (CsvReport.row_of_own_year (fun _ => None)
              MoreExamples.six_years_of_eps 2020 2014) rows /\
    map CsvReport.row_year rows = [2019%Z].
Proof.
  destruct six_years_history as (rows & log' & Hrun).
  exists rows, log'. split; [exact Hrun|].
  exact (fair_value_history_rows "demo" MoreExamples.no_price_provider
           PriceExample.strptime PriceExample.strftime TenCapExample.repr
           (fun _ => None) MoreExamples.money MoreExamples.six_years_of_eps
           2020 2014 "COF" [] log' rows Hrun).
Defined.

Lemma fair_value_history_returns_witness :
  exists (rows : list CsvReport.fair_row) (log' : list string),
    CsvReport.fair_value_history_of "demo" MoreExamples.no_price_provider
      PriceExample.strptime PriceExample.strftime TenCapExample.repr
      (fun _ => None) MoreExamples.money MoreExamples.six_years_of_eps
      2020 2014 "COF" [] = CsvReport.Ok (rows, log').
Proof.
  apply (fair_value_history_returns "demo" MoreExamples.no_price_provider
           PriceExample.strptime PriceExample.strftime TenCapExample.repr
           (fun _ => None) MoreExamples.money MoreExamples.six_years_of_eps
           2020 2014 "COF" []).
  - lia.
  - lia.
  - exact six_years_price.
Defined.
